(** * The QUIC session engine of node_quic_session.cc

    A shallow embedding of [QuicSession], [QuicServerSession] and
    [QuicClientSession]: the closing / draining state machine, the send
    path ([SendPacket], [SendStreamData], [SendPendingData],
    [WritePackets], [SendConnectionClose]), the receive path ([Receive],
    [ReceivePacket] and the transport callbacks it triggers), the crypto
    buffers, the stream table and the timers; and around them the
    keep-alive, the retransmission timeout, the handshake output, the
    close and destroy entry points of the binding, and the look at a
    first packet.

    The session object is a record; every member function is a function
    from the session to an [outcome]: a result with the updated session, an
    abort (a failed [CHECK]), or exhausted fuel (the two [for (;;)] loops
    and the [WritePackets] / [SendConnectionClose] recursion are bounded by
    a fuel argument).  The transport library, the loop clock and the UDP
    socket are outside the repository: they are the operations of the
    [Host] class, over an abstract host state. *)

From Stdlib Require Import ZArith List Bool String Lia.
Import ListNotations.
Local Open Scope string_scope.
Local Open Scope list_scope.
Local Open Scope Z_scope.

Set Implicit Arguments.

(** ** Machine integers *)

Module Int.

(** [uint64_t] and [size_t] arithmetic is modulo 2^64. *)
Definition wrap64 (z : Z) : Z := z mod 2 ^ 64.

(** [static_cast<int>] of an [ssize_t]. *)
Definition to_int (z : Z) : Z := (z + 2 ^ 31) mod 2 ^ 32 - 2 ^ 31.

Definition in_int (z : Z) : Prop := - 2 ^ 31 <= z < 2 ^ 31.
Definition in_uint64 (z : Z) : Prop := 0 <= z < 2 ^ 64.

End Int.

(** ** Bytes and buffers *)

Definition bytes := list Byte.byte.

Definition blen (b : bytes) : Z := Z.of_nat (List.length b).

(** Modelled from the spec: [QuicBuffer] (node_quic_buffer.h is not part of
    the sources).  The spec describes an append-only queue of outbound
    bytes: [Push] appends at the tail, "consuming N bytes on ack frees the
    oldest N bytes", [Cancel] drops what is left and reports how much that
    was.  The queue is kept oldest byte first. *)
Module QuicBuffer.

Definition t := bytes.

Definition empty : t := [].

Definition Length (b : t) : Z := blen b.

Definition Push (b : t) (data : bytes) : t := b ++ data.

Definition Consume (b : t) (amount : Z) : t := skipn (Z.to_nat amount) b.

Definition Cancel (b : t) : Z * t := (Length b, empty).

(** [txbuf_ += std::move(sendbuf_)] *)
Definition Append (b from : t) : t := b ++ from.

End QuicBuffer.

(** ** Constants of the transport library

    ngtcp2.h belongs to the transport library, not to the repository: its
    error codes are parameters.  The C++ [switch] statements need the codes
    to be distinct, and the code treats them as negative [ssize_t] results. *)

Class Ngtcp2Constants : Type := {
  NGTCP2_NO_ERROR : Z;
  NGTCP2_ERR_PKT_NUM_EXHAUSTED : Z;
  NGTCP2_ERR_STREAM_DATA_BLOCKED : Z;
  NGTCP2_ERR_STREAM_SHUT_WR : Z;
  NGTCP2_ERR_STREAM_NOT_FOUND : Z;
  NGTCP2_ERR_RECV_VERSION_NEGOTIATION : Z;
  NGTCP2_ERR_CLOSING : Z;
  NGTCP2_ERR_DRAINING : Z;
  NGTCP2_ERR_INTERNAL : Z;
  ngtcp2_err_negative :
    Forall (fun e => - 2 ^ 31 <= e < 0)
      [NGTCP2_ERR_PKT_NUM_EXHAUSTED; NGTCP2_ERR_STREAM_DATA_BLOCKED;
       NGTCP2_ERR_STREAM_SHUT_WR; NGTCP2_ERR_STREAM_NOT_FOUND;
       NGTCP2_ERR_RECV_VERSION_NEGOTIATION; NGTCP2_ERR_CLOSING;
       NGTCP2_ERR_DRAINING; NGTCP2_ERR_INTERNAL];
  ngtcp2_err_distinct :
    NoDup
      [NGTCP2_ERR_PKT_NUM_EXHAUSTED; NGTCP2_ERR_STREAM_DATA_BLOCKED;
       NGTCP2_ERR_STREAM_SHUT_WR; NGTCP2_ERR_STREAM_NOT_FOUND;
       NGTCP2_ERR_RECV_VERSION_NEGOTIATION; NGTCP2_ERR_CLOSING;
       NGTCP2_ERR_DRAINING; NGTCP2_ERR_INTERNAL]
}.

(** ** The data model *)

Inductive ngtcp2_crypto_side := NGTCP2_CRYPTO_SIDE_CLIENT | NGTCP2_CRYPTO_SIDE_SERVER.

Inductive ngtcp2_crypto_level :=
| NGTCP2_CRYPTO_LEVEL_INITIAL
| NGTCP2_CRYPTO_LEVEL_HANDSHAKE
| NGTCP2_CRYPTO_LEVEL_APP.

Inductive QuicErrorFamily := QUIC_ERROR_SESSION | QUIC_ERROR_CRYPTO | QUIC_ERROR_APPLICATION.

Record QuicError := InitQuicError { family : QuicErrorFamily; code : Z }.

Inductive QuicSessionFlag :=
| QUICSESSION_FLAG_DESTROYED
| QUICSESSION_FLAG_CLOSING
| QUICSESSION_FLAG_GRACEFUL_CLOSING
| QUICSESSION_FLAG_SILENT_CLOSE
| QUICSESSION_FLAG_KEYUPDATE
| QUICSESSION_FLAG_NGTCP2_CALLBACK.

(** Modelled from the spec: the flag word of the session with [IsFlagSet]
    and [SetFlag] (node_quic_session.h is not part of the sources), one
    boolean per flag that node_quic_session.cc tests or sets.
    [QUICSESSION_FLAG_NGTCP2_CALLBACK] is the marker that
    [Ngtcp2CallbackScope] sets for the duration of a transport callback. *)
Record QuicSessionFlags := {
  flag_destroyed : bool;
  flag_closing : bool;
  flag_graceful_closing : bool;
  flag_silent_close : bool;
  flag_keyupdate : bool;
  flag_ngtcp2_callback : bool
}.

Definition no_flags : QuicSessionFlags :=
  {| flag_destroyed := false; flag_closing := false;
     flag_graceful_closing := false; flag_silent_close := false;
     flag_keyupdate := false; flag_ngtcp2_callback := false |}.

Definition flag_get (f : QuicSessionFlag) (fs : QuicSessionFlags) : bool :=
  match f with
  | QUICSESSION_FLAG_DESTROYED => flag_destroyed fs
  | QUICSESSION_FLAG_CLOSING => flag_closing fs
  | QUICSESSION_FLAG_GRACEFUL_CLOSING => flag_graceful_closing fs
  | QUICSESSION_FLAG_SILENT_CLOSE => flag_silent_close fs
  | QUICSESSION_FLAG_KEYUPDATE => flag_keyupdate fs
  | QUICSESSION_FLAG_NGTCP2_CALLBACK => flag_ngtcp2_callback fs
  end.

Definition flag_set (f : QuicSessionFlag) (on : bool) (fs : QuicSessionFlags)
  : QuicSessionFlags :=
  let (d, c, g, s, k, n) := fs in
  match f with
  | QUICSESSION_FLAG_DESTROYED => Build_QuicSessionFlags on c g s k n
  | QUICSESSION_FLAG_CLOSING => Build_QuicSessionFlags d on g s k n
  | QUICSESSION_FLAG_GRACEFUL_CLOSING => Build_QuicSessionFlags d c on s k n
  | QUICSESSION_FLAG_SILENT_CLOSE => Build_QuicSessionFlags d c g on k n
  | QUICSESSION_FLAG_KEYUPDATE => Build_QuicSessionFlags d c g s on n
  | QUICSESSION_FLAG_NGTCP2_CALLBACK => Build_QuicSessionFlags d c g s k on
  end.

(** The part of [session_stats] the modelled routines write. *)
Record session_stats := {
  handshake_acked_at : Z;
  session_sent_at : Z;
  session_received_at : Z;
  bytes_received : Z;
  bytes_sent : Z;
  bidi_stream_count : Z;
  uni_stream_count : Z;
  streams_in_count : Z;
  streams_out_count : Z
}.

Definition zero_stats : session_stats :=
  {| handshake_acked_at := 0; session_sent_at := 0; session_received_at := 0;
     bytes_received := 0; bytes_sent := 0; bidi_stream_count := 0;
     uni_stream_count := 0; streams_in_count := 0; streams_out_count := 0 |}.

(** A pointer to member of [session_stats], as [IncrementStat] takes it. *)
Inductive stat_member :=
| m_handshake_acked_at | m_session_sent_at | m_session_received_at
| m_bytes_received | m_bytes_sent | m_bidi_stream_count
| m_uni_stream_count | m_streams_in_count | m_streams_out_count.

Definition stat_get (m : stat_member) (st : session_stats) : Z :=
  match m with
  | m_handshake_acked_at => handshake_acked_at st
  | m_session_sent_at => session_sent_at st
  | m_session_received_at => session_received_at st
  | m_bytes_received => bytes_received st
  | m_bytes_sent => bytes_sent st
  | m_bidi_stream_count => bidi_stream_count st
  | m_uni_stream_count => uni_stream_count st
  | m_streams_in_count => streams_in_count st
  | m_streams_out_count => streams_out_count st
  end.

Definition stat_put (m : stat_member) (v : Z) (st : session_stats) : session_stats :=
  let (a, b, c, d, e, f, g, h, i) := st in
  match m with
  | m_handshake_acked_at => Build_session_stats v b c d e f g h i
  | m_session_sent_at => Build_session_stats a v c d e f g h i
  | m_session_received_at => Build_session_stats a b v d e f g h i
  | m_bytes_received => Build_session_stats a b c v e f g h i
  | m_bytes_sent => Build_session_stats a b c d v f g h i
  | m_bidi_stream_count => Build_session_stats a b c d e v g h i
  | m_uni_stream_count => Build_session_stats a b c d e f v h i
  | m_streams_in_count => Build_session_stats a b c d e f g v i
  | m_streams_out_count => Build_session_stats a b c d e f g h v
  end.

(** Modelled from the spec: [IncrementStat] (node_quic_util.h is not part of
    the sources).  The statistics record holds counters; the call adds
    [amount] to the [uint64_t] member it is given. *)
Definition IncrementStat (amount : Z) (m : stat_member) (st : session_stats)
  : session_stats :=
  stat_put m (Int.wrap64 (stat_get m st + amount)) st.

(** The three crypto-level buffers [handshake_[3]]. *)
Record crypto_buffers := {
  initial_crypto : QuicBuffer.t;
  handshake_crypto : QuicBuffer.t;
  app_crypto : QuicBuffer.t
}.

Definition crypto_get (l : ngtcp2_crypto_level) (h : crypto_buffers) : QuicBuffer.t :=
  match l with
  | NGTCP2_CRYPTO_LEVEL_INITIAL => initial_crypto h
  | NGTCP2_CRYPTO_LEVEL_HANDSHAKE => handshake_crypto h
  | NGTCP2_CRYPTO_LEVEL_APP => app_crypto h
  end.

Definition crypto_put (l : ngtcp2_crypto_level) (b : QuicBuffer.t) (h : crypto_buffers)
  : crypto_buffers :=
  let (i, hs, a) := h in
  match l with
  | NGTCP2_CRYPTO_LEVEL_INITIAL => Build_crypto_buffers b hs a
  | NGTCP2_CRYPTO_LEVEL_HANDSHAKE => Build_crypto_buffers i b a
  | NGTCP2_CRYPTO_LEVEL_APP => Build_crypto_buffers i hs b
  end.

(** A single-shot timer: stopped, or armed with a timeout in milliseconds. *)
Inductive Timer := TimerStopped | TimerArmed (timeout : Z).

(** ** Streams *)

Inductive QuicStreamOrigin := QUIC_STREAM_SERVER | QUIC_STREAM_CLIENT.
Inductive QuicStreamDirection := QUIC_STREAM_BIRECTIONAL | QUIC_STREAM_UNIDIRECTIONAL.

(** Modelled from the spec: [QuicStream] (node_quic_stream.h is not part of
    the sources).  The spec gives a stream an id that encodes origin and
    direction, the flags [writable], [fin_sent] and [ever_writable], and an
    outbound chunk queue that drains into vector writes; [received] keeps
    the chunks handed to [ReceiveData] as (fin, datalen, offset). *)
Module QuicStream.

Record t := {
  id : Z;
  writable : bool;
  fin_sent : bool;
  ever_writable : bool;
  queue : list bytes;
  received : list (Z * Z * Z)
}.

Definition GetID (s : t) : Z := id s.

(** The low bit of a QUIC stream id names the initiator, the next bit
    the direction. *)
Definition GetOrigin (s : t) : QuicStreamOrigin :=
  if Z.testbit (id s) 0 then QUIC_STREAM_SERVER else QUIC_STREAM_CLIENT.

Definition GetDirection (s : t) : QuicStreamDirection :=
  if Z.testbit (id s) 1 then QUIC_STREAM_UNIDIRECTIONAL else QUIC_STREAM_BIRECTIONAL.

Definition IsWritable (s : t) : bool := writable s.
Definition WasEverWritable (s : t) : bool := ever_writable s.
Definition HasSentFin (s : t) : bool := fin_sent s.

Definition SetFinSent (s : t) : t :=
  {| id := id s; writable := writable s; fin_sent := true;
     ever_writable := ever_writable s; queue := queue s;
     received := received s |}.

(** [DrainInto(&vec)]: the queued chunks as a scatter-gather vector, and
    the number of bytes they hold. *)
Definition DrainInto (s : t) : list bytes * Z :=
  (queue s, fold_right (fun c n => blen c + n) 0 (queue s)).

Fixpoint advance (q : list bytes) (n : nat) : list bytes :=
  match q with
  | [] => []
  | c :: rest =>
      if (List.length c <=? n)%nat then advance rest (n - List.length c)
      else skipn n c :: rest
  end.

(** [Commit(n)]: the first [n] queued bytes have been serialized. *)
Definition Commit (s : t) (n : Z) : t :=
  {| id := id s; writable := writable s; fin_sent := fin_sent s;
     ever_writable := ever_writable s;
     queue := advance (queue s) (Z.to_nat n);
     received := received s |}.

Definition ReceiveData (s : t) (fin datalen offset : Z) : t :=
  {| id := id s; writable := writable s; fin_sent := fin_sent s;
     ever_writable := ever_writable s; queue := queue s;
     received := received s ++ [(fin, datalen, offset)] |}.

(** A stream freshly created for [stream_id]: nothing queued, nothing
    received; a stream is writable unless it is a unidirectional stream
    opened by the peer. *)
Definition fresh (stream_id : Z) (can_write : bool) : t :=
  {| id := stream_id; writable := can_write; fin_sent := false;
     ever_writable := can_write; queue := []; received := [] |}.

End QuicStream.

(** ** The collaborators outside the session *)

(** A socket address is opaque to the session. *)
Definition SocketAddress := Z.

(** What the session tells its listener (the [MakeCallback] calls). *)
Inductive ListenerEvent :=
| on_session_close (code : Z) (fam : QuicErrorFamily)
| on_session_silent_close (stateless_reset : bool) (code : Z) (fam : QuicErrorFamily)
| on_stream_ready (stream_id : Z)
| on_stream_close (stream_id app_error_code : Z)
| on_stream_reset (stream_id app_error_code final_size : Z).

(** The transport callbacks that [ngtcp2_conn_read_pkt] may invoke on the
    session while it processes a packet.  Callbacks that only reach the TLS
    handle or the CID registry of the socket are left out. *)
Inductive ngtcp2_callback :=
| recv_stream_data (stream_id fin : Z) (data : bytes) (datalen offset : Z)
| acked_crypto_offset (level : ngtcp2_crypto_level) (offset datalen : Z)
| stream_open (stream_id : Z)
| stream_close (stream_id app_error_code : Z)
| stream_reset (stream_id final_size app_error_code : Z)
| recv_stateless_reset.

(** What a packet-writing call of the transport library hands back: its
    return value, the bytes it put into the destination buffer, the remote
    address of the path it chose, and for [writev_stream] the number of
    stream bytes it took ([*pdatalen]). *)
Record write_result := {
  nwrite : Z;
  ndatalen : Z;
  dest : bytes;
  path_remote : SocketAddress
}.

(** A packet accepted by [QuicSocket::SendPacket]. *)
Record QuicPacket := {
  diagnostic_label : string;
  to : SocketAddress;
  payload : bytes
}.

(** The transport library's connection, the clock of the event loop and
    the send side of the UDP socket.  [W] is their joint state; nothing is
    assumed about how the calls change it. *)
Class Host (W : Type) : Type := {
  uv_hrtime : W -> Z * W;
  ngtcp2_conn_is_in_closing_period : W -> bool;
  ngtcp2_conn_is_in_draining_period : W -> bool;
  ngtcp2_conn_get_idle_expiry : W -> Z;
  ngtcp2_conn_get_expiry : W -> Z;
  ngtcp2_conn_get_max_data_left : W -> Z;
  ngtcp2_conn_read_pkt :
    SocketAddress -> bytes -> Z -> Z -> W -> (Z * list ngtcp2_callback) * W;
  ngtcp2_conn_writev_stream :
    Z -> Z -> Z -> list bytes -> Z -> W -> write_result * W;
  ngtcp2_conn_write_pkt : Z -> Z -> W -> write_result * W;
  ngtcp2_conn_write_close : QuicErrorFamily -> Z -> Z -> Z -> W -> write_result * W;
  ngtcp2_conn_shutdown_stream : Z -> Z -> W -> Z * W;
  ngtcp2_conn_extend_max_offset : Z -> W -> W;
  socket_SendPacket : SocketAddress -> bytes -> string -> W -> Z * W
}.

(** A history variable: the entries into the send-capable routines, oldest
    first.  It is not a member of the C++ object. *)
Inductive SendCall :=
| CallSendPacket (label : string)
| CallSendStreamData (stream_id : Z)
| CallWritePackets (label : string).

(** [MallocedBuffer::Realloc]: the buffer cut (or zero-extended) to [n]
    bytes. *)
Definition Realloc (b : bytes) (n : Z) : bytes :=
  firstn (Z.to_nat n) (b ++ repeat Byte.x00 (Z.to_nat n - List.length b)).

Section Session.

Context {W : Type} {host : Host W} {ngtcp2 : Ngtcp2Constants}.

(** *** The session object *)

Record QuicSession := {
  side_ : ngtcp2_crypto_side;
  flags_ : QuicSessionFlags;
  host_ : W;
  socket_ : bool;
  outbox_ : list QuicPacket;
  remote_address_ : SocketAddress;
  max_pktlen_ : Z;
  initial_connection_close_ : Z;
  last_error_ : QuicError;
  connection_close_attempts_ : Z;
  connection_close_limit_ : Z;
  sendbuf_ : QuicBuffer.t;
  txbuf_ : QuicBuffer.t;
  handshake_ : crypto_buffers;
  conn_closebuf_ : bytes;
  streams_ : list (Z * QuicStream.t);
  session_stats_ : session_stats;
  idle_ : Timer;
  retransmit_ : Timer;
  crypto_rx_ack_ : list Z;
  events_ : list ListenerEvent;
  calls_ : list SendCall
}.

(** [host_] stands for [Connection()], the loop clock and the UDP side of
    [Socket()]; [socket_] tells whether the session still holds its
    [QuicSocket]; [outbox_] lists the packets the socket accepted, oldest
    first.  [connection_close_limit_] is the threshold of the spec for
    [connection_close_attempts_]. *)

(** Field updates. *)

Definition upd_flags (f : QuicSessionFlags -> QuicSessionFlags) (s : QuicSession)
  : QuicSession :=
  Build_QuicSession (side_ s) (f (flags_ s)) (host_ s) (socket_ s)
    (outbox_ s) (remote_address_ s) (max_pktlen_ s)
    (initial_connection_close_ s) (last_error_ s)
    (connection_close_attempts_ s) (connection_close_limit_ s)
    (sendbuf_ s) (txbuf_ s) (handshake_ s) (conn_closebuf_ s) (streams_ s)
    (session_stats_ s) (idle_ s) (retransmit_ s) (crypto_rx_ack_ s)
    (events_ s) (calls_ s).

Definition upd_host (f : W -> W) (s : QuicSession)
  : QuicSession :=
  Build_QuicSession (side_ s) (flags_ s) (f (host_ s)) (socket_ s)
    (outbox_ s) (remote_address_ s) (max_pktlen_ s)
    (initial_connection_close_ s) (last_error_ s)
    (connection_close_attempts_ s) (connection_close_limit_ s)
    (sendbuf_ s) (txbuf_ s) (handshake_ s) (conn_closebuf_ s) (streams_ s)
    (session_stats_ s) (idle_ s) (retransmit_ s) (crypto_rx_ack_ s)
    (events_ s) (calls_ s).

Definition upd_socket (f : bool -> bool) (s : QuicSession)
  : QuicSession :=
  Build_QuicSession (side_ s) (flags_ s) (host_ s) (f (socket_ s))
    (outbox_ s) (remote_address_ s) (max_pktlen_ s)
    (initial_connection_close_ s) (last_error_ s)
    (connection_close_attempts_ s) (connection_close_limit_ s)
    (sendbuf_ s) (txbuf_ s) (handshake_ s) (conn_closebuf_ s) (streams_ s)
    (session_stats_ s) (idle_ s) (retransmit_ s) (crypto_rx_ack_ s)
    (events_ s) (calls_ s).

Definition upd_outbox (f : list QuicPacket -> list QuicPacket) (s : QuicSession)
  : QuicSession :=
  Build_QuicSession (side_ s) (flags_ s) (host_ s) (socket_ s)
    (f (outbox_ s)) (remote_address_ s) (max_pktlen_ s)
    (initial_connection_close_ s) (last_error_ s)
    (connection_close_attempts_ s) (connection_close_limit_ s)
    (sendbuf_ s) (txbuf_ s) (handshake_ s) (conn_closebuf_ s) (streams_ s)
    (session_stats_ s) (idle_ s) (retransmit_ s) (crypto_rx_ack_ s)
    (events_ s) (calls_ s).

Definition upd_remote_address (f : SocketAddress -> SocketAddress) (s : QuicSession)
  : QuicSession :=
  Build_QuicSession (side_ s) (flags_ s) (host_ s) (socket_ s) (outbox_ s)
    (f (remote_address_ s)) (max_pktlen_ s) (initial_connection_close_ s)
    (last_error_ s) (connection_close_attempts_ s)
    (connection_close_limit_ s) (sendbuf_ s) (txbuf_ s) (handshake_ s)
    (conn_closebuf_ s) (streams_ s) (session_stats_ s) (idle_ s)
    (retransmit_ s) (crypto_rx_ack_ s) (events_ s) (calls_ s).

Definition upd_last_error (f : QuicError -> QuicError) (s : QuicSession)
  : QuicSession :=
  Build_QuicSession (side_ s) (flags_ s) (host_ s) (socket_ s) (outbox_ s)
    (remote_address_ s) (max_pktlen_ s) (initial_connection_close_ s)
    (f (last_error_ s)) (connection_close_attempts_ s)
    (connection_close_limit_ s) (sendbuf_ s) (txbuf_ s) (handshake_ s)
    (conn_closebuf_ s) (streams_ s) (session_stats_ s) (idle_ s)
    (retransmit_ s) (crypto_rx_ack_ s) (events_ s) (calls_ s).

Definition upd_connection_close_attempts (f : Z -> Z) (s : QuicSession)
  : QuicSession :=
  Build_QuicSession (side_ s) (flags_ s) (host_ s) (socket_ s) (outbox_ s)
    (remote_address_ s) (max_pktlen_ s) (initial_connection_close_ s)
    (last_error_ s) (f (connection_close_attempts_ s))
    (connection_close_limit_ s) (sendbuf_ s) (txbuf_ s) (handshake_ s)
    (conn_closebuf_ s) (streams_ s) (session_stats_ s) (idle_ s)
    (retransmit_ s) (crypto_rx_ack_ s) (events_ s) (calls_ s).

Definition upd_sendbuf (f : QuicBuffer.t -> QuicBuffer.t) (s : QuicSession)
  : QuicSession :=
  Build_QuicSession (side_ s) (flags_ s) (host_ s) (socket_ s) (outbox_ s)
    (remote_address_ s) (max_pktlen_ s) (initial_connection_close_ s)
    (last_error_ s) (connection_close_attempts_ s)
    (connection_close_limit_ s) (f (sendbuf_ s)) (txbuf_ s) (handshake_ s)
    (conn_closebuf_ s) (streams_ s) (session_stats_ s) (idle_ s)
    (retransmit_ s) (crypto_rx_ack_ s) (events_ s) (calls_ s).

Definition upd_txbuf (f : QuicBuffer.t -> QuicBuffer.t) (s : QuicSession)
  : QuicSession :=
  Build_QuicSession (side_ s) (flags_ s) (host_ s) (socket_ s) (outbox_ s)
    (remote_address_ s) (max_pktlen_ s) (initial_connection_close_ s)
    (last_error_ s) (connection_close_attempts_ s)
    (connection_close_limit_ s) (sendbuf_ s) (f (txbuf_ s)) (handshake_ s)
    (conn_closebuf_ s) (streams_ s) (session_stats_ s) (idle_ s)
    (retransmit_ s) (crypto_rx_ack_ s) (events_ s) (calls_ s).

Definition upd_handshake (f : crypto_buffers -> crypto_buffers) (s : QuicSession)
  : QuicSession :=
  Build_QuicSession (side_ s) (flags_ s) (host_ s) (socket_ s) (outbox_ s)
    (remote_address_ s) (max_pktlen_ s) (initial_connection_close_ s)
    (last_error_ s) (connection_close_attempts_ s)
    (connection_close_limit_ s) (sendbuf_ s) (txbuf_ s) (f (handshake_ s))
    (conn_closebuf_ s) (streams_ s) (session_stats_ s) (idle_ s)
    (retransmit_ s) (crypto_rx_ack_ s) (events_ s) (calls_ s).

Definition upd_conn_closebuf (f : bytes -> bytes) (s : QuicSession)
  : QuicSession :=
  Build_QuicSession (side_ s) (flags_ s) (host_ s) (socket_ s) (outbox_ s)
    (remote_address_ s) (max_pktlen_ s) (initial_connection_close_ s)
    (last_error_ s) (connection_close_attempts_ s)
    (connection_close_limit_ s) (sendbuf_ s) (txbuf_ s) (handshake_ s)
    (f (conn_closebuf_ s)) (streams_ s) (session_stats_ s) (idle_ s)
    (retransmit_ s) (crypto_rx_ack_ s) (events_ s) (calls_ s).

Definition upd_streams (f : list (Z * QuicStream.t) -> list (Z * QuicStream.t)) (s : QuicSession)
  : QuicSession :=
  Build_QuicSession (side_ s) (flags_ s) (host_ s) (socket_ s) (outbox_ s)
    (remote_address_ s) (max_pktlen_ s) (initial_connection_close_ s)
    (last_error_ s) (connection_close_attempts_ s)
    (connection_close_limit_ s) (sendbuf_ s) (txbuf_ s) (handshake_ s)
    (conn_closebuf_ s) (f (streams_ s)) (session_stats_ s) (idle_ s)
    (retransmit_ s) (crypto_rx_ack_ s) (events_ s) (calls_ s).

Definition upd_session_stats (f : session_stats -> session_stats) (s : QuicSession)
  : QuicSession :=
  Build_QuicSession (side_ s) (flags_ s) (host_ s) (socket_ s) (outbox_ s)
    (remote_address_ s) (max_pktlen_ s) (initial_connection_close_ s)
    (last_error_ s) (connection_close_attempts_ s)
    (connection_close_limit_ s) (sendbuf_ s) (txbuf_ s) (handshake_ s)
    (conn_closebuf_ s) (streams_ s) (f (session_stats_ s)) (idle_ s)
    (retransmit_ s) (crypto_rx_ack_ s) (events_ s) (calls_ s).

Definition upd_idle (f : Timer -> Timer) (s : QuicSession)
  : QuicSession :=
  Build_QuicSession (side_ s) (flags_ s) (host_ s) (socket_ s) (outbox_ s)
    (remote_address_ s) (max_pktlen_ s) (initial_connection_close_ s)
    (last_error_ s) (connection_close_attempts_ s)
    (connection_close_limit_ s) (sendbuf_ s) (txbuf_ s) (handshake_ s)
    (conn_closebuf_ s) (streams_ s) (session_stats_ s) (f (idle_ s))
    (retransmit_ s) (crypto_rx_ack_ s) (events_ s) (calls_ s).

Definition upd_retransmit (f : Timer -> Timer) (s : QuicSession)
  : QuicSession :=
  Build_QuicSession (side_ s) (flags_ s) (host_ s) (socket_ s) (outbox_ s)
    (remote_address_ s) (max_pktlen_ s) (initial_connection_close_ s)
    (last_error_ s) (connection_close_attempts_ s)
    (connection_close_limit_ s) (sendbuf_ s) (txbuf_ s) (handshake_ s)
    (conn_closebuf_ s) (streams_ s) (session_stats_ s) (idle_ s)
    (f (retransmit_ s)) (crypto_rx_ack_ s) (events_ s) (calls_ s).

Definition upd_crypto_rx_ack (f : list Z -> list Z) (s : QuicSession)
  : QuicSession :=
  Build_QuicSession (side_ s) (flags_ s) (host_ s) (socket_ s) (outbox_ s)
    (remote_address_ s) (max_pktlen_ s) (initial_connection_close_ s)
    (last_error_ s) (connection_close_attempts_ s)
    (connection_close_limit_ s) (sendbuf_ s) (txbuf_ s) (handshake_ s)
    (conn_closebuf_ s) (streams_ s) (session_stats_ s) (idle_ s)
    (retransmit_ s) (f (crypto_rx_ack_ s)) (events_ s) (calls_ s).

Definition upd_events (f : list ListenerEvent -> list ListenerEvent) (s : QuicSession)
  : QuicSession :=
  Build_QuicSession (side_ s) (flags_ s) (host_ s) (socket_ s) (outbox_ s)
    (remote_address_ s) (max_pktlen_ s) (initial_connection_close_ s)
    (last_error_ s) (connection_close_attempts_ s)
    (connection_close_limit_ s) (sendbuf_ s) (txbuf_ s) (handshake_ s)
    (conn_closebuf_ s) (streams_ s) (session_stats_ s) (idle_ s)
    (retransmit_ s) (crypto_rx_ack_ s) (f (events_ s)) (calls_ s).

Definition upd_calls (f : list SendCall -> list SendCall) (s : QuicSession)
  : QuicSession :=
  Build_QuicSession (side_ s) (flags_ s) (host_ s) (socket_ s) (outbox_ s)
    (remote_address_ s) (max_pktlen_ s) (initial_connection_close_ s)
    (last_error_ s) (connection_close_attempts_ s)
    (connection_close_limit_ s) (sendbuf_ s) (txbuf_ s) (handshake_ s)
    (conn_closebuf_ s) (streams_ s) (session_stats_ s) (idle_ s)
    (retransmit_ s) (crypto_rx_ack_ s) (events_ s) (f (calls_ s)).


(** *** Outcomes of a member function *)

Inductive outcome (A : Type) : Type :=
| Done (a : A) (s : QuicSession)
| Abort
| OutOfFuel.

Arguments Done {A} a s.
Arguments Abort {A}.
Arguments OutOfFuel {A}.

Definition M (A : Type) : Type := QuicSession -> outcome A.

Definition ret {A : Type} (a : A) : M A := fun s => Done a s.

Definition bind {A B : Type} (m : M A) (k : A -> M B) : M B :=
  fun s =>
    match m s with
    | Done a s' => k a s'
    | Abort => Abort
    | OutOfFuel => OutOfFuel
    end.

Notation "x <- m ;; k" := (bind m (fun x => k))
  (at level 61, m at next level, right associativity).
Notation "m ;; k" := (bind m (fun _ => k))
  (at level 61, right associativity).

Definition gets {A : Type} (f : QuicSession -> A) : M A := fun s => Done (f s) s.

Definition modify (f : QuicSession -> QuicSession) : M unit :=
  fun s => Done tt (f s).

Definition when (b : bool) (m : M unit) : M unit := if b then m else ret tt.

(** [CHECK(cond)]: the process aborts when the condition fails. *)
Definition CHECK (cond : QuicSession -> bool) : M unit :=
  fun s => if cond s then Done tt s else Abort.

Definition out_of_fuel {A : Type} : M A := fun _ => OutOfFuel.

(** A call into the host; it may change the host state. *)
Definition call_host {A : Type} (f : W -> A * W) : M A :=
  fun s => let (a, w) := f (host_ s) in Done a (upd_host (fun _ => w) s).

Definition enter (c : SendCall) : M unit :=
  modify (upd_calls (fun l => l ++ [c])).

(** [MakeCallback] hands an event to the JavaScript listener.  The
    listener is no part of these sources: the event is recorded in
    [events_], and the routine goes on with the session as it is.  A
    listener that calls back into the session before it returns, as the
    one that destroys the session while a packet is processed, is not
    modelled; where a routine tests for it, the state it tests is a
    hypothesis of the property and is not derived from the model. *)
Definition MakeCallback (ev : ListenerEvent) : M unit :=
  modify (upd_events (fun l => l ++ [ev])).

(** *** Flags, errors, statistics *)

Definition IsFlagSet (f : QuicSessionFlag) (s : QuicSession) : bool :=
  flag_get f (flags_ s).

Definition SetFlag (f : QuicSessionFlag) (on : bool) : M unit :=
  modify (upd_flags (flag_set f on)).

Definition InNgtcp2CallbackScope (s : QuicSession) : bool :=
  IsFlagSet QUICSESSION_FLAG_NGTCP2_CALLBACK s.

(** Modelled from the spec: [Ngtcp2CallbackScope] (node_quic_session.h is
    not part of the sources), "an explicit scoped marker": set on entry
    to a transport callback, cleared on exit. *)
Definition Ngtcp2CallbackScope {A : Type} (m : M A) : M A :=
  SetFlag QUICSESSION_FLAG_NGTCP2_CALLBACK true ;;
  a <- m ;;
  SetFlag QUICSESSION_FLAG_NGTCP2_CALLBACK false ;;
  ret a.

(** Modelled from the spec: [IsInClosingPeriod] and [IsInDrainingPeriod]
    (node_quic_session-inl.h is not part of the sources) ask the
    transport library: the closing period starts once the library has
    written a CONNECTION_CLOSE, the draining period once it has received
    one. *)
Definition IsInClosingPeriod (s : QuicSession) : bool :=
  ngtcp2_conn_is_in_closing_period (host_ s).

Definition IsInDrainingPeriod (s : QuicSession) : bool :=
  ngtcp2_conn_is_in_draining_period (host_ s).

Definition Side (s : QuicSession) : ngtcp2_crypto_side := side_ s.

Definition is_server (s : QuicSession) : bool :=
  match Side s with
  | NGTCP2_CRYPTO_SIDE_SERVER => true
  | NGTCP2_CRYPTO_SIDE_CLIENT => false
  end.

Definition GetLastError (s : QuicSession) : QuicError := last_error_ s.

Definition SetLastError (fam : QuicErrorFamily) (c : Z) : M unit :=
  modify (upd_last_error (fun _ => InitQuicError fam c)).

(** Modelled from the spec: the default argument of [SetLastError] is
    declared in node_quic_session.h, which is not part of the sources; a
    close that carries no error of its own is sent "with [NO_ERROR]", in
    the session family. *)
Definition SetLastError_default : M unit :=
  SetLastError QUIC_ERROR_SESSION NGTCP2_NO_ERROR.

Definition increment_stat (amount : Z) (m : stat_member) : M unit :=
  modify (upd_session_stats (IncrementStat amount m)).

Definition set_stat (m : stat_member) (v : Z) : M unit :=
  modify (upd_session_stats (stat_put m v)).

(** Modelled from the spec: [IncrementConnectionCloseAttempts] and
    [ShouldAttemptConnectionClose] (node_quic_session-inl.h is not part
    of the sources): the close-attempt counter goes up by one, and a
    CONNECTION_CLOSE is re-sent only while "the attempt counter is below
    a threshold". *)
Definition IncrementConnectionCloseAttempts : M unit :=
  modify (upd_connection_close_attempts (fun n => n + 1)).

Definition ShouldAttemptConnectionClose (s : QuicSession) : bool :=
  connection_close_attempts_ s <? connection_close_limit_ s.

(** *** Timers *)

(** The timeout both timers are armed with, in milliseconds, from two
    [uint64_t] nanosecond readings:
    [(expiry - now) / 1000000UL], replaced by 1 when [expiry < now] or the
    quotient is 0. *)
Definition timer_interval (expiry now : Z) : Z :=
  let interval := Int.wrap64 (expiry - now) / 1000000 in
  if (expiry <? now) || (interval =? 0) then 1 else interval.

Definition UpdateIdleTimer : M unit :=
  now <- call_host uv_hrtime ;;
  expiry <- gets (fun s => ngtcp2_conn_get_idle_expiry (host_ s)) ;;
  modify (upd_idle (fun _ => TimerArmed (timer_interval expiry now))).

Definition UpdateRetransmitTimer (timeout : Z) : M unit :=
  modify (upd_retransmit (fun _ => TimerArmed timeout)).

Definition ScheduleRetransmit : M unit :=
  now <- call_host uv_hrtime ;;
  expiry <- gets (fun s => ngtcp2_conn_get_expiry (host_ s)) ;;
  UpdateRetransmitTimer (timer_interval expiry now).

Definition StopIdleTimer : M unit := modify (upd_idle (fun _ => TimerStopped)).

Definition StopRetransmitTimer : M unit :=
  modify (upd_retransmit (fun _ => TimerStopped)).

(** *** The stream table

    Modelled from the spec: the container type of [streams_] is declared
    in node_quic_session.h, which is not part of the sources; the spec
    and the comment in [SendPendingData] have it iterate "in the order
    they were created", so the table is an association list in insertion
    order.  [emplace] does not replace an entry that is already there. *)

Fixpoint find_stream (id : Z) (table : list (Z * QuicStream.t))
  : option QuicStream.t :=
  match table with
  | [] => None
  | (k, st) :: rest => if k =? id then Some st else find_stream id rest
  end.

Definition emplace (id : Z) (st : QuicStream.t) (table : list (Z * QuicStream.t))
  : list (Z * QuicStream.t) :=
  match find_stream id table with
  | Some _ => table
  | None => table ++ [(id, st)]
  end.

Definition erase (id : Z) (table : list (Z * QuicStream.t))
  : list (Z * QuicStream.t) :=
  filter (fun e => negb (fst e =? id)) table.

(** A write through a [QuicStream*] that points into the table. *)
Fixpoint update_stream (id : Z) (f : QuicStream.t -> QuicStream.t)
  (table : list (Z * QuicStream.t)) : list (Z * QuicStream.t) :=
  match table with
  | [] => []
  | (k, st) :: rest =>
      if k =? id then (k, f st) :: rest
      else (k, st) :: update_stream id f rest
  end.

Definition FindStream (id : Z) (s : QuicSession) : option QuicStream.t :=
  find_stream id (streams_ s).

Definition HasStream (id : Z) (s : QuicSession) : bool :=
  match FindStream id s with Some _ => true | None => false end.

(** Reading through a [QuicStream*]; a pointer to a stream that is not
    in the table is dangling. *)
Definition deref (id : Z) : M QuicStream.t :=
  fun s =>
    match FindStream id s with
    | Some st => Done st s
    | None => Abort
    end.

Definition AddStream (stream : QuicStream.t) : M unit :=
  modify (upd_streams (emplace (QuicStream.GetID stream) stream)) ;;
  server <- gets is_server ;;
  match QuicStream.GetOrigin stream with
  | QUIC_STREAM_CLIENT =>
      if server then increment_stat 1 m_streams_in_count
      else increment_stat 1 m_streams_out_count
  | QUIC_STREAM_SERVER =>
      if server then increment_stat 1 m_streams_out_count
      else increment_stat 1 m_streams_in_count
  end ;;
  increment_stat 1 m_streams_out_count ;;
  match QuicStream.GetDirection stream with
  | QUIC_STREAM_BIRECTIONAL => increment_stat 1 m_bidi_stream_count
  | QUIC_STREAM_UNIDIRECTIONAL => increment_stat 1 m_uni_stream_count
  end.

Definition RemoveStream (stream_id : Z) : M unit :=
  modify (upd_streams (erase stream_id)) ;;
  _ <- call_host (ngtcp2_conn_shutdown_stream stream_id NGTCP2_NO_ERROR) ;;
  ret tt.

(** *** Crypto buffers *)

Definition AckedCryptoOffset (level : ngtcp2_crypto_level) (datalen : Z)
  : M unit :=
  destroyed <- gets (IsFlagSet QUICSESSION_FLAG_DESTROYED) ;;
  if destroyed then ret tt else
  modify (upd_handshake (fun h =>
    crypto_put level (QuicBuffer.Consume (crypto_get level h) datalen) h)) ;;
  now <- call_host uv_hrtime ;;
  acked_at <- gets (fun s => handshake_acked_at (session_stats_ s)) ;;
  when (0 <? acked_at)
    (modify (upd_crypto_rx_ack (fun l => l ++ [Int.wrap64 (now - acked_at)]))) ;;
  set_stat m_handshake_acked_at now.

(** *** Closing *)

Definition ImmediateClose : M unit :=
  CHECK (fun s => negb (IsFlagSet QUICSESSION_FLAG_CLOSING s)) ;;
  SetFlag QUICSESSION_FLAG_CLOSING true ;;
  last_error <- gets GetLastError ;;
  MakeCallback (on_session_close (code last_error) (family last_error)).

Definition SilentClose (stateless_reset : bool) : M unit :=
  CHECK (fun s => negb (IsFlagSet QUICSESSION_FLAG_CLOSING s)) ;;
  SetFlag QUICSESSION_FLAG_SILENT_CLOSE true ;;
  SetFlag QUICSESSION_FLAG_CLOSING true ;;
  last_error <- gets GetLastError ;;
  MakeCallback
    (on_session_silent_close stateless_reset (code last_error) (family last_error)).


(** *** Receiving stream data *)

(** Modelled from the spec: [QuicStream::New] (node_quic_stream.cc is not
    part of the sources) creates the stream object and registers it with
    the session through [AddStream]. *)
Definition QuicStream_New (stream_id : Z) : M unit :=
  server <- gets is_server ;;
  let st := QuicStream.fresh stream_id true in
  let remote :=
    match QuicStream.GetOrigin st with
    | QUIC_STREAM_SERVER => negb server
    | QUIC_STREAM_CLIENT => server
    end in
  let uni :=
    match QuicStream.GetDirection st with
    | QUIC_STREAM_UNIDIRECTIONAL => true
    | QUIC_STREAM_BIRECTIONAL => false
    end in
  AddStream (QuicStream.fresh stream_id (negb (remote && uni))).

Definition CreateStream (stream_id : Z) : M unit :=
  CHECK (fun s => negb (IsFlagSet QUICSESSION_FLAG_DESTROYED s)) ;;
  CHECK (fun s => negb (IsFlagSet QUICSESSION_FLAG_GRACEFUL_CLOSING s)) ;;
  CHECK (fun s => negb (IsFlagSet QUICSESSION_FLAG_CLOSING s)) ;;
  (* [CHECK(stream)]: [New] hands back an object *)
  QuicStream_New stream_id ;;
  MakeCallback (on_stream_ready stream_id).

Definition ReceiveStreamData (stream_id fin : Z) (data : bytes)
  (datalen offset : Z) : M unit :=
  if (fin =? 0) && (datalen =? 0) then ret tt else
  destroyed <- gets (IsFlagSet QUICSESSION_FLAG_DESTROYED) ;;
  if destroyed then ret tt else
  (* everything below runs under the [OnScopeLeave] guard; the stream is
     found or created, so [CHECK_NOT_NULL(stream)] holds *)
  (stream <- gets (FindStream stream_id) ;;
   let deliver :=
     modify (upd_streams (update_stream stream_id
       (fun st => QuicStream.ReceiveData st fin datalen offset))) in
   match stream with
   | Some _ => deliver
   | None =>
       graceful <- gets (IsFlagSet QUICSESSION_FLAG_GRACEFUL_CLOSING) ;;
       if graceful then
         _ <- call_host (ngtcp2_conn_shutdown_stream stream_id NGTCP2_ERR_CLOSING) ;;
         ret tt
       else if datalen =? 0 then ret tt
       else CreateStream stream_id ;; deliver
   end) ;;
  call_host (fun w => (tt, ngtcp2_conn_extend_max_offset datalen w)).

Definition StreamOpen (stream_id : Z) : M unit :=
  graceful <- gets (IsFlagSet QUICSESSION_FLAG_GRACEFUL_CLOSING) ;;
  if graceful then
    _ <- call_host (ngtcp2_conn_shutdown_stream stream_id NGTCP2_ERR_CLOSING) ;;
    ret tt
  else ret tt.

Definition StreamClose (stream_id app_error_code : Z) : M unit :=
  destroyed <- gets (IsFlagSet QUICSESSION_FLAG_DESTROYED) ;;
  if destroyed then ret tt else
  known <- gets (HasStream stream_id) ;;
  if negb known then ret tt else
  MakeCallback (on_stream_close stream_id app_error_code).

Definition StreamReset (stream_id final_size app_error_code : Z) : M unit :=
  destroyed <- gets (IsFlagSet QUICSESSION_FLAG_DESTROYED) ;;
  if destroyed then ret tt else
  known <- gets (HasStream stream_id) ;;
  if negb known then ret tt else
  MakeCallback (on_stream_reset stream_id app_error_code final_size).

(** *** The send path *)

(** The vector bookkeeping of [SendStreamData] (anonymous namespace). *)
Fixpoint Consume (v : list bytes) (len : Z) : list bytes :=
  match v with
  | [] => []
  | b :: rest =>
      if blen b >? len then skipn (Z.to_nat len) b :: rest
      else Consume rest (len - blen b)
  end.

Definition IsEmpty (v : list bytes) : bool :=
  forallb (fun b => blen b =? 0) v.

(** Modelled from the spec: [QuicSocket::SendPacket] as the session calls
    it here (node_quic_socket.cc is not part of the sources) takes the
    bytes queued in [txbuf_]; the host reports the send result, and a
    packet the socket accepted is on the wire. *)
Definition Socket_SendPacket (label : string) : M Z :=
  remote <- gets remote_address_ ;;
  data <- gets txbuf_ ;;
  err <- call_host (socket_SendPacket remote data label) ;;
  modify (upd_txbuf (fun _ => QuicBuffer.empty)) ;;
  when (err =? 0)
    (modify (upd_outbox (fun l =>
       l ++ [{| diagnostic_label := label; to := remote; payload := data |}]))) ;;
  ret err.

Definition SendPacket (label : string) : M bool :=
  enter (CallSendPacket label) ;;
  CHECK (fun s => negb (IsFlagSet QUICSESSION_FLAG_DESTROYED s)) ;;
  CHECK (fun s => negb (IsInDrainingPeriod s)) ;;
  pending <- gets sendbuf_ ;;
  when (0 <? QuicBuffer.Length pending)
    (increment_stat (QuicBuffer.Length pending) m_bytes_sent ;;
     modify (upd_txbuf (fun tx => QuicBuffer.Append tx pending)) ;;
     modify (upd_sendbuf (fun _ => QuicBuffer.empty))) ;;
  nothing <- gets (fun s => (QuicBuffer.Length (txbuf_ s) =? 0) || negb (socket_ s)) ;;
  if nothing then ret true else
  now <- call_host uv_hrtime ;;
  set_stat m_session_sent_at now ;;
  ScheduleRetransmit ;;
  err <- Socket_SendPacket label ;;
  if negb (err =? 0) then
    SetLastError QUIC_ERROR_SESSION err ;;
    ret false
  else ret true.

(** The [switch] of [SendStreamData] on a return value [nwrite <= 0] of
    [ngtcp2_conn_writev_stream]. *)
Definition SendStreamData_failed (nwrite : Z) : M bool :=
  if nwrite =? 0 then ret true
  else if nwrite =? NGTCP2_ERR_PKT_NUM_EXHAUSTED then
    SilentClose false ;;
    ret false
  else if nwrite =? NGTCP2_ERR_STREAM_DATA_BLOCKED then ret true
  else if nwrite =? NGTCP2_ERR_STREAM_SHUT_WR then ret true
  else if nwrite =? NGTCP2_ERR_STREAM_NOT_FOUND then ret true
  else
    SetLastError QUIC_ERROR_SESSION (Int.to_int nwrite) ;;
    ret false.

(** The [for (;;)] loop of [SendStreamData]; [v] is the part of the
    vector that is not serialized yet. *)
Fixpoint SendStreamData_loop (fuel : nat) (stream_id : Z) (v : list bytes)
  : M bool :=
  match fuel with
  | O => out_of_fuel
  | S fuel' =>
      stream <- deref stream_id ;;
      max_pktlen <- gets max_pktlen_ ;;
      now <- call_host uv_hrtime ;;
      r <- call_host
             (ngtcp2_conn_writev_stream max_pktlen
                (QuicStream.GetID stream)
                (if QuicStream.IsWritable stream then 0 else 1) v now) ;;
      if nwrite r <=? 0 then SendStreamData_failed (nwrite r) else
      v' <- (if 0 <? ndatalen r then
               modify (upd_streams (update_stream stream_id
                 (fun st => QuicStream.Commit st (ndatalen r)))) ;;
               ret (Consume v (ndatalen r))
             else ret v) ;;
      modify (upd_sendbuf (fun b =>
        QuicBuffer.Push b (Realloc (dest r) (nwrite r)))) ;;
      modify (upd_remote_address (fun _ => path_remote r)) ;;
      sent <- SendPacket "stream data" ;;
      if negb sent then ret false else
      if IsEmpty v' then
        stream' <- deref stream_id ;;
        when (negb (QuicStream.IsWritable stream'))
          (modify (upd_streams (update_stream stream_id QuicStream.SetFinSent))) ;;
        ret true
      else SendStreamData_loop fuel' stream_id v'
  end.

Definition SendStreamData (fuel : nat) (stream_id : Z) : M bool :=
  enter (CallSendStreamData stream_id) ;;
  CHECK (fun s => negb (InNgtcp2CallbackScope s)) ;;
  stream <- deref stream_id ;;
  skip <- gets (fun s =>
    IsFlagSet QUICSESSION_FLAG_DESTROYED s
    || negb (QuicStream.WasEverWritable stream)
    || QuicStream.HasSentFin stream
    || IsInDrainingPeriod s
    || IsInClosingPeriod s
    || (ngtcp2_conn_get_max_data_left (host_ s) =? 0)) ;;
  if skip then ret true else
  let (vec, remaining) := QuicStream.DrainInto stream in
  match vec with
  | [] => if QuicStream.IsWritable stream then ret true
          else SendStreamData_loop fuel stream_id vec
  | _ :: _ => SendStreamData_loop fuel stream_id vec
  end.

(** The [switch] of [WritePackets] on a return value [nwrite <= 0] of
    [ngtcp2_conn_write_pkt]. *)
Definition WritePackets_failed (nwrite : Z) : M bool :=
  if nwrite =? 0 then ret true
  else if nwrite =? NGTCP2_ERR_PKT_NUM_EXHAUSTED then
    SilentClose false ;;
    ret false
  else
    SetLastError QUIC_ERROR_SESSION (Int.to_int nwrite) ;;
    ret false.

(** The [for (;;)] loop of [WritePackets]. *)
Fixpoint WritePackets_loop (fuel : nat) (label : string) : M bool :=
  match fuel with
  | O => out_of_fuel
  | S fuel' =>
      max_pktlen <- gets max_pktlen_ ;;
      now <- call_host uv_hrtime ;;
      r <- call_host (ngtcp2_conn_write_pkt max_pktlen now) ;;
      if nwrite r <=? 0 then WritePackets_failed (nwrite r) else
      modify (upd_remote_address (fun _ => path_remote r)) ;;
      modify (upd_sendbuf (fun b =>
        QuicBuffer.Push b (Realloc (dest r) (nwrite r)))) ;;
      sent <- SendPacket label ;;
      if negb sent then ret false else WritePackets_loop fuel' label
  end.

(** [SelectCloseFn(error.family)(Connection(), nullptr, buf, max_pktlen_,
    error.code, uv_hrtime())] *)
Definition write_close (error : QuicError) : M write_result :=
  max_pktlen <- gets max_pktlen_ ;;
  now <- call_host uv_hrtime ;;
  call_host (ngtcp2_conn_write_close (family error) max_pktlen (code error) now).

Definition StartClosingPeriod : M bool :=
  destroyed <- gets (IsFlagSet QUICSESSION_FLAG_DESTROYED) ;;
  if destroyed then ret false else
  closing <- gets IsInClosingPeriod ;;
  if closing then ret true else
  StopRetransmitTimer ;;
  UpdateIdleTimer ;;
  modify (upd_sendbuf (fun b => snd (QuicBuffer.Cancel b))) ;;
  error <- gets GetLastError ;;
  max_pktlen <- gets max_pktlen_ ;;
  r <- write_close error ;;
  modify (upd_conn_closebuf (fun _ => Realloc (dest r) max_pktlen)) ;;
  if nwrite r <? 0 then
    (if nwrite r =? NGTCP2_ERR_PKT_NUM_EXHAUSTED then SilentClose false
     else SetLastError QUIC_ERROR_SESSION (Int.to_int (nwrite r))) ;;
    ret false
  else
    modify (upd_conn_closebuf (fun b => Realloc b (nwrite r))) ;;
    ret true.

(** [QuicServerSession::SendConnectionClose], over the [WritePackets] it
    calls. *)
Definition QuicServerSession_SendConnectionClose
  (WritePackets : string -> M bool) : M bool :=
  CHECK (fun s => negb (InNgtcp2CallbackScope s)) ;;
  quiet <- gets (fun s =>
    IsInDrainingPeriod s || IsFlagSet QUICSESSION_FLAG_SILENT_CLOSE s) ;;
  if quiet then ret true else
  closing <- gets IsInClosingPeriod ;;
  started <- (if closing then ret true else
              written <- WritePackets "server connection close - write packets" ;;
              if negb written then ret false else StartClosingPeriod) ;;
  if negb started then ret false else
  UpdateIdleTimer ;;
  CHECK (fun s => 0 <? blen (conn_closebuf_ s)) ;;
  modify (upd_sendbuf (fun b => snd (QuicBuffer.Cancel b))) ;;
  modify (fun s => upd_sendbuf (fun b => QuicBuffer.Push b (conn_closebuf_ s)) s) ;;
  SendPacket "server connection close".

(** [QuicClientSession::SendConnectionClose], over the [WritePackets] it
    calls. *)
Definition QuicClientSession_SendConnectionClose
  (WritePackets : string -> M bool) : M bool :=
  CHECK (fun s => negb (InNgtcp2CallbackScope s)) ;;
  quiet <- gets (fun s =>
    IsInDrainingPeriod s || IsFlagSet QUICSESSION_FLAG_SILENT_CLOSE s) ;;
  if quiet then ret true else
  UpdateIdleTimer ;;
  modify (upd_sendbuf (fun b => snd (QuicBuffer.Cancel b))) ;;
  error <- gets GetLastError ;;
  closing <- gets IsInClosingPeriod ;;
  written <- (if closing then ret true
              else WritePackets "client connection close - write packets") ;;
  if negb written then ret false else
  r <- write_close error ;;
  if nwrite r <? 0 then
    SetLastError QUIC_ERROR_SESSION (Int.to_int (nwrite r)) ;;
    ret false
  else
    modify (upd_sendbuf (fun b =>
      QuicBuffer.Push b (Realloc (dest r) (nwrite r)))) ;;
    SendPacket "client connection close".

(** The virtual [SendConnectionClose], over the [WritePackets] it calls. *)
Definition SendConnectionClose_body (WritePackets : string -> M bool) : M bool :=
  fun s =>
    match Side s with
    | NGTCP2_CRYPTO_SIDE_SERVER => QuicServerSession_SendConnectionClose WritePackets s
    | NGTCP2_CRYPTO_SIDE_CLIENT => QuicClientSession_SendConnectionClose WritePackets s
    end.

(** [WritePackets] and [SendConnectionClose] call each other; a unit of
    fuel is spent where [WritePackets] calls back and per iteration of
    its loop. *)
Fixpoint WritePackets (fuel : nat) (label : string) {struct fuel} : M bool :=
  enter (CallWritePackets label) ;;
  CHECK (fun s => negb (InNgtcp2CallbackScope s)) ;;
  CHECK (fun s => negb (IsFlagSet QUICSESSION_FLAG_DESTROYED s)) ;;
  draining <- gets IsInDrainingPeriod ;;
  if draining then ret true else
  closing <- gets IsInClosingPeriod ;;
  if closing then
    match fuel with
    | O => out_of_fuel
    | S fuel' => SendConnectionClose_body (WritePackets fuel')
    end
  else WritePackets_loop fuel label.

Definition SendConnectionClose (fuel : nat) : M bool :=
  SendConnectionClose_body (WritePackets fuel).

(** [QuicSession::HandleError] and its override in [QuicClientSession]
    ([connection_] is set once the session is initialized). *)
Definition QuicSession_HandleError (fuel : nat) : M unit :=
  modify (upd_sendbuf (fun b => snd (QuicBuffer.Cancel b))) ;;
  closed <- SendConnectionClose fuel ;;
  if negb closed then
    SetLastError QUIC_ERROR_SESSION NGTCP2_ERR_INTERNAL ;;
    ImmediateClose
  else ret tt.

Definition HandleError (fuel : nat) : M unit :=
  fun s =>
    match Side s with
    | NGTCP2_CRYPTO_SIDE_SERVER => QuicSession_HandleError fuel s
    | NGTCP2_CRYPTO_SIDE_CLIENT =>
        if negb (IsInClosingPeriod s) then QuicSession_HandleError fuel s
        else Done tt s
    end.

(** How the loop over [streams_] in [SendPendingData] ends. *)
Inductive streams_exit := streams_done | streams_failed | streams_state_changed.

Fixpoint SendPendingData_streams (fuel : nat) (ids : list Z) : M streams_exit :=
  match ids with
  | [] => ret streams_done
  | stream_id :: rest =>
      sent <- SendStreamData fuel stream_id ;;
      if negb sent then ret streams_failed else
      changed <- gets (fun s =>
        IsInDrainingPeriod s || IsInClosingPeriod s
        || IsFlagSet QUICSESSION_FLAG_DESTROYED s) ;;
      if changed then ret streams_state_changed
      else SendPendingData_streams fuel rest
  end.

Definition SendPendingData (fuel : nat) : M unit :=
  skip <- gets (fun s =>
    InNgtcp2CallbackScope s
    || IsFlagSet QUICSESSION_FLAG_DESTROYED s
    || IsInDrainingPeriod s
    || (is_server s && IsInClosingPeriod s)) ;;
  if skip then ret tt else
  sent <- SendPacket "pending session data" ;;
  if negb sent then HandleError fuel else
  ids <- gets (fun s => map fst (streams_ s)) ;;
  exit <- SendPendingData_streams fuel ids ;;
  match exit with
  | streams_failed => HandleError fuel
  | streams_state_changed => ret tt
  | streams_done =>
      written <- WritePackets fuel "pending session data - write packets" ;;
      if negb written then HandleError fuel else ret tt
  end.

(** *** The receive path *)

(** The static callbacks registered with the transport library. *)
Definition OnReceiveStreamData (stream_id fin : Z) (data : bytes)
  (datalen offset : Z) : M unit :=
  Ngtcp2CallbackScope (ReceiveStreamData stream_id fin data datalen offset).

Definition OnAckedCryptoOffset (level : ngtcp2_crypto_level)
  (offset datalen : Z) : M unit :=
  Ngtcp2CallbackScope (AckedCryptoOffset level datalen).

Definition OnStreamOpen (stream_id : Z) : M unit := StreamOpen stream_id.

Definition OnStreamClose (stream_id app_error_code : Z) : M unit :=
  Ngtcp2CallbackScope (StreamClose stream_id app_error_code).

Definition OnStreamReset (stream_id final_size app_error_code : Z) : M unit :=
  Ngtcp2CallbackScope (StreamReset stream_id final_size app_error_code).

Definition OnStatelessReset : M unit := SilentClose true.

Definition invoke (cb : ngtcp2_callback) : M unit :=
  match cb with
  | recv_stream_data stream_id fin data datalen offset =>
      OnReceiveStreamData stream_id fin data datalen offset
  | acked_crypto_offset level offset datalen =>
      OnAckedCryptoOffset level offset datalen
  | stream_open stream_id => OnStreamOpen stream_id
  | stream_close stream_id app_error_code =>
      OnStreamClose stream_id app_error_code
  | stream_reset stream_id final_size app_error_code =>
      OnStreamReset stream_id final_size app_error_code
  | recv_stateless_reset => OnStatelessReset
  end.

Fixpoint invoke_all (cbs : list ngtcp2_callback) : M unit :=
  match cbs with
  | [] => ret tt
  | cb :: rest => invoke cb ;; invoke_all rest
  end.

(** [ngtcp2_conn_read_pkt]: the library processes the packet and invokes
    the callbacks on the session before it returns. *)
Definition read_pkt (data : bytes) (nread now : Z) : M Z :=
  remote <- gets remote_address_ ;;
  r <- call_host (ngtcp2_conn_read_pkt remote data nread now) ;;
  invoke_all (snd r) ;;
  ret (fst r).

Definition ReceivePacket (data : bytes) (nread : Z) : M bool :=
  destroyed <- gets (IsFlagSet QUICSESSION_FLAG_DESTROYED) ;;
  if destroyed then ret true else
  now <- call_host uv_hrtime ;;
  set_stat m_session_received_at now ;;
  err <- read_pkt data nread now ;;
  if err <? 0 then
    if (err =? NGTCP2_ERR_DRAINING) || (err =? NGTCP2_ERR_RECV_VERSION_NEGOTIATION)
    then ret true
    else
      SetLastError QUIC_ERROR_SESSION err ;;
      ret false
  else ret true.

(** [UpdateRecoveryStats] copies three round-trip figures of the library
    into a record of doubles that no modelled routine reads; it is left
    out. *)
Definition Receive (fuel : nat) (nread : Z) (data : bytes)
  (addr : SocketAddress) : M bool :=
  destroyed <- gets (IsFlagSet QUICSESSION_FLAG_DESTROYED) ;;
  if destroyed then ret false else
  increment_stat nread m_bytes_received ;;
  closing <- gets IsInClosingPeriod ;;
  if closing then
    IncrementConnectionCloseAttempts ;;
    attempt <- gets ShouldAttemptConnectionClose ;;
    if negb attempt then ret false else SendConnectionClose fuel
  else
  draining <- gets IsInDrainingPeriod ;;
  if draining then ret true else
  modify (upd_remote_address (fun _ => addr)) ;;
  received <- ReceivePacket data nread ;;
  if negb received then
    initial_close <- gets initial_connection_close_ ;;
    if initial_close =? NGTCP2_NO_ERROR then
      HandleError fuel ;;
      ret false
    else
      SetLastError QUIC_ERROR_SESSION initial_close ;;
      _ <- SendConnectionClose fuel ;;
      ret true
  else
  destroyed <- gets (IsFlagSet QUICSESSION_FLAG_DESTROYED) ;;
  if destroyed then
    unsent <- gets (fun s => negb (IsInClosingPeriod s) && negb (IsInDrainingPeriod s)) ;;
    (if unsent then
       SetLastError_default ;;
       _ <- SendConnectionClose fuel ;;
       ret tt
     else ret tt) ;;
    ret true
  else
  draining <- gets IsInDrainingPeriod ;;
  if draining then
    SilentClose false ;;
    ret true
  else
  SendPendingData fuel ;;
  UpdateIdleTimer ;;
  ret true.

(** *** Tearing down *)

(** The CID registry lives in the socket; what is left of
    [RemoveFromSocket] for the session is that it lets go of the socket. *)
Definition RemoveFromSocket : M unit := modify (upd_socket (fun _ => false)).

Definition Destroy (fuel : nat) : M unit :=
  destroyed <- gets (IsFlagSet QUICSESSION_FLAG_DESTROYED) ;;
  if destroyed then ret tt else
  attempt <- gets (fun s =>
    negb (InNgtcp2CallbackScope s)
    && negb (IsInClosingPeriod s)
    && negb (IsInDrainingPeriod s)) ;;
  (if attempt then
     SetLastError_default ;;
     _ <- SendConnectionClose fuel ;;
     ret tt
   else ret tt) ;;
  CHECK (fun s => match streams_ s with [] => true | _ :: _ => false end) ;;
  SetFlag QUICSESSION_FLAG_DESTROYED true ;;
  SetFlag QUICSESSION_FLAG_CLOSING false ;;
  SetFlag QUICSESSION_FLAG_GRACEFUL_CLOSING false ;;
  StopIdleTimer ;;
  StopRetransmitTimer ;;
  RemoveFromSocket.

End Session.

Arguments QuicSession : clear implicits.
Arguments outcome : clear implicits.
Arguments M : clear implicits.
Arguments Done {W A} a s.
Arguments Abort {W A}.
Arguments OutOfFuel {W A}.

(** ** Routines around the send path

    The keep-alive, and the entry points of the JavaScript binding that
    close or destroy a session. *)

Section Routines.

Context {W : Type} {host : Host W} {ngtcp2 : Ngtcp2Constants}.

Local Notation "x <- m ;; k" := (bind m (fun x => k))
  (at level 61, m at next level, right associativity).
Local Notation "m ;; k" := (bind m (fun _ => k))
  (at level 61, right associativity).

(** [QuicSession::Ping]; the result of [WritePackets] is dropped. *)
Definition Ping (fuel : nat) : M W unit :=
  skip <- gets (fun s =>
    InNgtcp2CallbackScope s
    || IsFlagSet QUICSESSION_FLAG_DESTROYED s
    || IsFlagSet QUICSESSION_FLAG_CLOSING s
    || IsInClosingPeriod s
    || IsInDrainingPeriod s) ;;
  if skip then ret tt else
  _ <- WritePackets fuel "ping" ;;
  UpdateIdleTimer ;;
  ScheduleRetransmit.

(** [QuicSessionClose] and [QuicSessionDestroy] of the JavaScript API,
    from the point where the arguments are converted. *)
Definition QuicSessionClose (fuel : nat) (fam : QuicErrorFamily) (c : Z)
  : M W unit :=
  SetLastError fam c ;;
  _ <- SendConnectionClose fuel ;;
  ret tt.

Definition QuicSessionDestroy (fuel : nat) (fam : QuicErrorFamily) (c : Z)
  : M W unit :=
  SetLastError fam c ;;
  Destroy fuel.

End Routines.

(** ** The retransmission timer

    [MaybeTimeout] runs when the retransmission timer fires.  It consults
    the loss-detection and the ack-delay timer of the transport library
    and counts in two members of [session_stats] that no other routine
    here touches; they are passed in and handed back. *)

Class LossTimers (W : Type) : Type := {
  ngtcp2_conn_loss_detection_expiry : W -> Z;
  ngtcp2_conn_on_loss_detection_timer : Z -> W -> Z * W;
  ngtcp2_conn_ack_delay_expiry : W -> Z;
  ngtcp2_conn_cancel_expired_ack_delay_timer : Z -> W -> W
}.

Record retransmit_stats := {
  loss_retransmit_count : Z;
  ack_delay_retransmit_count : Z
}.

Section Retransmit.

Context {W : Type} {host : Host W} {ngtcp2 : Ngtcp2Constants}.
Context {timers : LossTimers W}.

Local Notation "x <- m ;; k" := (bind m (fun x => k))
  (at level 61, m at next level, right associativity).
Local Notation "m ;; k" := (bind m (fun _ => k))
  (at level 61, right associativity).

Definition MaybeTimeout (fuel : nat) (counts : retransmit_stats)
  : M W retransmit_stats :=
  destroyed <- gets (IsFlagSet QUICSESSION_FLAG_DESTROYED) ;;
  if destroyed then ret counts else
  now <- call_host uv_hrtime ;;
  loss_expiry <- gets (fun s => ngtcp2_conn_loss_detection_expiry (host_ s)) ;;
  if loss_expiry <=? now then
    rv <- call_host (ngtcp2_conn_on_loss_detection_timer now) ;;
    CHECK (fun _ => rv =? 0) ;;
    SendPendingData fuel ;;
    ret {| loss_retransmit_count :=
             Int.wrap64 (loss_retransmit_count counts + 1);
           ack_delay_retransmit_count := ack_delay_retransmit_count counts |}
  else
    ack_expiry <- gets (fun s => ngtcp2_conn_ack_delay_expiry (host_ s)) ;;
    if ack_expiry <=? now then
      call_host
        (fun w => (tt, ngtcp2_conn_cancel_expired_ack_delay_timer now w)) ;;
      SendPendingData fuel ;;
      ret {| loss_retransmit_count := loss_retransmit_count counts;
             ack_delay_retransmit_count :=
               Int.wrap64 (ack_delay_retransmit_count counts + 1) |}
    else ret counts.

End Retransmit.

(** ** Handshake data on its way out

    [WriteHandshake] hands the bytes of the TLS provider to the transport
    library and keeps them in the crypto buffer of their level.  Its
    [session_stats_.handshake_send_at] is not among the members modelled
    above: the clock reading it stores there is the result. *)

Class CryptoSubmit (W : Type) : Type := {
  ngtcp2_conn_submit_crypto_data :
    ngtcp2_crypto_level -> bytes -> Z -> W -> Z * W
}.

Section Handshake.

Context {W : Type} {host : Host W} {ngtcp2 : Ngtcp2Constants}.
Context {submit : CryptoSubmit W}.

Local Notation "x <- m ;; k" := (bind m (fun x => k))
  (at level 61, m at next level, right associativity).
Local Notation "m ;; k" := (bind m (fun _ => k))
  (at level 61, right associativity).

(** [data] stands for the [datalen] bytes at [data]. *)
Definition WriteHandshake (level : ngtcp2_crypto_level) (data : bytes)
  (handshake_send_at : Z) : M W Z :=
  destroyed <- gets (IsFlagSet QUICSESSION_FLAG_DESTROYED) ;;
  if destroyed then ret handshake_send_at else
  now <- call_host uv_hrtime ;;
  rv <- call_host (ngtcp2_conn_submit_crypto_data level data (blen data)) ;;
  CHECK (fun _ => rv =? 0) ;;
  modify (upd_handshake (fun h =>
    crypto_put level (QuicBuffer.Push (crypto_get level h) data) h)) ;;
  ret now.

End Handshake.

(** ** The first packet of a connection

    [QuicServerSession::Accept] looks at a datagram for which the socket
    has no session.  [ngtcp2_accept] belongs to the transport library;
    the two constants are declared in headers that are not part of the
    sources. *)

Inductive InitialPacketResult := PACKET_OK | PACKET_IGNORE | PACKET_VERSION.

Class InitialPacketConstants : Type := {
  MIN_INITIAL_QUIC_PKT_SIZE : Z;
  NGTCP2_PROTO_VER : Z
}.

(** [nread] is an [ssize_t] that is compared as a [size_t]. *)
Definition Accept {constants : InitialPacketConstants}
  (ngtcp2_accept : bytes -> Z -> Z) (version : Z) (data : bytes) (nread : Z)
  : InitialPacketResult :=
  if Int.wrap64 nread <? MIN_INITIAL_QUIC_PKT_SIZE then PACKET_IGNORE
  else
    let rv := ngtcp2_accept data nread in
    if rv =? -1 then PACKET_IGNORE
    else if rv =? 1 then PACKET_VERSION
    else if negb (version =? NGTCP2_PROTO_VER) then PACKET_VERSION
    else PACKET_OK.

(** ** A scripted host

    A concrete [Host] for running the session on examples: the periods and
    the expiries are fields, the clock ticks once per reading, and the
    results of the packet calls are read off scripts, one entry per call. *)

Module Scripted.

Record t := {
  clock : Z;
  closing_period : bool;
  draining_period : bool;
  idle_expiry : Z;
  expiry : Z;
  max_data_left : Z;
  read_script : list (Z * list ngtcp2_callback);
  writev_script : list write_result;
  write_pkt_script : list write_result;
  close_script : list write_result;
  send_script : list Z
}.

Definition nothing_written : write_result :=
  {| nwrite := 0; ndatalen := 0; dest := []; path_remote := 0 |}.

Definition hrtime (w : t) : Z * t :=
  (clock w,
   {| clock := clock w + 1; closing_period := closing_period w;
      draining_period := draining_period w; idle_expiry := idle_expiry w;
      expiry := expiry w; max_data_left := max_data_left w;
      read_script := read_script w; writev_script := writev_script w;
      write_pkt_script := write_pkt_script w;
      close_script := close_script w; send_script := send_script w |}).

Definition read_pkt (remote : SocketAddress) (data : bytes) (nread now : Z)
  (w : t) : (Z * list ngtcp2_callback) * t :=
  (hd (0, []) (read_script w),
   {| clock := clock w; closing_period := closing_period w;
      draining_period := draining_period w; idle_expiry := idle_expiry w;
      expiry := expiry w; max_data_left := max_data_left w;
      read_script := tl (read_script w); writev_script := writev_script w;
      write_pkt_script := write_pkt_script w;
      close_script := close_script w; send_script := send_script w |}).

Definition writev_stream (max_pktlen stream_id fin : Z) (v : list bytes)
  (now : Z) (w : t) : write_result * t :=
  (hd nothing_written (writev_script w),
   {| clock := clock w; closing_period := closing_period w;
      draining_period := draining_period w; idle_expiry := idle_expiry w;
      expiry := expiry w; max_data_left := max_data_left w;
      read_script := read_script w; writev_script := tl (writev_script w);
      write_pkt_script := write_pkt_script w;
      close_script := close_script w; send_script := send_script w |}).

Definition write_pkt (max_pktlen now : Z) (w : t) : write_result * t :=
  (hd nothing_written (write_pkt_script w),
   {| clock := clock w; closing_period := closing_period w;
      draining_period := draining_period w; idle_expiry := idle_expiry w;
      expiry := expiry w; max_data_left := max_data_left w;
      read_script := read_script w; writev_script := writev_script w;
      write_pkt_script := tl (write_pkt_script w);
      close_script := close_script w; send_script := send_script w |}).

(** Once the library has written a CONNECTION_CLOSE the connection is in
    the closing period. *)
Definition write_close (fam : QuicErrorFamily) (max_pktlen code now : Z)
  (w : t) : write_result * t :=
  let r := hd nothing_written (close_script w) in
  (r,
   {| clock := clock w;
      closing_period := closing_period w || (0 <=? nwrite r);
      draining_period := draining_period w; idle_expiry := idle_expiry w;
      expiry := expiry w; max_data_left := max_data_left w;
      read_script := read_script w; writev_script := writev_script w;
      write_pkt_script := write_pkt_script w;
      close_script := tl (close_script w); send_script := send_script w |}).

Definition send (remote : SocketAddress) (data : bytes) (label : string)
  (w : t) : Z * t :=
  (hd 0 (send_script w),
   {| clock := clock w; closing_period := closing_period w;
      draining_period := draining_period w; idle_expiry := idle_expiry w;
      expiry := expiry w; max_data_left := max_data_left w;
      read_script := read_script w; writev_script := writev_script w;
      write_pkt_script := write_pkt_script w;
      close_script := close_script w; send_script := tl (send_script w) |}).

#[global] Instance host : Host t := {
  uv_hrtime := hrtime;
  ngtcp2_conn_is_in_closing_period := closing_period;
  ngtcp2_conn_is_in_draining_period := draining_period;
  ngtcp2_conn_get_idle_expiry := idle_expiry;
  ngtcp2_conn_get_expiry := expiry;
  ngtcp2_conn_get_max_data_left := max_data_left;
  ngtcp2_conn_read_pkt := read_pkt;
  ngtcp2_conn_writev_stream := writev_stream;
  ngtcp2_conn_write_pkt := write_pkt;
  ngtcp2_conn_write_close := write_close;
  ngtcp2_conn_shutdown_stream := fun _ _ w => (0, w);
  ngtcp2_conn_extend_max_offset := fun _ w => w;
  socket_SendPacket := send
}.

(** Error codes for the examples: negative and distinct, as ngtcp2.h has
    them. *)
#[global, refine] Instance constants : Ngtcp2Constants := {
  NGTCP2_NO_ERROR := 0;
  NGTCP2_ERR_PKT_NUM_EXHAUSTED := -216;
  NGTCP2_ERR_STREAM_DATA_BLOCKED := -210;
  NGTCP2_ERR_STREAM_SHUT_WR := -221;
  NGTCP2_ERR_STREAM_NOT_FOUND := -222;
  NGTCP2_ERR_RECV_VERSION_NEGOTIATION := -229;
  NGTCP2_ERR_CLOSING := -230;
  NGTCP2_ERR_DRAINING := -231;
  NGTCP2_ERR_INTERNAL := -238
}.
Proof.
  - repeat constructor; lia.
  - repeat constructor; simpl; intuition lia.
Defined.

(** An idle host: no period has started, the expiries are one second
    ahead of the clock, and every script is empty. *)
Definition idle_host : t :=
  {| clock := 1000000000; closing_period := false; draining_period := false;
     idle_expiry := 2000000000; expiry := 2000000000;
     max_data_left := 65536;
     read_script := []; writev_script := []; write_pkt_script := [];
     close_script := []; send_script := [] |}.

Definition host_closing (w : t) : t :=
  {| clock := clock w; closing_period := true;
     draining_period := draining_period w; idle_expiry := idle_expiry w;
     expiry := expiry w; max_data_left := max_data_left w;
     read_script := read_script w; writev_script := writev_script w;
     write_pkt_script := write_pkt_script w;
     close_script := close_script w; send_script := send_script w |}.

Definition host_draining (w : t) : t :=
  {| clock := clock w; closing_period := closing_period w;
     draining_period := true; idle_expiry := idle_expiry w;
     expiry := expiry w; max_data_left := max_data_left w;
     read_script := read_script w; writev_script := writev_script w;
     write_pkt_script := write_pkt_script w;
     close_script := close_script w; send_script := send_script w |}.

(** A fresh session on a host. *)
Definition session (side : ngtcp2_crypto_side) (w : t) : QuicSession t :=
  {| side_ := side; flags_ := no_flags; host_ := w; socket_ := true;
     outbox_ := []; remote_address_ := 1; max_pktlen_ := 1200;
     initial_connection_close_ := 0;
     last_error_ := InitQuicError QUIC_ERROR_SESSION 0;
     connection_close_attempts_ := 0; connection_close_limit_ := 3;
     sendbuf_ := QuicBuffer.empty; txbuf_ := QuicBuffer.empty;
     handshake_ := {| initial_crypto := []; handshake_crypto := [];
                      app_crypto := [] |};
     conn_closebuf_ := []; streams_ := []; session_stats_ := zero_stats;
     idle_ := TimerStopped; retransmit_ := TimerStopped;
     crypto_rx_ack_ := []; events_ := []; calls_ := [] |}.

End Scripted.

(** ** Observations

    What the properties below speak about: parts of the session that a
    routine leaves alone, the session after a step of [Receive] or of
    [SilentClose], runs of send routines, and the calls that
    [SendPendingData] makes. *)

(** The labels under which the connection-close and stream routines enter
    [SendPacket] and [WritePackets].  A filter [top] on the call history is
    quiet when it passes none of them. *)
Class QuietTop (top : SendCall -> bool) : Prop := {
  quiet_stream_data : top (CallSendPacket "stream data") = false;
  quiet_server_close : top (CallSendPacket "server connection close") = false;
  quiet_client_close : top (CallSendPacket "client connection close") = false;
  quiet_server_write :
    top (CallWritePackets "server connection close - write packets") = false;
  quiet_server_write_send :
    top (CallSendPacket "server connection close - write packets") = false;
  quiet_client_write :
    top (CallWritePackets "client connection close - write packets") = false;
  quiet_client_write_send :
    top (CallSendPacket "client connection close - write packets") = false
}.

Definition no_call (c : SendCall) : bool := false.

(** The bytes-received counter, the close-attempt counter with its
    threshold, and the part of the call history that [top] selects. *)
Definition core {W : Type} (top : SendCall -> bool) (s : QuicSession W)
  : Z * Z * Z * list SendCall :=
  (bytes_received (session_stats_ s), connection_close_attempts_ s,
   connection_close_limit_ s, filter top (calls_ s)).

(** The entries of the call history that [SendPendingData] itself makes:
    the flush of the send buffer, the serialization of a stream, and the
    final [WritePackets]. *)
Definition top_send (c : SendCall) : bool :=
  match c with
  | CallSendPacket label => String.eqb label "pending session data"
  | CallSendStreamData _ => true
  | CallWritePackets label =>
      String.eqb label "pending session data - write packets"
  end.

(** The calls of a complete [SendPendingData] over the streams [ids]. *)
Definition send_plan (ids : list Z) : list SendCall :=
  CallSendPacket "pending session data"
  :: map CallSendStreamData ids
  ++ [CallWritePackets "pending session data - write packets"].

(** The timeout as the spec words it: min(1 ms, expiry - now), for
    nanosecond readings. *)
Definition spec_idle_timeout (expiry now : Z) : Z :=
  Z.min 1 ((expiry - now) / 1000000).

(** The entry points through which the session can put bytes on the wire. *)
Inductive send_routine :=
| do_Receive (nread : Z) (data : bytes) (addr : SocketAddress)
| do_SendPendingData
| do_WritePackets (label : string)
| do_SendConnectionClose
| do_SendPacket (label : string).

Section Observations.

Context {W : Type} {host : Host W} {ngtcp2 : Ngtcp2Constants}.

(** [preserves obs m]: whenever [m] returns, the observation [obs] of the
    session is what it was. *)
Definition preserves {A X : Type} (obs : QuicSession W -> X) (m : M W A)
  : Prop :=
  forall s a s', m s = Done a s' -> obs s' = obs s.

Definition received (s : QuicSession W) : Z :=
  bytes_received (session_stats_ s).

Definition attempts (s : QuicSession W) : Z := connection_close_attempts_ s.

(** The session right after [Receive] has counted the packet. *)
Definition counted (nread : Z) (s : QuicSession W) : QuicSession W :=
  upd_session_stats (IncrementStat nread m_bytes_received) s.

(** The session after [Receive] has counted a packet and a close attempt. *)
Definition attempted (nread : Z) (s : QuicSession W) : QuicSession W :=
  upd_connection_close_attempts (fun n => n + 1) (counted nread s).

(** The session once [SilentClose] has gone through. *)
Definition silently_closed (stateless_reset : bool) (s : QuicSession W)
  : QuicSession W :=
  upd_events
    (fun l => l ++ [on_session_silent_close stateless_reset
                      (code (last_error_ s)) (family (last_error_ s))])
    (upd_flags
       (fun f => flag_set QUICSESSION_FLAG_CLOSING true
                   (flag_set QUICSESSION_FLAG_SILENT_CLOSE true f)) s).

Definition phases (s : QuicSession W) : list SendCall :=
  filter top_send (calls_ s).

Definition run_routine (fuel : nat) (c : send_routine) : M W unit :=
  match c with
  | do_Receive nread data addr =>
      bind (Receive fuel nread data addr) (fun _ => ret tt)
  | do_SendPendingData => SendPendingData fuel
  | do_WritePackets label => bind (WritePackets fuel label) (fun _ => ret tt)
  | do_SendConnectionClose => bind (SendConnectionClose fuel) (fun _ => ret tt)
  | do_SendPacket label => bind (SendPacket label) (fun _ => ret tt)
  end.

(** A run of send routines, each of them entered while the session is in
    the draining period. *)
Inductive draining_run (fuel : nat)
  : QuicSession W -> list send_routine -> QuicSession W -> Prop :=
| draining_run_nil s : draining_run fuel s [] s
| draining_run_cons s c s1 cs s' :
    IsInDrainingPeriod s = true ->
    run_routine fuel c s = Done tt s1 ->
    draining_run fuel s1 cs s' ->
    draining_run fuel s (c :: cs) s'.

(** What is on the wire and what is queued for it. *)
Definition wire (s : QuicSession W) : list QuicPacket * QuicBuffer.t * QuicBuffer.t :=
  (outbox_ s, sendbuf_ s, txbuf_ s).

(** What the transport callbacks leave alone: the wire with the send
    queues, the history of the send routines, and the last error. *)
Definition aside (s : QuicSession W) :=
  (wire s, calls_ s, last_error_ s).

(** A routine that leaves the marker of the callback scope cleared when
    it was clear before. *)
Definition scope_clear (m : M W unit) : Prop :=
  forall s s', InNgtcp2CallbackScope s = false -> m s = Done tt s' ->
               InNgtcp2CallbackScope s' = false.


(** What processing a packet leaves alone: the destroyed flag and the
    close code the session was created with. *)
Definition standing (s : QuicSession W) :=
  (IsFlagSet QUICSESSION_FLAG_DESTROYED s, initial_connection_close_ s).

(** The test [SendPendingData] makes after each stream: the session went
    into the draining or the closing period, or was destroyed. *)
Definition state_changed (s : QuicSession W) : bool :=
  IsInDrainingPeriod s || IsInClosingPeriod s
  || IsFlagSet QUICSESSION_FLAG_DESTROYED s.

(** A pass of [SendPendingData] over the streams [ids]:
    [stream_pass fuel s ids served exit s'] when [SendStreamData] runs for
    the streams [served], one after the other in this order, the first
    from the session [s] and each next one from the session the one
    before left, and the last one leaves [s'].  The pass stops at the
    first stream whose [SendStreamData] returns false, and at the first
    one after which the state of the session has changed. *)
Inductive stream_pass (fuel : nat) :
  QuicSession W -> list Z -> list Z -> streams_exit -> QuicSession W -> Prop :=
| pass_done s :
    stream_pass fuel s [] [] streams_done s
| pass_failed s stream_id rest s1 :
    SendStreamData fuel stream_id s = Done false s1 ->
    stream_pass fuel s (stream_id :: rest) [stream_id] streams_failed s1
| pass_state_changed s stream_id rest s1 :
    SendStreamData fuel stream_id s = Done true s1 ->
    state_changed s1 = true ->
    stream_pass fuel s (stream_id :: rest) [stream_id]
      streams_state_changed s1
| pass_next s stream_id rest s1 served exit s2 :
    SendStreamData fuel stream_id s = Done true s1 ->
    state_changed s1 = false ->
    stream_pass fuel s1 rest served exit s2 ->
    stream_pass fuel s (stream_id :: rest) (stream_id :: served) exit s2.

(** The call that follows the streams: the final [WritePackets], made
    when every stream had its turn. *)
Definition closing_calls (exit : streams_exit) : list SendCall :=
  match exit with
  | streams_done =>
      [CallWritePackets "pending session data - write packets"]
  | _ => []
  end.

End Observations.

(** ** The routines at work on the scripted host *)

Module Examples.

Import Scripted.

Definition server : QuicSession t := session NGTCP2_CRYPTO_SIDE_SERVER idle_host.

Definition client : QuicSession t := session NGTCP2_CRYPTO_SIDE_CLIENT idle_host.

(** A server in the closing period that keeps a two-byte
    CONNECTION_CLOSE packet. *)
Definition closing_server : QuicSession t :=
  upd_conn_closebuf (fun _ => [Byte.x1c; Byte.x00])
    (upd_host host_closing server).

(** The same server once two packets have come in since. *)
Definition closing_server_at_limit : QuicSession t :=
  upd_connection_close_attempts (fun _ => 2) closing_server.

Definition draining_server : QuicSession t := upd_host host_draining server.

(** A server with three handshake bytes waiting for their ack. *)
Definition handshaking_server : QuicSession t :=
  upd_handshake
    (fun h => crypto_put NGTCP2_CRYPTO_LEVEL_HANDSHAKE
                [Byte.x01; Byte.x02; Byte.x03] h)
    server.

Definition packet (n datalen : Z) : write_result :=
  {| nwrite := n; ndatalen := datalen;
     dest := repeat Byte.xff (Z.to_nat n); path_remote := 9 |}.

Definition queued (id : Z) (q : list bytes) : QuicStream.t :=
  {| QuicStream.id := id; QuicStream.writable := true;
     QuicStream.fin_sent := false; QuicStream.ever_writable := true;
     QuicStream.queue := q; QuicStream.received := [] |}.

(** A host whose library serializes the streams in two packets and has
    one more packet of its own. *)
Definition busy_host : t :=
  {| clock := 0; closing_period := false; draining_period := false;
     idle_expiry := 5000000000; expiry := 30000000; max_data_left := 100;
     read_script := [];
     writev_script := [packet 10 3; packet 8 2];
     write_pkt_script := [packet 4 0];
     close_script := [packet 5 0]; send_script := [] |}.

(** A server with stream 4 opened before stream 1, both with data. *)
Definition busy_server : QuicSession t :=
  upd_streams
    (fun _ => [(4, queued 4 [[Byte.x01; Byte.x02; Byte.x03]]);
               (1, queued 1 [[Byte.x01]; [Byte.x02]])])
    (session NGTCP2_CRYPTO_SIDE_SERVER busy_host).

(** A host whose library has run out of packet numbers. *)
Definition exhausted_host : t :=
  {| clock := 0; closing_period := false; draining_period := false;
     idle_expiry := 5000000000; expiry := 30000000; max_data_left := 100;
     read_script := [];
     writev_script := [packet NGTCP2_ERR_PKT_NUM_EXHAUSTED 0];
     write_pkt_script := []; close_script := []; send_script := [] |}.

Definition exhausted_server : QuicSession t :=
  upd_streams (fun _ => [(4, queued 4 [[Byte.x01]])])
    (session NGTCP2_CRYPTO_SIDE_SERVER exhausted_host).


(** A server after a silent close. *)
Definition silent_server : QuicSession t :=
  upd_flags
    (fun f => flag_set QUICSESSION_FLAG_CLOSING true
                (flag_set QUICSESSION_FLAG_SILENT_CLOSE true f))
    server.

(** A server whose library has run out of packet numbers when it is asked
    for a packet of its own. *)
Definition spent_host : t :=
  {| clock := 0; closing_period := false; draining_period := false;
     idle_expiry := 5000000000; expiry := 30000000; max_data_left := 100;
     read_script := []; writev_script := [];
     write_pkt_script := [packet NGTCP2_ERR_PKT_NUM_EXHAUSTED 0];
     close_script := []; send_script := [] |}.

Definition spent_server : QuicSession t :=
  session NGTCP2_CRYPTO_SIDE_SERVER spent_host.

(** A server that is about to read a packet with two bytes for stream 4,
    and one whose packet the library rejects. *)
Definition receiving_host (result : Z) : t :=
  {| clock := 1000000000; closing_period := false; draining_period := false;
     idle_expiry := 2000000000; expiry := 2000000000;
     max_data_left := 65536;
     read_script :=
       [(result, [recv_stream_data 4 0 [Byte.x01; Byte.x02] 2 0])];
     writev_script := []; write_pkt_script := []; close_script := [];
     send_script := [] |}.

Definition receiving_server : QuicSession t :=
  session NGTCP2_CRYPTO_SIDE_SERVER (receiving_host 0).


(** A server with stream 4 in its table, nothing queued. *)
Definition streaming_server : QuicSession t :=
  upd_streams (fun _ => [(4, QuicStream.fresh 4 true)]) server.

(** The loss-detection timer of the scripted host expires with its
    retransmission expiry, the ack-delay timer with its idle expiry. *)
#[global] Instance timers : LossTimers t := {
  ngtcp2_conn_loss_detection_expiry := expiry;
  ngtcp2_conn_on_loss_detection_timer := fun _ w => (0, w);
  ngtcp2_conn_ack_delay_expiry := idle_expiry;
  ngtcp2_conn_cancel_expired_ack_delay_timer := fun _ w => w
}.

(** A server whose clock has passed the expiry of the library. *)
Definition late_server : QuicSession t :=
  session NGTCP2_CRYPTO_SIDE_SERVER
    {| clock := 3000000000; closing_period := false;
       draining_period := false; idle_expiry := 5000000000;
       expiry := 2000000000; max_data_left := 65536;
       read_script := []; writev_script := []; write_pkt_script := [];
       close_script := []; send_script := [] |}.

(** A server that was created to refuse the connection with close code 2;
    the library rejects the packet and then writes a CONNECTION_CLOSE of
    five bytes. *)
Definition refusing_server : QuicSession t :=
  {| side_ := NGTCP2_CRYPTO_SIDE_SERVER; flags_ := no_flags;
     host_ :=
       {| clock := 1000000000; closing_period := false;
          draining_period := false; idle_expiry := 2000000000;
          expiry := 2000000000; max_data_left := 65536;
          read_script := [(NGTCP2_ERR_INTERNAL, [])];
          writev_script := []; write_pkt_script := [];
          close_script := [packet 5 0]; send_script := [] |};
     socket_ := true; outbox_ := []; remote_address_ := 1;
     max_pktlen_ := 1200; initial_connection_close_ := 2;
     last_error_ := InitQuicError QUIC_ERROR_SESSION 0;
     connection_close_attempts_ := 0; connection_close_limit_ := 3;
     sendbuf_ := QuicBuffer.empty; txbuf_ := QuicBuffer.empty;
     handshake_ := {| initial_crypto := []; handshake_crypto := [];
                      app_crypto := [] |};
     conn_closebuf_ := []; streams_ := []; session_stats_ := zero_stats;
     idle_ := TimerStopped; retransmit_ := TimerStopped;
     crypto_rx_ack_ := []; events_ := []; calls_ := [] |}.

(** The library of the scripted host takes all crypto data. *)
#[global] Instance submit : CryptoSubmit t := {
  ngtcp2_conn_submit_crypto_data := fun _ _ _ w => (0, w)
}.

(** The least initial packet and the version of the protocol, for the
    examples. *)
#[global] Instance first_packet : InitialPacketConstants := {
  MIN_INITIAL_QUIC_PKT_SIZE := 1200;
  NGTCP2_PROTO_VER := 4278190103
}.

End Examples.

(** * Properties *)

Unset Implicit Arguments.

(** ** Machine integers *)

Lemma wrap64_small z : Int.in_uint64 z -> Int.wrap64 z = z.
Proof. unfold Int.in_uint64, Int.wrap64; intros; apply Z.mod_small; lia. Qed.

Lemma wrap64_range z : Int.in_uint64 (Int.wrap64 z).
Proof. unfold Int.in_uint64, Int.wrap64; apply Z.mod_pos_bound; lia. Qed.

Lemma to_int_small z : Int.in_int z -> Int.to_int z = z.
Proof.
  unfold Int.in_int, Int.to_int; intros.
  rewrite Z.mod_small; lia.
Qed.

(** ** Reasoning about outcomes *)

Section Outcomes.

Context {W : Type} {host : Host W} {ngtcp2 : Ngtcp2Constants}.

Lemma bind_Done {A B : Type} (m : M W A) (k : A -> M W B) s b s' :
  bind m k s = Done b s' ->
  exists a s1, m s = Done a s1 /\ k a s1 = Done b s'.
Proof.
  unfold bind; destruct (m s) as [a s1| |]; try discriminate; eauto.
Qed.

Lemma bind_eq {A B : Type} (m : M W A) (k : A -> M W B) s a s1 :
  m s = Done a s1 -> bind m k s = k a s1.
Proof. unfold bind; intros ->; reflexivity. Qed.

Section Preserves.

Context {X : Type} (obs : QuicSession W -> X).

Lemma preserves_ret {A : Type} (a : A) : preserves obs (ret a).
Proof. intros s b s' H; inversion H; reflexivity. Qed.

Lemma preserves_bind {A B : Type} (m : M W A) (k : A -> M W B) :
  preserves obs m -> (forall a, preserves obs (k a)) ->
  preserves obs (bind m k).
Proof.
  intros Hm Hk s b s' H.
  apply bind_Done in H as (a & s1 & H1 & H2).
  rewrite (Hk _ _ _ _ H2); eauto.
Qed.

Lemma preserves_gets {A : Type} (f : QuicSession W -> A) :
  preserves obs (gets f).
Proof. intros s b s' H; inversion H; reflexivity. Qed.

Lemma preserves_CHECK cond : preserves obs (CHECK cond).
Proof.
  intros s b s' H; unfold CHECK in H.
  destruct (cond s); inversion H; reflexivity.
Qed.

Lemma preserves_out_of_fuel {A : Type} :
  preserves obs (out_of_fuel : M W A).
Proof. intros s b s' H; discriminate. Qed.

Lemma preserves_modify f :
  (forall s, obs (f s) = obs s) -> preserves obs (modify f).
Proof. intros Hf s b s' H; inversion H; apply Hf. Qed.

Lemma preserves_when b m : preserves obs m -> preserves obs (when b m).
Proof. destruct b; simpl; auto using preserves_ret. Qed.

Lemma preserves_call_host {A : Type} (f : W -> A * W) :
  (forall w s, obs (upd_host (fun _ => w) s) = obs s) ->
  preserves obs (call_host f).
Proof.
  intros Hf s b s' H; unfold call_host in H.
  destruct (f (host_ s)); inversion H; apply Hf.
Qed.

End Preserves.

End Outcomes.

(** ** What the send routines leave alone *)

#[export] Instance no_call_quiet : QuietTop no_call.
Proof. split; reflexivity. Qed.

Create HintDb frame.

#[export] Hint Resolve quiet_stream_data quiet_server_close quiet_client_close
  quiet_server_write quiet_server_write_send quiet_client_write
  quiet_client_write_send : frame.

Ltac core_leaf :=
  first
    [ reflexivity
    | unfold core, IncrementStat, stat_put; simpl;
      repeat match goal with
             | |- context [session_stats_ ?s] => destruct (session_stats_ s)
             end;
      reflexivity ].

(** Walks through a routine: [known] closes the calls to routines that are
    already dealt with, [leaf] the field updates. *)
Ltac frame_with known leaf :=
  repeat first
    [ solve [known]
    | apply preserves_ret
    | apply preserves_gets
    | apply preserves_CHECK
    | apply preserves_out_of_fuel
    | apply preserves_bind; [ | intro ]
    | apply preserves_when
    | apply preserves_modify; intro; leaf
    | apply preserves_call_host; intros; leaf
    | match goal with
      | |- preserves _ (match ?x with _ => _ end) => destruct x
      end ].

Ltac frame := frame_with ltac:(eauto with frame) core_leaf.

(** After its entry in the history, a routine that returned has left the
    observation [obs] to its callees. *)
Ltac entered H obs :=
  apply bind_Done in H as (? & ? & Henter & H);
  inversion Henter; subst; clear Henter; cbv beta in H;
  match type of H with
  | ?m _ = Done _ _ =>
      let Hp := fresh "Hp" in
      assert (Hp : preserves obs m) by frame;
      apply Hp in H
  end.

Section Core.

Context {W : Type} {host : Host W} {ngtcp2 : Ngtcp2Constants}.
Context (top : SendCall -> bool) {quiet : QuietTop top}.

Lemma core_entered c (s : QuicSession W) :
  (@core W top) (upd_calls (fun l => l ++ [c]) s)
  = (bytes_received (session_stats_ s), connection_close_attempts_ s,
     connection_close_limit_ s,
     filter top (calls_ s) ++ (if top c then [c] else [])).
Proof.
  unfold core; simpl. rewrite filter_app; simpl.
  destruct (top c); reflexivity.
Qed.

Lemma core_quiet_entry c (s : QuicSession W) :
  top c = false ->
  (@core W top) (upd_calls (fun l => l ++ [c]) s) = (@core W top) s.
Proof.
  intros Hc; rewrite core_entered, Hc, app_nil_r; reflexivity.
Qed.

Lemma enter_core c : top c = false -> preserves (@core W top) (enter c).
Proof.
  intros Hc; apply preserves_modify; intros; apply core_quiet_entry, Hc.
Qed.

Lemma Ngtcp2CallbackScope_core {A : Type} (m : M W A) :
  preserves (@core W top) m -> preserves (@core W top) (Ngtcp2CallbackScope m).
Proof. intros; unfold Ngtcp2CallbackScope; frame. Qed.

Lemma SetFlag_core f on : preserves (@core W top) (SetFlag f on).
Proof. frame. Qed.

Lemma SetLastError_core fam c : preserves (@core W top) (SetLastError fam c).
Proof. frame. Qed.

Lemma MakeCallback_core ev : preserves (@core W top) (MakeCallback ev).
Proof. frame. Qed.

Lemma UpdateIdleTimer_core : preserves (@core W top) UpdateIdleTimer.
Proof. frame. Qed.

Lemma ScheduleRetransmit_core : preserves (@core W top) ScheduleRetransmit.
Proof. frame. Qed.

Lemma StopIdleTimer_core : preserves (@core W top) StopIdleTimer.
Proof. frame. Qed.

Lemma StopRetransmitTimer_core : preserves (@core W top) StopRetransmitTimer.
Proof. frame. Qed.

Lemma deref_core id : preserves (@core W top) (deref id).
Proof.
  intros s a s' H; unfold deref in H.
  destruct (FindStream id s); inversion H; reflexivity.
Qed.

Hint Resolve Ngtcp2CallbackScope_core SetFlag_core SetLastError_core
  MakeCallback_core UpdateIdleTimer_core ScheduleRetransmit_core
  StopIdleTimer_core StopRetransmitTimer_core deref_core enter_core : frame.

Lemma AddStream_core stream : preserves (@core W top) (AddStream stream).
Proof. unfold AddStream; frame. Qed.

Lemma AckedCryptoOffset_core level datalen :
  preserves (@core W top) (AckedCryptoOffset level datalen).
Proof. unfold AckedCryptoOffset; frame. Qed.

Lemma ImmediateClose_core : preserves (@core W top) ImmediateClose.
Proof. unfold ImmediateClose; frame. Qed.

Lemma SilentClose_core stateless_reset :
  preserves (@core W top) (SilentClose stateless_reset).
Proof. unfold SilentClose; frame. Qed.

Hint Resolve AddStream_core AckedCryptoOffset_core ImmediateClose_core
  SilentClose_core : frame.

Lemma CreateStream_core stream_id : preserves (@core W top) (CreateStream stream_id).
Proof. unfold CreateStream, QuicStream_New; frame. Qed.

Hint Resolve CreateStream_core : frame.

Lemma ReceiveStreamData_core stream_id fin data datalen offset :
  preserves (@core W top) (ReceiveStreamData stream_id fin data datalen offset).
Proof. unfold ReceiveStreamData; frame. Qed.

Lemma StreamOpen_core stream_id : preserves (@core W top) (StreamOpen stream_id).
Proof. unfold StreamOpen; frame. Qed.

Lemma StreamClose_core stream_id c : preserves (@core W top) (StreamClose stream_id c).
Proof. unfold StreamClose; frame. Qed.

Lemma StreamReset_core stream_id n c :
  preserves (@core W top) (StreamReset stream_id n c).
Proof. unfold StreamReset; frame. Qed.

Hint Resolve ReceiveStreamData_core StreamOpen_core StreamClose_core
  StreamReset_core : frame.

Lemma invoke_core cb : preserves (@core W top) (invoke cb).
Proof.
  destruct cb; simpl;
    unfold OnReceiveStreamData, OnAckedCryptoOffset, OnStreamOpen,
      OnStreamClose, OnStreamReset, OnStatelessReset; frame.
Qed.

Hint Resolve invoke_core : frame.

Lemma invoke_all_core cbs : preserves (@core W top) (invoke_all cbs).
Proof. induction cbs; simpl; frame. Qed.

Hint Resolve invoke_all_core : frame.

Lemma ReceivePacket_core data nread :
  preserves (@core W top) (ReceivePacket data nread).
Proof. unfold ReceivePacket, read_pkt; frame. Qed.

Lemma Socket_SendPacket_core label : preserves (@core W top) (Socket_SendPacket label).
Proof. unfold Socket_SendPacket; frame. Qed.

Hint Resolve ReceivePacket_core Socket_SendPacket_core : frame.

Lemma SendPacket_entered label s r s' :
  SendPacket label s = Done r s' ->
  (@core W top) s' = (@core W top) (upd_calls (fun l => l ++ [CallSendPacket label]) s).
Proof. unfold SendPacket; intros H; entered H (@core W top); exact H. Qed.

Lemma SendPacket_core label :
  top (CallSendPacket label) = false -> preserves (@core W top) (SendPacket label).
Proof.
  intros Hq s r s' H.
  rewrite (SendPacket_entered label s r s' H); apply core_quiet_entry, Hq.
Qed.

Hint Resolve SendPacket_core : frame.

Lemma SendStreamData_failed_core n : preserves (@core W top) (SendStreamData_failed n).
Proof. unfold SendStreamData_failed; frame. Qed.

Lemma WritePackets_failed_core n : preserves (@core W top) (WritePackets_failed n).
Proof. unfold WritePackets_failed; frame. Qed.

Hint Resolve SendStreamData_failed_core WritePackets_failed_core : frame.

Lemma SendStreamData_loop_core fuel stream_id v :
  preserves (@core W top) (SendStreamData_loop fuel stream_id v).
Proof. revert v; induction fuel; intros v; simpl; frame. Qed.

Hint Resolve SendStreamData_loop_core : frame.

Lemma SendStreamData_entered fuel stream_id s r s' :
  SendStreamData fuel stream_id s = Done r s' ->
  (@core W top) s' = (@core W top) (upd_calls (fun l => l ++ [CallSendStreamData stream_id]) s).
Proof. unfold SendStreamData; intros H; entered H (@core W top); exact H. Qed.

Lemma WritePackets_loop_core fuel label :
  top (CallSendPacket label) = false ->
  preserves (@core W top) (WritePackets_loop fuel label).
Proof. intros Hq; induction fuel; simpl; frame. Qed.

Lemma StartClosingPeriod_core : preserves (@core W top) StartClosingPeriod.
Proof. unfold StartClosingPeriod, write_close; frame. Qed.

Hint Resolve WritePackets_loop_core StartClosingPeriod_core : frame.

Lemma QuicServerSession_SendConnectionClose_core WP :
  (forall label,
      top (CallWritePackets label) = false ->
      top (CallSendPacket label) = false -> preserves (@core W top) (WP label)) ->
  preserves (@core W top) (QuicServerSession_SendConnectionClose WP).
Proof. intros HWP; unfold QuicServerSession_SendConnectionClose; frame. Qed.

Lemma QuicClientSession_SendConnectionClose_core WP :
  (forall label,
      top (CallWritePackets label) = false ->
      top (CallSendPacket label) = false -> preserves (@core W top) (WP label)) ->
  preserves (@core W top) (QuicClientSession_SendConnectionClose WP).
Proof.
  intros HWP; unfold QuicClientSession_SendConnectionClose, write_close; frame.
Qed.

Lemma SendConnectionClose_body_core WP :
  (forall label,
      top (CallWritePackets label) = false ->
      top (CallSendPacket label) = false -> preserves (@core W top) (WP label)) ->
  preserves (@core W top) (SendConnectionClose_body WP).
Proof.
  intros HWP s r s' H; unfold SendConnectionClose_body in H.
  destruct (Side s);
    [ eapply QuicClientSession_SendConnectionClose_core
    | eapply QuicServerSession_SendConnectionClose_core ]; eauto.
Qed.

Lemma WritePackets_entered fuel label s r s' :
  top (CallSendPacket label) = false ->
  WritePackets fuel label s = Done r s' ->
  (@core W top) s' = (@core W top) (upd_calls (fun l => l ++ [CallWritePackets label]) s).
Proof.
  revert label s r s'; induction fuel; intros label s r s' Hq H.
  - simpl in H; entered H (@core W top); exact H.
  - assert (HWP : forall l,
               top (CallWritePackets l) = false ->
               top (CallSendPacket l) = false ->
               preserves (@core W top) (WritePackets fuel l)).
    { intros l Hw Hs s0 r0 s0' H0.
      rewrite (IHfuel _ _ _ _ Hs H0); apply core_quiet_entry, Hw. }
    pose proof (SendConnectionClose_body_core (WritePackets fuel) HWP).
    simpl in H; entered H (@core W top); exact H.
Qed.

Lemma WritePackets_core fuel label :
  top (CallWritePackets label) = false ->
  top (CallSendPacket label) = false ->
  preserves (@core W top) (WritePackets fuel label).
Proof.
  intros Hw Hs s r s' H.
  rewrite (WritePackets_entered fuel label s r s' Hs H); apply core_quiet_entry, Hw.
Qed.

Lemma SendConnectionClose_core fuel : preserves (@core W top) (SendConnectionClose fuel).
Proof.
  apply SendConnectionClose_body_core; intros; apply WritePackets_core; auto.
Qed.

Hint Resolve SendConnectionClose_core : frame.

Lemma HandleError_core fuel : preserves (@core W top) (HandleError fuel).
Proof.
  intros s r s' H; unfold HandleError in H.
  assert (Hp : preserves (@core W top) (QuicSession_HandleError fuel))
    by (unfold QuicSession_HandleError; frame).
  destruct (Side s); [destruct (negb (IsInClosingPeriod s)) | ];
    try (eapply Hp; eassumption).
  inversion H; reflexivity.
Qed.

Lemma SendStreamData_core fuel stream_id :
  top (CallSendStreamData stream_id) = false ->
  preserves (@core W top) (SendStreamData fuel stream_id).
Proof.
  intros Hq s r s' H.
  rewrite (SendStreamData_entered fuel stream_id s r s' H).
  apply core_quiet_entry, Hq.
Qed.

Lemma SendPendingData_streams_core fuel ids :
  (forall c, top c = false) ->
  preserves (@core W top) (SendPendingData_streams fuel ids).
Proof.
  intros Hq; pose proof (fun id => SendStreamData_core fuel id (Hq _)).
  induction ids; simpl; frame.
Qed.

Lemma SendPendingData_core fuel :
  (forall c, top c = false) -> preserves (@core W top) (SendPendingData fuel).
Proof.
  intros Hq.
  pose proof (SendPendingData_streams_core fuel) as Hs.
  pose proof (HandleError_core fuel).
  pose proof (fun l => WritePackets_core fuel l (Hq _) (Hq _)).
  unfold SendPendingData; frame.
Qed.

End Core.

#[export] Hint Resolve no_call_quiet : frame.

(** ** The crypto buffers *)

Section CryptoBuffers.

Context {W : Type} {host : Host W} {ngtcp2 : Ngtcp2Constants}.

Lemma crypto_get_put_same l b h : crypto_get l (crypto_put l b h) = b.
Proof. destruct h, l; reflexivity. Qed.

Lemma crypto_get_put_other l l' b h :
  l' <> l -> crypto_get l' (crypto_put l b h) = crypto_get l' h.
Proof. destruct h, l, l'; intros; congruence || reflexivity. Qed.

(** C5.  An acknowledgement of [B] crypto bytes at level [L] that reaches a
    session which is not destroyed returns and frees the oldest [B] bytes
    of the buffer of [L]: what is left is the old content without its
    first [B] bytes, the buffer is [B] bytes shorter, and the buffers of
    the other two levels are as they were.  A destroyed session ignores
    the acknowledgement and stays as it is. *)
Theorem AckedCryptoOffset_consumes_head (s : QuicSession W)
  (L : ngtcp2_crypto_level) (B : Z) :
  0 <= B <= QuicBuffer.Length (crypto_get L (handshake_ s)) ->
  if IsFlagSet QUICSESSION_FLAG_DESTROYED s
  then AckedCryptoOffset L B s = Done tt s
  else
    exists s',
      AckedCryptoOffset L B s = Done tt s'
      /\ firstn (Z.to_nat B) (crypto_get L (handshake_ s))
           ++ crypto_get L (handshake_ s')
         = crypto_get L (handshake_ s)
      /\ QuicBuffer.Length (crypto_get L (handshake_ s'))
         = QuicBuffer.Length (crypto_get L (handshake_ s)) - B
      /\ (forall L', L' <> L ->
            crypto_get L' (handshake_ s') = crypto_get L' (handshake_ s)).
Proof.
  intros HB.
  unfold AckedCryptoOffset, bind, gets.
  destruct (IsFlagSet QUICSESSION_FLAG_DESTROYED s); [reflexivity|].
  unfold modify at 1, call_host; simpl.
  destruct (uv_hrtime (host_ s)) as [now w]; simpl.
  destruct (0 <? handshake_acked_at (session_stats_ s)); simpl;
    (eexists; split; [reflexivity|]); simpl;
    rewrite crypto_get_put_same; unfold QuicBuffer.Consume;
    (split; [apply firstn_skipn|]);
    (split; [|intros; apply crypto_get_put_other; assumption]);
    unfold QuicBuffer.Length, blen in *; rewrite length_skipn; lia.
Qed.

End CryptoBuffers.

(** ** The idle timer *)

Section IdleTimer.

Context {W : Type} {host : Host W} {ngtcp2 : Ngtcp2Constants}.

Lemma timer_interval_max expiry now :
  Int.in_uint64 now -> Int.in_uint64 expiry ->
  timer_interval expiry now
  = if expiry <? now then 1 else Z.max 1 ((expiry - now) / 1000000).
Proof.
  unfold Int.in_uint64, timer_interval; intros Hn He.
  destruct (expiry <? now) eqn:Hlt; [reflexivity|].
  apply Z.ltb_ge in Hlt; simpl.
  rewrite wrap64_small by (unfold Int.in_uint64; lia).
  assert (0 <= (expiry - now) / 1000000) by (apply Z.div_pos; lia).
  destruct ((expiry - now) / 1000000 =? 0) eqn:Hz.
  - apply Z.eqb_eq in Hz; lia.
  - apply Z.eqb_neq in Hz; lia.
Qed.

(** C6, amended.  [UpdateIdleTimer] always returns, and it arms the idle
    timer with max(1, (expiry - now) / 1000000) milliseconds when the
    idle expiry of the transport library is not before the clock reading
    (both in nanoseconds), and with 1 millisecond when it is. *)
Theorem UpdateIdleTimer_timeout (s : QuicSession W) (now : Z) (w : W) :
  uv_hrtime (host_ s) = (now, w) ->
  Int.in_uint64 now ->
  Int.in_uint64 (ngtcp2_conn_get_idle_expiry w) ->
  exists s',
    UpdateIdleTimer s = Done tt s'
    /\ idle_ s' =
       TimerArmed
         (if ngtcp2_conn_get_idle_expiry w <? now then 1
          else Z.max 1 ((ngtcp2_conn_get_idle_expiry w - now) / 1000000)).
Proof.
  intros Hclock Hn He.
  unfold UpdateIdleTimer, bind, call_host, gets, modify.
  rewrite Hclock; simpl.
  eexists; split; [reflexivity|]; simpl.
  rewrite timer_interval_max by assumption; reflexivity.
Qed.

End IdleTimer.

(** ** The stream table *)

Section StreamTable.

Context {W : Type} {host : Host W} {ngtcp2 : Ngtcp2Constants}.

Lemma ReceiveStreamData_empty (s : QuicSession W) stream_id data offset :
  ReceiveStreamData stream_id 0 data 0 offset s = Done tt s.
Proof. reflexivity. Qed.

(** C8.  A STREAM frame without data and without fin for a stream id that
    is not in the stream table is dropped: [ReceiveStreamData] returns
    and the session is what it was, so no stream is created, no listener
    event is emitted and the stream table is unchanged. *)
Theorem ReceiveStreamData_empty_frame_dropped (s : QuicSession W)
  (stream_id : Z) (data : bytes) (offset : Z) :
  FindStream stream_id s = None ->
  ReceiveStreamData stream_id 0 data 0 offset s = Done tt s
  /\ forall s',
       ReceiveStreamData stream_id 0 data 0 offset s = Done tt s' ->
       FindStream stream_id s' = None
       /\ streams_ s' = streams_ s
       /\ events_ s' = events_ s.
Proof.
  intros Hnone; split; [reflexivity|].
  intros s' H; inversion H; subst; auto.
Qed.

(** Whatever the origin of the stream, [AddStream] makes two increments on
    the pair [streams_in_count], [streams_out_count]: the one of the
    [switch] on the origin and the one that follows it, which always goes
    to [streams_out_count]. *)
Lemma AddStream_two_increments (s : QuicSession W) (stream : QuicStream.t) :
  0 <= streams_in_count (session_stats_ s) < 2 ^ 64 - 2 ->
  0 <= streams_out_count (session_stats_ s) < 2 ^ 64 - 2 ->
  exists s',
    AddStream stream s = Done tt s'
    /\ streams_out_count (session_stats_ s')
       > streams_out_count (session_stats_ s)
    /\ streams_in_count (session_stats_ s')
       + streams_out_count (session_stats_ s')
       = streams_in_count (session_stats_ s)
         + streams_out_count (session_stats_ s) + 2.
Proof.
  intros Hin Hout.
  unfold AddStream, bind, modify, gets, increment_stat, IncrementStat.
  destruct (QuicStream.GetOrigin stream), (QuicStream.GetDirection stream);
    cbv beta iota;
    match goal with
    | |- context [is_server ?x] => destruct (is_server x)
    end;
    (eexists; split; [reflexivity|]);
    destruct s; simpl in *;
    match goal with
    | st : session_stats |- _ => destruct st
    end;
    simpl in *;
    repeat match goal with
           | |- context [Int.wrap64 ?x] =>
               rewrite (wrap64_small x) by (unfold Int.in_uint64; lia)
           end;
    lia.
Qed.

(** A stream that is added under a fresh id goes to the end of the stream
    table: the table keeps the streams in the order of their creation. *)
Lemma AddStream_appends (s s' : QuicSession W) (stream : QuicStream.t) :
  FindStream (QuicStream.GetID stream) s = None ->
  AddStream stream s = Done tt s' ->
  map fst (streams_ s')
  = map fst (streams_ s) ++ [QuicStream.GetID stream].
Proof.
  unfold FindStream; intros Hnone.
  unfold AddStream, bind, modify, gets, increment_stat.
  destruct (QuicStream.GetOrigin stream), (QuicStream.GetDirection stream);
    cbv beta iota;
    match goal with
    | |- context [is_server ?x] => destruct (is_server x)
    end;
    intros H; inversion H; subst; simpl;
    unfold emplace; rewrite Hnone, map_app; reflexivity.
Qed.

End StreamTable.

(** ** Destroy *)

Section Teardown.

Context {W : Type} {host : Host W} {ngtcp2 : Ngtcp2Constants}.

Lemma Destroy_destroyed fuel (s : QuicSession W) :
  IsFlagSet QUICSESSION_FLAG_DESTROYED s = true -> Destroy fuel s = Done tt s.
Proof. intros H; unfold Destroy, bind, gets; rewrite H; reflexivity. Qed.

Lemma Destroy_sets_destroyed fuel (s s' : QuicSession W) :
  Destroy fuel s = Done tt s' -> IsFlagSet QUICSESSION_FLAG_DESTROYED s' = true.
Proof.
  unfold Destroy; intros H.
  unfold bind at 1, gets at 1 in H.
  destruct (IsFlagSet QUICSESSION_FLAG_DESTROYED s) eqn:Hd.
  - inversion H; subst; assumption.
  - apply bind_Done in H as (? & s1 & _ & H).
    apply bind_Done in H as (? & s2 & _ & H).
    apply bind_Done in H as (? & s3 & _ & H).
    unfold SetFlag, StopIdleTimer, StopRetransmitTimer, RemoveFromSocket,
      bind, modify in H.
    inversion H; subst; unfold IsFlagSet; simpl.
    destruct (flags_ s3); reflexivity.
Qed.

(** C9.  [Destroy] on a session that is already destroyed returns at once
    and leaves the session as it is; a [Destroy] that returns leaves the
    session destroyed; so a second [Destroy] right after the first, with
    whatever fuel, ends exactly as the first one did. *)
Theorem Destroy_idempotent (fuel fuel' : nat) (s : QuicSession W) :
  (IsFlagSet QUICSESSION_FLAG_DESTROYED s = true -> Destroy fuel s = Done tt s)
  /\ (forall s', Destroy fuel s = Done tt s' ->
        IsFlagSet QUICSESSION_FLAG_DESTROYED s' = true
        /\ Destroy fuel' s' = Done tt s')
  /\ bind (Destroy fuel) (fun _ => Destroy fuel') s = Destroy fuel s.
Proof.
  split; [apply Destroy_destroyed|].
  split.
  - intros s' H; pose proof (Destroy_sets_destroyed _ _ _ H).
    auto using Destroy_destroyed.
  - unfold bind at 1.
    destruct (Destroy fuel s) as [[] s'| |] eqn:H; try reflexivity.
    apply Destroy_destroyed, (Destroy_sets_destroyed _ _ _ H).
Qed.

End Teardown.

(** ** The per-stream write loop *)

Section WriteLoop.

Context {W : Type} {host : Host W} {ngtcp2 : Ngtcp2Constants}.

Lemma stream_errors_negative :
  NGTCP2_ERR_PKT_NUM_EXHAUSTED < 0
  /\ NGTCP2_ERR_STREAM_DATA_BLOCKED < 0
  /\ NGTCP2_ERR_STREAM_SHUT_WR < 0
  /\ NGTCP2_ERR_STREAM_NOT_FOUND < 0.
Proof.
  pose proof ngtcp2_err_negative as H.
  repeat match goal with
         | H : Forall _ (_ :: _) |- _ => inversion H; subst; clear H
         end.
  lia.
Qed.

Lemma stream_errors_distinct :
  NGTCP2_ERR_STREAM_DATA_BLOCKED <> NGTCP2_ERR_PKT_NUM_EXHAUSTED
  /\ NGTCP2_ERR_STREAM_SHUT_WR <> NGTCP2_ERR_PKT_NUM_EXHAUSTED
  /\ NGTCP2_ERR_STREAM_NOT_FOUND <> NGTCP2_ERR_PKT_NUM_EXHAUSTED.
Proof.
  pose proof ngtcp2_err_distinct as H.
  apply NoDup_cons_iff in H as [H _]; simpl in H.
  repeat split; intros E; apply H; rewrite E; auto.
Qed.

Lemma SilentClose_Done stateless_reset (s : QuicSession W) :
  IsFlagSet QUICSESSION_FLAG_CLOSING s = false ->
  SilentClose stateless_reset s = Done tt (silently_closed stateless_reset s).
Proof.
  intros H; unfold SilentClose, bind, CHECK; rewrite H; reflexivity.
Qed.

Lemma SilentClose_Abort stateless_reset (s : QuicSession W) :
  IsFlagSet QUICSESSION_FLAG_CLOSING s = true ->
  SilentClose stateless_reset s = Abort.
Proof.
  intros H; unfold SilentClose, bind, CHECK; rewrite H; reflexivity.
Qed.

(** One turn of the loop up to the [switch]: the stream is read, the
    clock is read, the library is called, and a result [nwrite <= 0] is
    handed to the [switch]. *)
Lemma SendStreamData_loop_failed fuel stream_id v (s : QuicSession W)
  st now w1 r w2 :
  FindStream stream_id s = Some st ->
  uv_hrtime (host_ s) = (now, w1) ->
  ngtcp2_conn_writev_stream (max_pktlen_ s) (QuicStream.GetID st)
    (if QuicStream.IsWritable st then 0 else 1) v now w1 = (r, w2) ->
  nwrite r <= 0 ->
  SendStreamData_loop (S fuel) stream_id v s
  = SendStreamData_failed (nwrite r) (upd_host (fun _ => w2) s).
Proof.
  intros Hst Hclock Hcall Hle; simpl.
  unfold bind at 1, deref; rewrite Hst.
  unfold bind at 1, gets at 1.
  unfold bind at 1, call_host at 1; rewrite Hclock.
  unfold bind at 1, call_host at 1; simpl; rewrite Hcall.
  apply Z.leb_le in Hle; rewrite Hle; reflexivity.
Qed.

(** C4.  What the write loop of [SendStreamData] does with a return value
    [nwrite <= 0] of the library's writev call, in any turn of the loop
    ([s2] is the session after the call): on zero it stops and reports
    success with nothing else changed; on [PKT_NUM_EXHAUSTED] it runs
    [SilentClose] and reports failure (the session then carries the
    silent-close and closing flags and the listener has the silent-close
    event); on [STREAM_DATA_BLOCKED], [STREAM_SHUT_WR] and
    [STREAM_NOT_FOUND] it leaves the stream and reports success with
    nothing else changed; on any other negative value it stores the
    value, cast to [int], as the session's last error in the session
    family and reports failure. *)
Theorem SendStreamData_writev_results (fuel : nat) (stream_id : Z)
  (v : list bytes) (s : QuicSession W) (st : QuicStream.t) (now : Z)
  (w1 : W) (r : write_result) (w2 : W) :
  FindStream stream_id s = Some st ->
  uv_hrtime (host_ s) = (now, w1) ->
  ngtcp2_conn_writev_stream (max_pktlen_ s) (QuicStream.GetID st)
    (if QuicStream.IsWritable st then 0 else 1) v now w1 = (r, w2) ->
  nwrite r <= 0 ->
  let s2 := upd_host (fun _ => w2) s in
  let run := SendStreamData_loop (S fuel) stream_id v s in
  (nwrite r = 0 -> run = Done true s2)
  /\ (nwrite r = NGTCP2_ERR_PKT_NUM_EXHAUSTED ->
        run = bind (SilentClose false) (fun _ => ret false) s2
        /\ (IsFlagSet QUICSESSION_FLAG_CLOSING s = false ->
              run = Done false (silently_closed false s2)))
  /\ ((nwrite r = NGTCP2_ERR_STREAM_DATA_BLOCKED
       \/ nwrite r = NGTCP2_ERR_STREAM_SHUT_WR
       \/ nwrite r = NGTCP2_ERR_STREAM_NOT_FOUND) ->
        run = Done true s2)
  /\ (nwrite r < 0 ->
      nwrite r <> NGTCP2_ERR_PKT_NUM_EXHAUSTED ->
      nwrite r <> NGTCP2_ERR_STREAM_DATA_BLOCKED ->
      nwrite r <> NGTCP2_ERR_STREAM_SHUT_WR ->
      nwrite r <> NGTCP2_ERR_STREAM_NOT_FOUND ->
        run = Done false
                (upd_last_error
                   (fun _ => InitQuicError QUIC_ERROR_SESSION
                               (Int.to_int (nwrite r))) s2)
        /\ (Int.in_int (nwrite r) -> Int.to_int (nwrite r) = nwrite r)).
Proof.
  intros Hst Hclock Hcall Hle s2 run.
  assert (Hrun : run = SendStreamData_failed (nwrite r) s2)
    by (eapply SendStreamData_loop_failed; eassumption).
  destruct stream_errors_negative as (He & Hb & Hw & Hf).
  destruct stream_errors_distinct as (Hbe & Hwe & Hfe).
  rewrite Hrun; unfold SendStreamData_failed.
  assert (Ee : (NGTCP2_ERR_PKT_NUM_EXHAUSTED =? 0) = false)
    by (apply Z.eqb_neq; lia).
  split; [|split; [|split]].
  - intros ->; reflexivity.
  - intros ->; rewrite Ee, Z.eqb_refl.
    split; [reflexivity|].
    intros Hc; unfold bind.
    rewrite SilentClose_Done by exact Hc; reflexivity.
  - intros Hcases.
    destruct (nwrite r =? 0) eqn:E0; [reflexivity|].
    destruct (nwrite r =? NGTCP2_ERR_PKT_NUM_EXHAUSTED) eqn:E1;
      [apply Z.eqb_eq in E1; intuition congruence|].
    destruct Hcases as [-> | [-> | ->]];
      rewrite ?Z.eqb_refl;
      repeat match goal with
             | |- context [if ?a =? ?b then _ else _] =>
                 destruct (a =? b); try reflexivity
             end;
      reflexivity.
  - intros Hneg He' Hb' Hw' Hf'.
    apply Z.eqb_neq in He', Hb', Hw', Hf'.
    assert (E0 : (nwrite r =? 0) = false) by (apply Z.eqb_neq; lia).
    rewrite E0, He', Hb', Hw', Hf'.
    split; [reflexivity|apply to_int_small].
Qed.

End WriteLoop.

(** ** Receive *)

#[export] Hint Resolve Ngtcp2CallbackScope_core SetFlag_core SetLastError_core
  MakeCallback_core UpdateIdleTimer_core ScheduleRetransmit_core
  StopIdleTimer_core StopRetransmitTimer_core deref_core enter_core
  AddStream_core AckedCryptoOffset_core ImmediateClose_core SilentClose_core
  CreateStream_core ReceiveStreamData_core StreamOpen_core StreamClose_core
  StreamReset_core invoke_core invoke_all_core ReceivePacket_core
  Socket_SendPacket_core SendPacket_core SendStreamData_failed_core
  WritePackets_failed_core SendStreamData_loop_core WritePackets_loop_core
  StartClosingPeriod_core SendConnectionClose_core HandleError_core
  SendStreamData_core WritePackets_core SendPendingData_core : frame.

Section Receive.

Context {W : Type} {host : Host W} {ngtcp2 : Ngtcp2Constants}.

Lemma core_received {A : Type} (m : M W A) :
  preserves (core no_call) m -> preserves received m.
Proof.
  intros Hm s a s' H; apply Hm in H; unfold core in H.
  inversion H; assumption.
Qed.

Lemma core_attempts {A : Type} (m : M W A) :
  preserves (core no_call) m -> preserves attempts m.
Proof.
  intros Hm s a s' H; apply Hm in H; unfold core in H.
  inversion H; assumption.
Qed.

Lemma core_limit {A : Type} (m : M W A) :
  preserves (core no_call) m -> preserves (@connection_close_limit_ W) m.
Proof.
  intros Hm s a s' H; apply Hm in H; unfold core in H.
  inversion H; congruence.
Qed.

Lemma received_counted nread (s : QuicSession W) :
  received (counted nread s) = Int.wrap64 (received s + nread).
Proof.
  unfold received, counted, IncrementStat; simpl.
  destruct (session_stats_ s); reflexivity.
Qed.

Lemma Receive_destroyed fuel nread data addr (s : QuicSession W) :
  IsFlagSet QUICSESSION_FLAG_DESTROYED s = true ->
  Receive fuel nread data addr s = Done false s.
Proof. intros H; unfold Receive, bind, gets; rewrite H; reflexivity. Qed.

(** What [Receive] does once the packet is counted. *)
Lemma Receive_counted fuel nread data addr (s : QuicSession W) :
  IsFlagSet QUICSESSION_FLAG_DESTROYED s = false ->
  exists rest : M W bool,
    Receive fuel nread data addr s = rest (counted nread s)
    /\ preserves received rest.
Proof.
  intros Hd; unfold Receive.
  unfold bind at 1, gets at 1; rewrite Hd.
  unfold bind at 1, increment_stat, modify at 1.
  eexists; split; [reflexivity|].
  frame_with ltac:(apply core_received; eauto with frame) ltac:(reflexivity).
Qed.

Lemma Receive_draining_drop fuel nread data addr (s : QuicSession W) :
  IsFlagSet QUICSESSION_FLAG_DESTROYED s = false ->
  IsInClosingPeriod s = false ->
  IsInDrainingPeriod s = true ->
  Receive fuel nread data addr s = Done true (counted nread s).
Proof.
  intros Hd Hc Hdr.
  unfold Receive, bind, gets, increment_stat, modify.
  rewrite Hd; cbv beta.
  change (IsInClosingPeriod (upd_session_stats ?f s))
    with (IsInClosingPeriod s).
  rewrite Hc; cbv beta.
  change (IsInDrainingPeriod (upd_session_stats ?f s))
    with (IsInDrainingPeriod s).
  rewrite Hdr; reflexivity.
Qed.

(** C10.  A [Receive] of [nread] bytes that returns on a session which is
    not destroyed has added exactly [nread] to [bytes_received], whatever
    became of the packet: in the closing period (a CONNECTION_CLOSE re-sent
    or nothing at all), in the draining period (dropped; there [Receive]
    does return), or processed.  On a destroyed session [Receive] returns
    false and nothing changes.  The counter is a [uint64_t]; the sum is
    taken to fit. *)
Theorem Receive_counts_bytes (fuel : nat) (nread : Z) (data : bytes)
  (addr : SocketAddress) (s : QuicSession W) :
  Int.in_uint64 (received s + nread) ->
  (IsFlagSet QUICSESSION_FLAG_DESTROYED s = true ->
     Receive fuel nread data addr s = Done false s)
  /\ (IsFlagSet QUICSESSION_FLAG_DESTROYED s = false ->
      forall r s',
        Receive fuel nread data addr s = Done r s' ->
        received s' = received s + nread)
  /\ (IsFlagSet QUICSESSION_FLAG_DESTROYED s = false ->
      IsInClosingPeriod s = false ->
      IsInDrainingPeriod s = true ->
      exists s',
        Receive fuel nread data addr s = Done true s'
        /\ received s' = received s + nread).
Proof.
  intros Hfit.
  assert (Hcount : received (counted nread s) = received s + nread)
    by (rewrite received_counted; apply wrap64_small, Hfit).
  split; [apply Receive_destroyed|].
  split.
  - intros Hd r s' H.
    destruct (Receive_counted fuel nread data addr s Hd) as (rest & E & Hp).
    rewrite E in H; apply Hp in H; congruence.
  - intros Hd Hc Hdr; exists (counted nread s).
    split; [apply Receive_draining_drop; assumption|exact Hcount].
Qed.

End Receive.

(** ** The closing period *)

Section ClosingPeriod.

Context {W : Type} {host : Host W} {ngtcp2 : Ngtcp2Constants}.

Lemma Receive_closing fuel nread data addr (s : QuicSession W) :
  IsFlagSet QUICSESSION_FLAG_DESTROYED s = false ->
  IsInClosingPeriod s = true ->
  Receive fuel nread data addr s
  = if attempts s + 1 <? connection_close_limit_ s
    then SendConnectionClose fuel (attempted nread s)
    else Done false (attempted nread s).
Proof.
  intros Hd Hc.
  unfold Receive, bind, gets, increment_stat, modify,
    IncrementConnectionCloseAttempts.
  rewrite Hd; cbv beta.
  change (IsInClosingPeriod (upd_session_stats ?f s))
    with (IsInClosingPeriod s).
  rewrite Hc; cbv beta.
  unfold ShouldAttemptConnectionClose, attempts, attempted, counted; simpl.
  destruct (connection_close_attempts_ s + 1 <? connection_close_limit_ s);
    reflexivity.
Qed.

(** C1.  A packet handed to [Receive] in the closing period counts as a
    close attempt: whenever [Receive] returns on a session that is not
    destroyed, the attempt counter is one higher.  A packet reaches the
    socket only if the counter, after this increment, is below the
    threshold.  When the counter has reached the threshold, [Receive]
    returns false and nothing but the two counters has changed: nothing is
    queued, nothing is sent, no send routine is entered.  Below the
    threshold [Receive] is [SendConnectionClose], which on a server sends
    the packet kept in [conn_closebuf_].  (A destroyed session drops the
    packet before it looks at the period.) *)
Theorem Receive_closing_period (fuel : nat) (nread : Z) (data : bytes)
  (addr : SocketAddress) (s : QuicSession W) :
  IsInClosingPeriod s = true ->
  (IsFlagSet QUICSESSION_FLAG_DESTROYED s = false ->
   forall r s',
     Receive fuel nread data addr s = Done r s' ->
     attempts s' = attempts s + 1)
  /\ (forall r s',
        Receive fuel nread data addr s = Done r s' ->
        outbox_ s' <> outbox_ s ->
        attempts s' < connection_close_limit_ s')
  /\ (IsFlagSet QUICSESSION_FLAG_DESTROYED s = false ->
      connection_close_limit_ s <= attempts s + 1 ->
      Receive fuel nread data addr s = Done false (attempted nread s)
      /\ outbox_ (attempted nread s) = outbox_ s
      /\ sendbuf_ (attempted nread s) = sendbuf_ s
      /\ txbuf_ (attempted nread s) = txbuf_ s
      /\ calls_ (attempted nread s) = calls_ s)
  /\ (IsFlagSet QUICSESSION_FLAG_DESTROYED s = false ->
      attempts s + 1 < connection_close_limit_ s ->
      Receive fuel nread data addr s
      = SendConnectionClose fuel (attempted nread s)).
Proof.
  intros Hc.
  destruct (IsFlagSet QUICSESSION_FLAG_DESTROYED s) eqn:Hd.
  { split; [discriminate|].
    split; [|split; discriminate].
    intros r s' H Hne; exfalso; apply Hne.
    rewrite Receive_destroyed in H by exact Hd.
    inversion H; reflexivity. }
  pose proof (Receive_closing fuel nread data addr s Hd Hc) as E.
  assert (Hsent : forall r s',
             Receive fuel nread data addr s = Done r s' ->
             attempts s' = attempts s + 1
             /\ (outbox_ s' <> outbox_ s ->
                 attempts s' < connection_close_limit_ s')).
  { intros r s' H; rewrite E in H.
    destruct (attempts s + 1 <? connection_close_limit_ s) eqn:Hlt.
    - apply Z.ltb_lt in Hlt.
      pose proof (core_attempts _ (SendConnectionClose_core no_call fuel)
                    _ _ _ H) as Ha.
      pose proof (core_limit _ (SendConnectionClose_core no_call fuel)
                    _ _ _ H) as Hl.
      rewrite Ha, Hl; unfold attempts, attempted in *; simpl in *.
      split; [reflexivity|intros _; exact Hlt].
    - inversion H; subst; unfold attempts, attempted; simpl.
      split; [reflexivity|intros Hne; exfalso; apply Hne; reflexivity]. }
  split; [intros _ r s' H; apply (Hsent r s' H)|].
  split; [intros r s' H; apply (Hsent r s' H)|].
  split.
  - intros _ Hge. apply Z.ltb_ge in Hge; rewrite Hge in E.
    repeat split; exact E.
  - intros _ Hlt. apply Z.ltb_lt in Hlt; rewrite Hlt in E; exact E.
Qed.

End ClosingPeriod.

(** ** The draining period *)

Section DrainingPeriod.

Context {W : Type} {host : Host W} {ngtcp2 : Ngtcp2Constants}.

Lemma SendConnectionClose_draining fuel (s : QuicSession W) :
  IsInDrainingPeriod s = true ->
  SendConnectionClose fuel s
  = if InNgtcp2CallbackScope s then Abort else Done true s.
Proof.
  intros Hdr.
  unfold SendConnectionClose, SendConnectionClose_body.
  destruct (Side s);
    unfold QuicClientSession_SendConnectionClose,
      QuicServerSession_SendConnectionClose, bind, CHECK, gets;
    destruct (InNgtcp2CallbackScope s); cbn [negb]; try reflexivity;
    rewrite Hdr; reflexivity.
Qed.

Lemma WritePackets_draining fuel label (s : QuicSession W) :
  IsInDrainingPeriod s = true ->
  WritePackets fuel label s
  = if InNgtcp2CallbackScope s || IsFlagSet QUICSESSION_FLAG_DESTROYED s
    then Abort
    else Done true (upd_calls (fun l => l ++ [CallWritePackets label]) s).
Proof.
  intros Hdr.
  destruct fuel; cbn [WritePackets];
    unfold bind, enter, modify, CHECK, gets; cbv beta;
    change (InNgtcp2CallbackScope (upd_calls ?f s))
      with (InNgtcp2CallbackScope s);
    destruct (InNgtcp2CallbackScope s); cbn [negb orb]; try reflexivity;
    change (IsFlagSet QUICSESSION_FLAG_DESTROYED (upd_calls ?f s))
      with (IsFlagSet QUICSESSION_FLAG_DESTROYED s);
    destruct (IsFlagSet QUICSESSION_FLAG_DESTROYED s); cbn [negb orb];
    try reflexivity;
    change (IsInDrainingPeriod (upd_calls ?f s)) with (IsInDrainingPeriod s);
    rewrite Hdr; reflexivity.
Qed.

Lemma SendPacket_draining label (s : QuicSession W) :
  IsInDrainingPeriod s = true -> SendPacket label s = Abort.
Proof.
  intros Hdr.
  unfold SendPacket, bind, enter, modify, CHECK; cbv beta.
  change (IsFlagSet QUICSESSION_FLAG_DESTROYED (upd_calls ?f s))
    with (IsFlagSet QUICSESSION_FLAG_DESTROYED s).
  destruct (IsFlagSet QUICSESSION_FLAG_DESTROYED s); cbn [negb];
    try reflexivity.
  change (IsInDrainingPeriod (upd_calls ?f s)) with (IsInDrainingPeriod s).
  rewrite Hdr; reflexivity.
Qed.

Lemma SendPendingData_draining fuel (s : QuicSession W) :
  IsInDrainingPeriod s = true -> SendPendingData fuel s = Done tt s.
Proof.
  intros Hdr; unfold SendPendingData, bind, gets; rewrite Hdr.
  rewrite !orb_true_r; reflexivity.
Qed.

Lemma Receive_draining fuel nread data addr (s : QuicSession W) r s' :
  IsInDrainingPeriod s = true ->
  Receive fuel nread data addr s = Done r s' ->
  wire s' = wire s /\ calls_ s' = calls_ s.
Proof.
  intros Hdr H.
  destruct (IsFlagSet QUICSESSION_FLAG_DESTROYED s) eqn:Hd.
  { rewrite Receive_destroyed in H by exact Hd; inversion H; auto. }
  destruct (IsInClosingPeriod s) eqn:Hc.
  - rewrite Receive_closing in H by assumption.
    destruct (attempts s + 1 <? connection_close_limit_ s).
    + rewrite SendConnectionClose_draining in H by exact Hdr.
      destruct (InNgtcp2CallbackScope (attempted nread s));
        inversion H; auto.
    + inversion H; auto.
  - rewrite Receive_draining_drop in H by assumption.
    inversion H; auto.
Qed.

(** C2.  While the session is in the draining period no outbound byte is
    transmitted.  [Receive], when it returns, has put nothing on the wire
    nor into the send queues and has entered no send routine; outside the
    closing period it returns true with only the packet counted.
    [WritePackets] returns true at once (its two [CHECK]s apart), with
    nothing but its entry in the call history.  [SendConnectionClose]
    returns true with the session as it was.  [SendPendingData] does
    nothing, and [SendPacket], the one routine that hands bytes to the
    socket, cannot return.  So a run of these routines, each entered in
    the draining period, leaves the wire as it was. *)
Theorem draining_period_sends_nothing (fuel : nat) (s : QuicSession W) :
  IsInDrainingPeriod s = true ->
  (forall nread data addr r s',
      Receive fuel nread data addr s = Done r s' ->
      wire s' = wire s /\ calls_ s' = calls_ s)
  /\ (forall nread data addr,
        IsFlagSet QUICSESSION_FLAG_DESTROYED s = false ->
        IsInClosingPeriod s = false ->
        Receive fuel nread data addr s = Done true (counted nread s))
  /\ (forall label,
        WritePackets fuel label s
        = if InNgtcp2CallbackScope s || IsFlagSet QUICSESSION_FLAG_DESTROYED s
          then Abort
          else Done true (upd_calls (fun l => l ++ [CallWritePackets label]) s))
  /\ SendConnectionClose fuel s
     = (if InNgtcp2CallbackScope s then Abort else Done true s)
  /\ SendPendingData fuel s = Done tt s
  /\ (forall label, SendPacket label s = Abort)
  /\ (forall cs s', draining_run fuel s cs s' -> wire s' = wire s).
Proof.
  intros Hdr.
  split; [intros; eapply Receive_draining; eassumption|].
  split.
  { intros; apply Receive_draining_drop; assumption. }
  split; [intros; apply WritePackets_draining, Hdr|].
  split; [apply SendConnectionClose_draining, Hdr|].
  split; [apply SendPendingData_draining, Hdr|].
  split; [intros; apply SendPacket_draining, Hdr|].
  clear Hdr; intros cs s' Hrun.
  induction Hrun as [|s c s1 cs s' Hdr Hc _ IH]; [reflexivity|].
  rewrite IH; clear IH.
  destruct c; simpl in Hc.
  - apply bind_Done in Hc as (r & s2 & Hc & Hret); inversion Hret; subst.
    eapply Receive_draining; eassumption.
  - rewrite SendPendingData_draining in Hc by exact Hdr.
    inversion Hc; reflexivity.
  - apply bind_Done in Hc as (r & s2 & Hc & Hret); inversion Hret; subst.
    rewrite WritePackets_draining in Hc by exact Hdr.
    destruct (InNgtcp2CallbackScope s
              || IsFlagSet QUICSESSION_FLAG_DESTROYED s);
      inversion Hc; reflexivity.
  - apply bind_Done in Hc as (r & s2 & Hc & Hret); inversion Hret; subst.
    rewrite SendConnectionClose_draining in Hc by exact Hdr.
    destruct (InNgtcp2CallbackScope s); inversion Hc; reflexivity.
  - apply bind_Done in Hc as (r & s2 & Hc & Hret).
    rewrite SendPacket_draining in Hc by exact Hdr; discriminate.
Qed.

End DrainingPeriod.

(** ** SendPendingData *)

#[export] Instance top_send_quiet : QuietTop top_send.
Proof. split; reflexivity. Qed.

#[export] Hint Resolve top_send_quiet : frame.

Section PendingData.

Context {W : Type} {host : Host W} {ngtcp2 : Ngtcp2Constants}.

Lemma core_phases {A : Type} (m : M W A) :
  preserves (core top_send) m -> preserves phases m.
Proof.
  intros Hm s a s' H; apply Hm in H; unfold core in H.
  inversion H; assumption.
Qed.

Lemma phases_entered (s s' : QuicSession W) c :
  top_send c = true ->
  core top_send s' = core top_send (upd_calls (fun l => l ++ [c]) s) ->
  phases s' = phases s ++ [c].
Proof.
  intros Hc H; rewrite core_entered, Hc in H; unfold core in H.
  inversion H; assumption.
Qed.

Lemma SendPacket_streams label :
  preserves (@streams_ W) (SendPacket label).
Proof.
  unfold SendPacket, Socket_SendPacket, ScheduleRetransmit,
    UpdateRetransmitTimer, increment_stat, set_stat, SetLastError, enter.
  frame_with ltac:(fail) ltac:(reflexivity).
Qed.

Lemma stream_pass_runs fuel (s : QuicSession W) ids served exit s' :
  stream_pass fuel s ids served exit s' ->
  SendPendingData_streams fuel ids s = Done exit s'.
Proof.
  induction 1 as [s|s id rest s1 Hs|s id rest s1 Hs Hc
                  |s id rest s1 served exit s2 Hs Hc _ IH];
    cbn [SendPendingData_streams]; [reflexivity| | |];
    unfold bind at 1; rewrite Hs; cbv beta iota; cbn [negb];
    [reflexivity| |];
    unfold bind, gets; fold (state_changed s1); rewrite Hc;
    [reflexivity|exact IH].
Qed.

Lemma run_is_stream_pass fuel ids (s : QuicSession W) exit s' :
  SendPendingData_streams fuel ids s = Done exit s' ->
  exists served, stream_pass fuel s ids served exit s'.
Proof.
  revert s; induction ids as [|id rest IH]; intros s H.
  - inversion H; subst; exists []; constructor.
  - cbn [SendPendingData_streams] in H.
    apply bind_Done in H as (sent & s1 & Hs & H).
    destruct sent; cbn [negb] in H.
    + unfold bind at 1, gets at 1 in H; cbv beta iota in H.
      fold (state_changed s1) in H.
      destruct (state_changed s1) eqn:Hc.
      * inversion H; subst; exists [id].
        apply pass_state_changed; assumption.
      * apply IH in H as (served & H); exists (id :: served).
        eapply pass_next; eassumption.
    + inversion H; subst; exists [id]; apply pass_failed; assumption.
Qed.

Lemma stream_pass_phases fuel (s : QuicSession W) ids served exit s' :
  stream_pass fuel s ids served exit s' ->
  phases s' = phases s ++ map CallSendStreamData served
  /\ exists rest, ids = served ++ rest /\ (exit = streams_done -> rest = []).
Proof.
  assert (Hone : forall (s s1 : QuicSession W) id r,
             SendStreamData fuel id s = Done r s1 ->
             phases s1 = phases s ++ [CallSendStreamData id]).
  { intros s0 s1 id r Hs; apply phases_entered; [reflexivity|].
    eapply SendStreamData_entered; [typeclasses eauto|eassumption]. }
  induction 1 as [s|s id rest s1 Hs|s id rest s1 Hs Hc
                  |s id rest s1 served exit s2 Hs Hc _ [IH (more & Hm & Hd)]].
  - rewrite app_nil_r; split; [reflexivity|exists []; split; auto].
  - split; [exact (Hone _ _ _ _ Hs)|].
    exists rest; split; [reflexivity|discriminate].
  - split; [exact (Hone _ _ _ _ Hs)|].
    exists rest; split; [reflexivity|discriminate].
  - split.
    + rewrite IH, (Hone _ _ _ _ Hs), <- app_assoc; reflexivity.
    + exists more; split; [simpl; rewrite <- Hm; reflexivity|exact Hd].
Qed.


Lemma SendPendingData_unguarded fuel (s : QuicSession W) :
  InNgtcp2CallbackScope s = false ->
  IsFlagSet QUICSESSION_FLAG_DESTROYED s = false ->
  IsInDrainingPeriod s = false ->
  (Side s = NGTCP2_CRYPTO_SIDE_SERVER -> IsInClosingPeriod s = false) ->
  SendPendingData fuel s
  = bind (SendPacket "pending session data") (fun sent =>
      if negb sent then HandleError fuel else
      bind (gets (fun s => map fst (streams_ s))) (fun ids =>
      bind (SendPendingData_streams fuel ids) (fun exit =>
      match exit with
      | streams_failed => HandleError fuel
      | streams_state_changed => ret tt
      | streams_done =>
          bind (WritePackets fuel "pending session data - write packets")
            (fun written => if negb written then HandleError fuel else ret tt)
      end))) s.
Proof.
  intros Hcb Hd Hdr Hc.
  assert (Hsrv : is_server s && IsInClosingPeriod s = false).
  { unfold is_server; destruct (Side s); [reflexivity|].
    rewrite Hc; reflexivity. }
  unfold SendPendingData.
  unfold bind at 1, gets at 1; cbv beta iota.
  rewrite Hcb, Hd, Hdr, Hsrv; reflexivity.
Qed.

(** C3.  [SendPendingData] returns at once, with the session as it was
    (nothing sent, no send routine entered), when it is called inside a
    transport callback, or on a destroyed session, or in the draining
    period, or on a server in the closing period.  Otherwise:
    - it first flushes the send buffer, and a flush that fails hands the
      session to [HandleError] with no stream serialized;
    - after the flush it runs [SendStreamData] for the streams of the
      table in insertion order, each from the session the one before
      left; what it does next is fixed by how this pass ends: a stream
      that fails hands the session to [HandleError], a session whose
      state changed is returned, and after the last stream the final
      [WritePackets] is made;
    - when every stream had its turn and the final [WritePackets]
      returns, the calls made are exactly the flush, the streams in
      insertion order, and the final [WritePackets];
    - every return of [SendPendingData] comes from such a run, and the
      calls it made are exactly those of the run;
    - so the calls made are an initial part of the complete sequence,
      with the flush first and the final [WritePackets] only after
      every stream. *)
Theorem SendPendingData_order (fuel : nat) (s : QuicSession W) :
  ((InNgtcp2CallbackScope s = true
    \/ IsFlagSet QUICSESSION_FLAG_DESTROYED s = true
    \/ IsInDrainingPeriod s = true
    \/ (Side s = NGTCP2_CRYPTO_SIDE_SERVER /\ IsInClosingPeriod s = true)) ->
   SendPendingData fuel s = Done tt s)
  /\ (InNgtcp2CallbackScope s = false ->
      IsFlagSet QUICSESSION_FLAG_DESTROYED s = false ->
      IsInDrainingPeriod s = false ->
      (Side s = NGTCP2_CRYPTO_SIDE_SERVER -> IsInClosingPeriod s = false) ->
      (forall s0,
         SendPacket "pending session data" s = Done false s0 ->
         SendPendingData fuel s = HandleError fuel s0
         /\ phases s0 = phases s ++ [CallSendPacket "pending session data"])
      /\ (forall s0 served exit s1,
            SendPacket "pending session data" s = Done true s0 ->
            stream_pass fuel s0 (map fst (streams_ s)) served exit s1 ->
            phases s1
            = phases s ++ CallSendPacket "pending session data"
                          :: map CallSendStreamData served
            /\ (exists rest,
                  map fst (streams_ s) = served ++ rest
                  /\ (exit = streams_done -> rest = []))
            /\ SendPendingData fuel s
               = match exit with
                 | streams_failed => HandleError fuel s1
                 | streams_state_changed => Done tt s1
                 | streams_done =>
                     bind (WritePackets fuel
                             "pending session data - write packets")
                       (fun written =>
                          if negb written then HandleError fuel else ret tt)
                       s1
                 end)
      /\ (forall s0 s1 written s2,
            SendPacket "pending session data" s = Done true s0 ->
            stream_pass fuel s0 (map fst (streams_ s))
              (map fst (streams_ s)) streams_done s1 ->
            WritePackets fuel "pending session data - write packets" s1
            = Done written s2 ->
            phases s2 = phases s ++ send_plan (map fst (streams_ s))
            /\ SendPendingData fuel s
               = if written then Done tt s2 else HandleError fuel s2)
      /\ (forall s',
            SendPendingData fuel s = Done tt s' ->
            exists sent s0,
              SendPacket "pending session data" s = Done sent s0
              /\ if sent
                 then exists served exit s1,
                     stream_pass fuel s0 (map fst (streams_ s)) served exit s1
                     /\ phases s'
                        = phases s ++ CallSendPacket "pending session data"
                                      :: map CallSendStreamData served
                                      ++ closing_calls exit
                 else phases s'
                      = phases s ++ [CallSendPacket "pending session data"])
      /\ (forall s',
            SendPendingData fuel s = Done tt s' ->
            exists made rest,
              phases s' = phases s ++ made
              /\ made ++ rest = send_plan (map fst (streams_ s))
              /\ (exists streams,
                    made = CallSendPacket "pending session data" :: streams)
              /\ (In (CallWritePackets "pending session data - write packets")
                    made ->
                  rest = []))).
Proof.
  split.
  - intros Hskip; unfold SendPendingData, bind, gets.
    replace (InNgtcp2CallbackScope s
             || IsFlagSet QUICSESSION_FLAG_DESTROYED s
             || IsInDrainingPeriod s
             || is_server s && IsInClosingPeriod s) with true; [reflexivity|].
    unfold is_server.
    destruct Hskip as [-> | [-> | [-> | [-> ->]]]];
      rewrite ?orb_true_r; reflexivity.
  - intros Hcb Hd Hdr Hc.
    pose proof (SendPendingData_unguarded fuel s Hcb Hd Hdr Hc) as Hrun.
    set (ids := map fst (streams_ s)) in *.
    pose proof (core_phases _ (HandleError_core top_send fuel)) as Herr.
    assert (Hflushed : forall sent s0,
               SendPacket "pending session data" s = Done sent s0 ->
               phases s0 = phases s ++ [CallSendPacket "pending session data"]
               /\ map fst (streams_ s0) = ids).
    { intros sent s0 Hf; split.
      - apply phases_entered; [reflexivity|].
        eapply SendPacket_entered; eassumption.
      - unfold ids; f_equal; exact (SendPacket_streams _ _ _ _ Hf). }
    assert (Hpass : forall s0 served exit s1,
               SendPacket "pending session data" s = Done true s0 ->
               stream_pass fuel s0 ids served exit s1 ->
               phases s1
               = phases s ++ CallSendPacket "pending session data"
                             :: map CallSendStreamData served
               /\ (exists rest,
                     ids = served ++ rest
                     /\ (exit = streams_done -> rest = []))
               /\ SendPendingData fuel s
                  = match exit with
                    | streams_failed => HandleError fuel s1
                    | streams_state_changed => Done tt s1
                    | streams_done =>
                        bind (WritePackets fuel
                                "pending session data - write packets")
                          (fun written =>
                             if negb written then HandleError fuel else ret tt)
                          s1
                    end).
    { intros s0 served exit s1 Hf Hp.
      destruct (Hflushed _ _ Hf) as (Hp0 & Hids).
      destruct (stream_pass_phases _ _ _ _ _ _ Hp) as (Hp1 & Hpre).
      split; [rewrite Hp1, Hp0, <- app_assoc; reflexivity|].
      split; [exact Hpre|].
      rewrite Hrun; unfold bind at 1; rewrite Hf; cbv beta iota; cbn [negb].
      unfold bind at 1, gets at 1; cbv beta iota; rewrite Hids.
      unfold bind at 1; rewrite (stream_pass_runs _ _ _ _ _ _ Hp).
      destruct exit; reflexivity. }
    assert (Hwritten : forall s1 written s2,
               WritePackets fuel "pending session data - write packets" s1
               = Done written s2 ->
               phases s2
               = phases s1
                 ++ [CallWritePackets "pending session data - write packets"]).
    { intros s1 written s2 Hw; apply phases_entered; [reflexivity|].
      eapply WritePackets_entered;
        [typeclasses eauto|reflexivity|eassumption]. }
    assert (Hreturn : forall s',
               SendPendingData fuel s = Done tt s' ->
               exists sent s0,
                 SendPacket "pending session data" s = Done sent s0
                 /\ if sent
                    then exists served exit s1,
                        stream_pass fuel s0 ids served exit s1
                        /\ phases s'
                           = phases s ++ CallSendPacket "pending session data"
                                         :: map CallSendStreamData served
                                         ++ closing_calls exit
                    else phases s'
                         = phases s
                           ++ [CallSendPacket "pending session data"]).
    { intros s' H; rewrite Hrun in H.
      apply bind_Done in H as (sent & s0 & Hf & H).
      exists sent, s0; split; [exact Hf|].
      destruct (Hflushed _ _ Hf) as (Hp0 & Hids).
      destruct sent; cbn [negb] in H.
      - unfold bind at 1, gets at 1 in H; cbv beta iota in H.
        rewrite Hids in H.
        apply bind_Done in H as (exit & s1 & Hs & H).
        apply run_is_stream_pass in Hs as (served & Hp).
        exists served, exit, s1; split; [exact Hp|].
        destruct (Hpass _ _ _ _ Hf Hp) as (Hp1 & _ & _).
        destruct exit; cbn [closing_calls].
        + apply bind_Done in H as (written & s2 & Hw & H).
          apply Hwritten in Hw.
          assert (Hp2 : phases s' = phases s2).
          { destruct written; cbn [negb] in H;
              [inversion H; reflexivity|apply Herr in H; exact H]. }
          rewrite Hp2, Hw, Hp1, <- app_assoc; reflexivity.
        + apply Herr in H; rewrite H, Hp1, app_nil_r; reflexivity.
        + inversion H; subst; rewrite Hp1, app_nil_r; reflexivity.
      - apply Herr in H; rewrite H; exact Hp0. }
    split; [|split; [exact Hpass|split; [|split; [exact Hreturn|]]]].
    + intros s0 Hf; split; [|exact (proj1 (Hflushed _ _ Hf))].
      rewrite Hrun; unfold bind at 1; rewrite Hf; reflexivity.
    + intros s0 s1 written s2 Hf Hp Hw.
      destruct (Hpass _ _ _ _ Hf Hp) as (Hp1 & _ & Heq).
      split.
      * rewrite (Hwritten _ _ _ Hw), Hp1; unfold send_plan.
        rewrite <- app_assoc; reflexivity.
      * rewrite Heq; unfold bind; rewrite Hw.
        destruct written; reflexivity.
    + intros s' H.
      destruct (Hreturn _ H) as (sent & s0 & Hf & Hrest).
      destruct sent.
      * destruct Hrest as (served & exit & s1 & Hp & Hph).
        destruct (Hpass _ _ _ _ Hf Hp) as (_ & (rest & Hids & Hall) & _).
        exists (CallSendPacket "pending session data"
                :: map CallSendStreamData served ++ closing_calls exit).
        destruct exit; cbn [closing_calls] in *.
        -- exists []; rewrite (Hall eq_refl), app_nil_r in Hids.
           rewrite app_nil_r, Hids; unfold send_plan.
           split; [exact Hph|]. split; [reflexivity|].
           split; [eauto|reflexivity].
        -- exists (map CallSendStreamData rest
                   ++ [CallWritePackets
                         "pending session data - write packets"]).
           split; [exact Hph|].
           split; [unfold send_plan; rewrite Hids, map_app, app_nil_r,
                     <- app_assoc; reflexivity|].
           split; [eauto|].
           rewrite app_nil_r; simpl; intros [E | E]; [discriminate|].
           apply in_map_iff in E as (? & E & _); discriminate.
        -- exists (map CallSendStreamData rest
                   ++ [CallWritePackets
                         "pending session data - write packets"]).
           split; [exact Hph|].
           split; [unfold send_plan; rewrite Hids, map_app, app_nil_r,
                     <- app_assoc; reflexivity|].
           split; [eauto|].
           rewrite app_nil_r; simpl; intros [E | E]; [discriminate|].
           apply in_map_iff in E as (? & E & _); discriminate.
      * exists [CallSendPacket "pending session data"],
          (map CallSendStreamData ids
           ++ [CallWritePackets "pending session data - write packets"]).
        split; [exact Hrest|]. split; [reflexivity|].
        split; [eauto|].
        simpl; intros [E | []]; discriminate.
Qed.

End PendingData.

(** * Further properties *)

(** ** Timeouts *)

Lemma timer_interval_bounds expiry now :
  1 <= timer_interval expiry now <= 18446744073709.
Proof.
  unfold timer_interval.
  pose proof (wrap64_range (expiry - now)) as Hr; unfold Int.in_uint64 in Hr.
  assert (0 <= Int.wrap64 (expiry - now) / 1000000 <= 18446744073709).
  { split; [apply Z.div_pos; lia|].
    apply Z.lt_succ_r, Z.div_lt_upper_bound; lia. }
  destruct (expiry <? now); cbn [orb]; [lia|].
  destruct (Int.wrap64 (expiry - now) / 1000000 =? 0) eqn:Hz; [lia|].
  apply Z.eqb_neq in Hz; lia.
Qed.

(** ** The vector bookkeeping of the write loop *)

Lemma blen_app (a b : bytes) : blen (a ++ b) = blen a + blen b.
Proof. unfold blen; rewrite length_app; lia. Qed.

Lemma blen_nonneg (b : bytes) : 0 <= blen b.
Proof. unfold blen; lia. Qed.

(** X1.  [Consume] takes exactly the first [len] bytes off the vector:
    the data left in it, chunk after chunk, is the old data without its
    first [len] bytes (and nothing is left when [len] covers it all). *)
Theorem Consume_drops_prefix (v : list bytes) (len : Z) :
  0 <= len ->
  List.concat (Consume v len) = skipn (Z.to_nat len) (List.concat v).
Proof.
  revert len; induction v as [|b rest IH]; intros len Hlen; simpl.
  - rewrite skipn_nil; reflexivity.
  - pose proof (blen_nonneg b) as Hb. unfold blen in *.
    rewrite skipn_app.
    destruct (Z.of_nat (List.length b) >? len) eqn:Hgt.
    + apply Z.gtb_lt in Hgt; simpl.
      replace (Z.to_nat len - List.length b)%nat with 0%nat by lia.
      reflexivity.
    + assert (Z.of_nat (List.length b) <= len)
        by (destruct (Z.gtb_spec (Z.of_nat (List.length b)) len);
            [discriminate|lia]).
      rewrite IH by lia.
      rewrite (skipn_all2 b) by lia; simpl.
      f_equal; lia.
Qed.

(** X2.  After [Consume] the vector passes [IsEmpty] exactly when [len]
    covers every byte that was in it: the write loop stops on [IsEmpty]
    when, and only when, all the data of the stream is serialized. *)
Theorem IsEmpty_after_Consume (v : list bytes) (len : Z) :
  0 <= len ->
  IsEmpty (Consume v len) = (blen (List.concat v) <=? len).
Proof.
  revert len; induction v as [|b rest IH]; intros len Hlen; simpl.
  - symmetry; apply Z.leb_le; exact Hlen.
  - rewrite blen_app.
    pose proof (blen_nonneg b) as Hb.
    pose proof (blen_nonneg (List.concat rest)) as Hr.
    destruct (blen b >? len) eqn:Hgt.
    + apply Z.gtb_lt in Hgt; simpl.
      replace (blen (skipn (Z.to_nat len) b) =? 0) with false.
      * symmetry; apply Z.leb_gt; lia.
      * symmetry; apply Z.eqb_neq.
        unfold blen in *; rewrite length_skipn; lia.
    + assert (blen b <= len)
        by (destruct (Z.gtb_spec (blen b) len); [discriminate|lia]).
      rewrite IH by lia.
      destruct (Z.leb_spec (blen (List.concat rest)) (len - blen b));
        [symmetry; apply Z.leb_le|symmetry; apply Z.leb_gt]; lia.
Qed.
(** ** Lookups in the stream table *)

Lemma find_stream_app id table table' :
  find_stream id (table ++ table')
  = match find_stream id table with
    | Some st => Some st
    | None => find_stream id table'
    end.
Proof.
  induction table as [|[k st] rest IH]; simpl; [reflexivity|].
  destruct (k =? id); [reflexivity|exact IH].
Qed.

Lemma find_stream_emplace_same id st table :
  find_stream id (emplace id st table)
  = Some (match find_stream id table with Some old => old | None => st end).
Proof.
  unfold emplace; destruct (find_stream id table) eqn:Hf; [exact Hf|].
  rewrite find_stream_app, Hf; simpl; rewrite Z.eqb_refl; reflexivity.
Qed.

Lemma find_stream_emplace_other id id' st table :
  id' <> id ->
  find_stream id' (emplace id st table) = find_stream id' table.
Proof.
  intros Hne; unfold emplace; destruct (find_stream id table); [reflexivity|].
  rewrite find_stream_app; simpl.
  destruct (Z.eqb_spec id id'); [congruence|].
  destruct (find_stream id' table); reflexivity.
Qed.

Lemma find_stream_erase_same id table : find_stream id (erase id table) = None.
Proof.
  unfold erase; induction table as [|[k st] rest IH]; simpl; [reflexivity|].
  destruct (k =? id) eqn:Hk; simpl; [exact IH|].
  rewrite Hk; exact IH.
Qed.

Lemma find_stream_erase_other id id' table :
  id' <> id -> find_stream id' (erase id table) = find_stream id' table.
Proof.
  intros Hne; unfold erase.
  induction table as [|[k st] rest IH]; simpl; [reflexivity|].
  destruct (Z.eqb_spec k id) as [->|Hk]; simpl.
  - destruct (Z.eqb_spec id id'); [congruence|exact IH].
  - destruct (k =? id'); [reflexivity|exact IH].
Qed.

Lemma erase_absent id table :
  find_stream id table = None -> erase id table = table.
Proof.
  unfold erase; induction table as [|[k st] rest IH]; simpl; [reflexivity|].
  destruct (k =? id); [discriminate|]; simpl.
  intros H; rewrite IH by exact H; reflexivity.
Qed.

Section StreamLookups.

Context {W : Type} {host : Host W} {ngtcp2 : Ngtcp2Constants}.

Lemma AddStream_streams (s : QuicSession W) (stream : QuicStream.t) :
  exists s',
    AddStream stream s = Done tt s'
    /\ streams_ s' = emplace (QuicStream.GetID stream) stream (streams_ s)
    /\ events_ s' = events_ s
    /\ host_ s' = host_ s
    /\ flags_ s' = flags_ s.
Proof.
  unfold AddStream, bind, modify, gets, increment_stat.
  destruct (QuicStream.GetOrigin stream), (QuicStream.GetDirection stream);
    cbv beta iota;
    match goal with
    | |- context [is_server ?x] => destruct (is_server x)
    end;
    eexists; repeat split.
Qed.

(** X3.  [AddStream] always returns; afterwards [FindStream] finds a
    stream under the id of the added one.  It is the added stream when
    the id was free, and the stream that was there before when the id was
    taken ([emplace] does not replace).  No other id is affected. *)
Theorem AddStream_then_FindStream (s : QuicSession W)
  (stream : QuicStream.t) :
  exists s',
    AddStream stream s = Done tt s'
    /\ FindStream (QuicStream.GetID stream) s'
       = Some (match FindStream (QuicStream.GetID stream) s with
               | Some old => old
               | None => stream
               end)
    /\ (forall id, id <> QuicStream.GetID stream ->
          FindStream id s' = FindStream id s).
Proof.
  destruct (AddStream_streams s stream) as (s' & H & Hs & _).
  exists s'; split; [exact H|].
  unfold FindStream; rewrite Hs; split.
  - apply find_stream_emplace_same.
  - intros id Hid; apply find_stream_emplace_other; exact Hid.
Qed.

Lemma RemoveStream_streams (s : QuicSession W) (stream_id : Z) :
  exists s',
    RemoveStream stream_id s = Done tt s'
    /\ streams_ s' = erase stream_id (streams_ s)
    /\ events_ s' = events_ s
    /\ flags_ s' = flags_ s.
Proof.
  unfold RemoveStream, bind, modify, call_host; simpl.
  destruct (ngtcp2_conn_shutdown_stream stream_id NGTCP2_NO_ERROR (host_ s));
    eexists; repeat split.
Qed.

(** X4.  [RemoveStream] always returns; afterwards the stream is not
    found any more, every other stream is found as before, the listener
    has heard nothing, and a [StreamClose] or [StreamReset] that the
    library reports for the removed stream changes nothing: the close of
    a removed stream does not loop back to the listener. *)
Theorem RemoveStream_then_FindStream (s : QuicSession W) (stream_id : Z) :
  exists s',
    RemoveStream stream_id s = Done tt s'
    /\ FindStream stream_id s' = None
    /\ (forall id, id <> stream_id -> FindStream id s' = FindStream id s)
    /\ events_ s' = events_ s
    /\ (forall app_error_code,
          StreamClose stream_id app_error_code s' = Done tt s')
    /\ (forall final_size app_error_code,
          StreamReset stream_id final_size app_error_code s' = Done tt s').
Proof.
  destruct (RemoveStream_streams s stream_id) as (s' & H & Hs & He & _).
  assert (Hnone : FindStream stream_id s' = None)
    by (unfold FindStream; rewrite Hs; apply find_stream_erase_same).
  exists s'; split; [exact H|]. split; [exact Hnone|].
  split; [|split; [exact He|split]].
  - intros id Hid; unfold FindStream; rewrite Hs.
    apply find_stream_erase_other; exact Hid.
  - intros c; unfold StreamClose, bind, gets; cbv beta.
    destruct (IsFlagSet QUICSESSION_FLAG_DESTROYED s'); [reflexivity|].
    unfold HasStream; rewrite Hnone; reflexivity.
  - intros n c; unfold StreamReset, bind, gets; cbv beta.
    destruct (IsFlagSet QUICSESSION_FLAG_DESTROYED s'); [reflexivity|].
    unfold HasStream; rewrite Hnone; reflexivity.
Qed.

(** X5.  A stream added under a free id and removed again leaves the
    stream table exactly as it was before. *)
Theorem AddStream_then_RemoveStream (s : QuicSession W)
  (stream : QuicStream.t) :
  FindStream (QuicStream.GetID stream) s = None ->
  exists s',
    bind (AddStream stream)
      (fun _ => RemoveStream (QuicStream.GetID stream)) s = Done tt s'
    /\ streams_ s' = streams_ s.
Proof.
  intros Hnone.
  destruct (AddStream_streams s stream) as (s1 & H1 & Hs1 & _).
  destruct (RemoveStream_streams s1 (QuicStream.GetID stream))
    as (s' & H2 & Hs2 & _).
  exists s'; split; [rewrite (bind_eq _ _ _ _ _ H1); exact H2|].
  rewrite Hs2, Hs1; unfold emplace; unfold FindStream in Hnone.
  rewrite Hnone; unfold erase; rewrite filter_app; simpl.
  rewrite Z.eqb_refl; simpl; rewrite app_nil_r.
  apply erase_absent; exact Hnone.
Qed.

End StreamLookups.
(** ** Closing without a packet *)

Lemma flag_get_set_same f on fs : flag_get f (flag_set f on fs) = on.
Proof. destruct fs, f; reflexivity. Qed.

Lemma flag_get_set_other f g on fs :
  f <> g -> flag_get f (flag_set g on fs) = flag_get f fs.
Proof. destruct fs, f, g; intros H; try reflexivity; congruence. Qed.

Section SilentClosing.

Context {W : Type} {host : Host W} {ngtcp2 : Ngtcp2Constants}.






Lemma SendConnectionClose_silent fuel (s : QuicSession W) :
  IsFlagSet QUICSESSION_FLAG_SILENT_CLOSE s = true ->
  InNgtcp2CallbackScope s = false ->
  SendConnectionClose fuel s = Done true s.
Proof.
  intros Hs Hcb.
  unfold SendConnectionClose, SendConnectionClose_body.
  destruct (Side s);
    unfold QuicClientSession_SendConnectionClose,
      QuicServerSession_SendConnectionClose, bind, CHECK, gets;
    cbv beta; rewrite Hcb; cbn [negb]; cbv beta iota;
    rewrite Hs, orb_true_r; reflexivity.
Qed.

(** X8.  Once the silent-close flag is set no CONNECTION_CLOSE leaves the
    session.  Outside a transport callback [SendConnectionClose] returns
    true with the session as it was; [QuicSessionClose] only stores the
    error it is given; and whenever [HandleError] or [Destroy] return, no
    packet has reached the socket and no send routine was entered. *)
Theorem silent_close_sends_nothing (fuel : nat) (s : QuicSession W) :
  IsFlagSet QUICSESSION_FLAG_SILENT_CLOSE s = true ->
  InNgtcp2CallbackScope s = false ->
  SendConnectionClose fuel s = Done true s
  /\ (forall fam c,
        QuicSessionClose fuel fam c s
        = Done tt (upd_last_error (fun _ => InitQuicError fam c) s))
  /\ (forall s',
        HandleError fuel s = Done tt s' ->
        outbox_ s' = outbox_ s /\ calls_ s' = calls_ s
        /\ events_ s' = events_ s)
  /\ (forall s',
        Destroy fuel s = Done tt s' ->
        wire s' = wire s /\ calls_ s' = calls_ s /\ events_ s' = events_ s).
Proof.
  intros Hs Hcb.
  split; [apply SendConnectionClose_silent; assumption|].
  split; [|split].
  - intros fam c; unfold QuicSessionClose, SetLastError.
    unfold bind at 1, modify at 1; cbv beta iota.
    unfold bind; rewrite SendConnectionClose_silent by assumption.
    reflexivity.
  - intros s' H; unfold HandleError in H.
    assert (Hq : QuicSession_HandleError fuel s = Done tt s' ->
                 outbox_ s' = outbox_ s /\ calls_ s' = calls_ s
                 /\ events_ s' = events_ s).
    { unfold QuicSession_HandleError; unfold bind at 1, modify at 1.
      cbv beta iota.
      unfold bind; rewrite SendConnectionClose_silent by assumption.
      intros E; inversion E; subst; repeat split. }
    destruct (Side s); [|exact (Hq H)].
    destruct (negb (IsInClosingPeriod s)); [exact (Hq H)|].
    inversion H; subst; repeat split.
  - intros s' H; unfold Destroy in H.
    unfold bind at 1, gets at 1 in H.
    destruct (IsFlagSet QUICSESSION_FLAG_DESTROYED s);
      [inversion H; subst; repeat split|].
    unfold bind at 1, gets at 1 in H.
    assert (Htail : forall s1,
               wire s1 = wire s /\ calls_ s1 = calls_ s
               /\ events_ s1 = events_ s ->
               bind (CHECK (fun s => match streams_ s with
                                     | [] => true
                                     | _ :: _ => false
                                     end))
                 (fun _ =>
                    bind (SetFlag QUICSESSION_FLAG_DESTROYED true)
                      (fun _ =>
                         bind (SetFlag QUICSESSION_FLAG_CLOSING false)
                           (fun _ =>
                              bind (SetFlag QUICSESSION_FLAG_GRACEFUL_CLOSING
                                      false)
                                (fun _ =>
                                   bind StopIdleTimer
                                     (fun _ =>
                                        bind StopRetransmitTimer
                                          (fun _ => RemoveFromSocket))))))
                 s1 = Done tt s' ->
               wire s' = wire s /\ calls_ s' = calls_ s
               /\ events_ s' = events_ s).
    { intros s1 (Hw & Hc & He) E.
      unfold bind, CHECK, SetFlag, StopIdleTimer, StopRetransmitTimer,
        RemoveFromSocket, modify in E.
      destruct (streams_ s1); [|discriminate].
      inversion E; subst; auto. }
    destruct (negb (InNgtcp2CallbackScope s) && negb (IsInClosingPeriod s)
              && negb (IsInDrainingPeriod s)).
    + unfold SetLastError_default, SetLastError in H.
      unfold bind at 1 2 3, modify at 1 in H; cbv beta iota in H.
      rewrite SendConnectionClose_silent in H by assumption.
      eapply Htail; [|exact H]; repeat split.
    + unfold bind at 1, ret at 1 in H.
      eapply Htail; [|exact H]; repeat split.
Qed.

End SilentClosing.
(** ** What [SendPacket] hands to the socket *)

Lemma blen_zero (b : bytes) : blen b = 0 -> b = [].
Proof. destruct b; [reflexivity|unfold blen; simpl; lia]. Qed.

Section Transmit.

Context {W : Type} {host : Host W} {ngtcp2 : Ngtcp2Constants}.

Lemma SendPacket_result (label : string) (s : QuicSession W) (r : bool)
  (s' : QuicSession W) :
  SendPacket label s = Done r s' ->
  let data := QuicBuffer.Append (txbuf_ s) (sendbuf_ s) in
  (conn_closebuf_ s' = conn_closebuf_ s /\ streams_ s' = streams_ s
   /\ flags_ s' = flags_ s /\ events_ s' = events_ s
   /\ handshake_ s' = handshake_ s)
  /\ sendbuf_ s' = QuicBuffer.empty
  /\ calls_ s' = calls_ s ++ [CallSendPacket label]
  /\ if (QuicBuffer.Length data =? 0) || negb (socket_ s)
     then r = true /\ outbox_ s' = outbox_ s /\ txbuf_ s' = data
          /\ host_ s' = host_ s
     else txbuf_ s' = QuicBuffer.empty
          /\ (exists t, retransmit_ s' = TimerArmed t
                        /\ 1 <= t <= 18446744073709)
          /\ if r
             then outbox_ s'
                  = outbox_ s ++ [{| diagnostic_label := label;
                                     to := remote_address_ s;
                                     payload := data |}]
             else outbox_ s' = outbox_ s
                  /\ family (last_error_ s') = QUIC_ERROR_SESSION
                  /\ code (last_error_ s') <> 0.
Proof.
  intros H data; subst data.
  unfold SendPacket in H.
  unfold bind, enter, modify, CHECK, gets in H; cbv beta in H.
  destruct (negb (IsFlagSet QUICSESSION_FLAG_DESTROYED _)); [|discriminate].
  destruct (negb (IsInDrainingPeriod _)); [|discriminate].
  cbn [sendbuf_ upd_calls] in H.
  unfold QuicBuffer.Append, QuicBuffer.Length, QuicBuffer.empty in *.
  assert (Hdata : forall tx : bytes,
             (if 0 <? blen (sendbuf_ s) then tx ++ sendbuf_ s else tx)
             = tx ++ sendbuf_ s).
  { intros tx; destruct (0 <? blen (sendbuf_ s)) eqn:Hl; [reflexivity|].
    apply Z.ltb_ge in Hl. pose proof (blen_nonneg (sendbuf_ s)).
    rewrite (blen_zero (sendbuf_ s)) by lia.
    rewrite app_nil_r; reflexivity. }
  destruct (0 <? blen (sendbuf_ s)) eqn:Hl.
  - unfold when, increment_stat, bind, modify in H; cbv beta iota in H.
    cbn [txbuf_ socket_ upd_sendbuf upd_txbuf upd_session_stats upd_calls]
      in H.
    destruct ((blen (txbuf_ s ++ sendbuf_ s) =? 0) || negb (socket_ s)).
    + inversion H; subst; repeat split.
    + unfold call_host, set_stat, ScheduleRetransmit, UpdateRetransmitTimer,
        Socket_SendPacket, bind, call_host, modify, gets, when, SetLastError,
        ret in H.
      cbv beta iota in H.
      repeat match type of H with
             | context [let (_, _) := ?x in _] => destruct x
             end.
      cbv beta iota in H.
      repeat match type of H with
             | context [let (_, _) := ?x in _] => destruct x
             end.
      match type of H with
      | context [if ?e =? 0 then _ else _] => destruct (e =? 0) eqn:He
      end; cbv beta iota in H; rewrite ?He in H; cbn [negb] in H;
        cbv beta iota in H; inversion H; subst; simpl; repeat split; auto;
        try (apply Z.eqb_neq; exact He);
        (eexists; split; [reflexivity|apply timer_interval_bounds]).
  - unfold when, ret in H; cbv beta iota in H.
    cbn [txbuf_ socket_ upd_calls] in H.
    apply Z.ltb_ge in Hl. pose proof (blen_nonneg (sendbuf_ s)).
    assert (Hnil : sendbuf_ s = []) by (apply blen_zero; lia).
    rewrite Hnil, app_nil_r.
    destruct ((blen (txbuf_ s) =? 0) || negb (socket_ s)).
    + inversion H; subst; repeat split; simpl; auto.
    + unfold call_host, set_stat, ScheduleRetransmit, UpdateRetransmitTimer,
        Socket_SendPacket, bind, call_host, modify, gets, when, SetLastError,
        ret in H.
      cbv beta iota in H.
      repeat match type of H with
             | context [let (_, _) := ?x in _] => destruct x
             end.
      cbv beta iota in H.
      repeat match type of H with
             | context [let (_, _) := ?x in _] => destruct x
             end.
      match type of H with
      | context [if ?e =? 0 then _ else _] => destruct (e =? 0) eqn:He
      end; cbv beta iota in H; rewrite ?He in H; cbn [negb] in H;
        cbv beta iota in H; inversion H; subst; simpl; repeat split; auto;
        try (apply Z.eqb_neq; exact He);
        (eexists; split; [reflexivity|apply timer_interval_bounds]).
Qed.


(** In the closing period the server does not go through [WritePackets]:
    the body of its [SendConnectionClose] sends the packet it has kept. *)
Lemma server_close_resend (WP : string -> M W bool) (s : QuicSession W)
  (r : bool) (s' : QuicSession W) :
  IsInClosingPeriod s = true ->
  socket_ s = true ->
  QuicServerSession_SendConnectionClose WP s = Done r s' ->
  if IsInDrainingPeriod s || IsFlagSet QUICSESSION_FLAG_SILENT_CLOSE s
  then r = true /\ s' = s
  else
    0 < blen (conn_closebuf_ s)
    /\ conn_closebuf_ s' = conn_closebuf_ s
    /\ sendbuf_ s' = QuicBuffer.empty
    /\ if r
       then outbox_ s'
            = outbox_ s ++ [{| diagnostic_label := "server connection close";
                               to := remote_address_ s;
                               payload := txbuf_ s ++ conn_closebuf_ s |}]
       else outbox_ s' = outbox_ s.
Proof.
  intros Hcl Hsock H.
  unfold QuicServerSession_SendConnectionClose in H.
  unfold bind at 1, CHECK at 1 in H.
  destruct (negb (InNgtcp2CallbackScope s)); [|discriminate].
  unfold bind at 1, gets at 1 in H.
  destruct (IsInDrainingPeriod s || IsFlagSet QUICSESSION_FLAG_SILENT_CLOSE s);
    [inversion H; auto|].
  unfold bind at 1, gets at 1 in H; rewrite Hcl in H.
  unfold bind at 1, ret at 1 in H; cbn [negb] in H; cbv beta iota in H.
  unfold UpdateIdleTimer in H.
  unfold bind at 1 2, call_host at 1 in H.
  destruct (uv_hrtime (host_ s)) as [now w].
  unfold bind at 1, gets at 1, modify at 1 in H.
  unfold bind at 1, CHECK at 1 in H.
  cbn [conn_closebuf_ upd_idle upd_host] in H.
  destruct (0 <? blen (conn_closebuf_ s)) eqn:Hbuf; [|discriminate].
  apply Z.ltb_lt in Hbuf.
  unfold bind at 1, modify at 1 in H.
  unfold bind at 1, modify at 1 in H.
  apply SendPacket_result in H.
  cbn [txbuf_ sendbuf_ outbox_ remote_address_ socket_ conn_closebuf_
       upd_sendbuf upd_idle upd_host] in H.
  destruct H as ((Hkeep & _) & Hsb & _ & H).
  unfold QuicBuffer.Cancel, QuicBuffer.Push, QuicBuffer.Append,
    QuicBuffer.Length, QuicBuffer.empty in *.
  cbn [snd app] in H.
  assert (Hne : ((blen (txbuf_ s ++ conn_closebuf_ s) =? 0)
                 || negb (socket_ s)) = false).
  { rewrite Hsock, blen_app; cbn [negb]; rewrite orb_false_r.
    apply Z.eqb_neq. pose proof (blen_nonneg (txbuf_ s)). lia. }
  rewrite Hne in H; destruct H as (_ & _ & H).
  split; [exact Hbuf|].
  split; [exact Hkeep|]. split; [exact Hsb|].
  destruct r; [exact H|apply H].
Qed.

(** X10.  A server in the closing period sends nothing but the
    CONNECTION_CLOSE packet it has kept.  Whenever [SendConnectionClose]
    or [WritePackets] return there (outside the draining period and a
    silent close, with the socket in place), the library was not asked to
    write a packet; what was pending in the send buffer is dropped; a
    result of true means that exactly one packet went out, the stored
    packet behind whatever waited in the transmit buffer; a result of
    false means that nothing went out.  The stored packet stays in
    place for the next time. *)
Theorem closing_server_sends_stored_close (fuel : nat) (s : QuicSession W) :
  Side s = NGTCP2_CRYPTO_SIDE_SERVER ->
  IsInClosingPeriod s = true ->
  IsInDrainingPeriod s = false ->
  IsFlagSet QUICSESSION_FLAG_SILENT_CLOSE s = false ->
  socket_ s = true ->
  let stored := {| diagnostic_label := "server connection close";
                   to := remote_address_ s;
                   payload := txbuf_ s ++ conn_closebuf_ s |} in
  (forall r s',
      SendConnectionClose fuel s = Done r s' ->
      conn_closebuf_ s' = conn_closebuf_ s
      /\ sendbuf_ s' = QuicBuffer.empty
      /\ outbox_ s' = outbox_ s ++ (if r then [stored] else []))
  /\ (forall label r s',
        WritePackets (S fuel) label s = Done r s' ->
        conn_closebuf_ s' = conn_closebuf_ s
        /\ sendbuf_ s' = QuicBuffer.empty
        /\ outbox_ s' = outbox_ s ++ (if r then [stored] else [])).
Proof.
  intros Hside Hcl Hdr Hsilent Hsock stored.
  assert (Hbody : forall WP (s0 : QuicSession W) r s',
             Side s0 = Side s -> host_ s0 = host_ s ->
             flags_ s0 = flags_ s -> socket_ s0 = socket_ s ->
             conn_closebuf_ s0 = conn_closebuf_ s ->
             outbox_ s0 = outbox_ s -> txbuf_ s0 = txbuf_ s ->
             remote_address_ s0 = remote_address_ s ->
             SendConnectionClose_body WP s0 = Done r s' ->
             conn_closebuf_ s' = conn_closebuf_ s
             /\ sendbuf_ s' = QuicBuffer.empty
             /\ outbox_ s' = outbox_ s ++ (if r then [stored] else [])).
  { intros WP s0 r s' E1 E2 E3 E4 E5 E6 E7 E8 H.
    unfold SendConnectionClose_body in H; rewrite E1, Hside in H.
    apply server_close_resend in H.
    - unfold IsInDrainingPeriod, IsFlagSet in H, Hdr, Hsilent.
      rewrite E2, E3, Hdr, Hsilent in H; cbn [orb] in H.
      destruct H as (_ & Hk & Hsb & H).
      rewrite E5 in Hk; split; [exact Hk|]. split; [exact Hsb|].
      rewrite E5, E6, E7, E8 in H.
      destruct r; [exact H|rewrite app_nil_r; exact H].
    - unfold IsInClosingPeriod in *; rewrite E2; exact Hcl.
    - rewrite E4; exact Hsock. }
  split.
  - intros r s' H; unfold SendConnectionClose in H.
    eapply Hbody; [..|exact H]; reflexivity.
  - intros label r s' H; cbn [WritePackets] in H.
    unfold bind at 1, enter at 1, modify at 1 in H.
    unfold bind at 1, CHECK at 1 in H.
    match type of H with
    | context [if ?c then _ else _] => destruct c; [|discriminate]
    end.
    unfold bind at 1, CHECK at 1 in H.
    match type of H with
    | context [if ?c then _ else _] => destruct c; [|discriminate]
    end.
    unfold bind at 1, gets at 1 in H.
    change (IsInDrainingPeriod (upd_calls ?f s)) with (IsInDrainingPeriod s)
      in H.
    rewrite Hdr in H.
    unfold bind at 1, gets at 1 in H.
    change (IsInClosingPeriod (upd_calls ?f s)) with (IsInClosingPeriod s)
      in H.
    rewrite Hcl in H.
    eapply Hbody; [..|exact H]; reflexivity.
Qed.

Lemma pkt_num_exhausted_negative : NGTCP2_ERR_PKT_NUM_EXHAUSTED < 0.
Proof.
  pose proof ngtcp2_err_negative as H.
  inversion H; subst; lia.
Qed.

(** X11.  What [WritePackets] does, outside the closing and the draining
    period, with a first return value [nwrite <= 0] of the library's
    [ngtcp2_conn_write_pkt] ([s2] is the session after the call): on zero
    it returns true and nothing goes out; on [PKT_NUM_EXHAUSTED] it runs
    [SilentClose] and returns false; on any other negative value it
    stores the value, cast to [int], as the last error in the session
    family and returns false.  In none of the cases a packet reaches the
    socket. *)
Theorem WritePackets_write_pkt_results (fuel : nat) (label : string)
  (s : QuicSession W) (now : Z) (w1 : W) (r : write_result) (w2 : W) :
  InNgtcp2CallbackScope s = false ->
  IsFlagSet QUICSESSION_FLAG_DESTROYED s = false ->
  IsInDrainingPeriod s = false ->
  IsInClosingPeriod s = false ->
  uv_hrtime (host_ s) = (now, w1) ->
  ngtcp2_conn_write_pkt (max_pktlen_ s) now w1 = (r, w2) ->
  nwrite r <= 0 ->
  let s2 := upd_host (fun _ => w2)
              (upd_calls (fun l => l ++ [CallWritePackets label]) s) in
  let run := WritePackets (S fuel) label s in
  (nwrite r = 0 -> run = Done true s2)
  /\ (nwrite r = NGTCP2_ERR_PKT_NUM_EXHAUSTED ->
      run = (if IsFlagSet QUICSESSION_FLAG_CLOSING s then Abort
             else Done false (silently_closed false s2)))
  /\ (nwrite r < 0 ->
      nwrite r <> NGTCP2_ERR_PKT_NUM_EXHAUSTED ->
      run = Done false
              (upd_last_error
                 (fun _ => InitQuicError QUIC_ERROR_SESSION
                             (Int.to_int (nwrite r))) s2))
  /\ (forall b s', run = Done b s' -> outbox_ s' = outbox_ s).
Proof.
  intros Hcb Hd Hdr Hcl Hclock Hcall Hle s2 run.
  assert (Hrun : run = WritePackets_failed (nwrite r) s2).
  { subst run; cbn [WritePackets].
    unfold bind at 1, enter at 1, modify at 1.
    unfold bind at 1, CHECK at 1.
    change (InNgtcp2CallbackScope (upd_calls ?f s))
      with (InNgtcp2CallbackScope s); rewrite Hcb; cbn [negb].
    unfold bind at 1, CHECK at 1.
    change (IsFlagSet ?g (upd_calls ?f s)) with (IsFlagSet g s).
    rewrite Hd; cbn [negb].
    unfold bind at 1, gets at 1.
    change (IsInDrainingPeriod (upd_calls ?f s)) with (IsInDrainingPeriod s).
    rewrite Hdr.
    unfold bind at 1, gets at 1.
    change (IsInClosingPeriod (upd_calls ?f s)) with (IsInClosingPeriod s).
    rewrite Hcl.
    cbn [WritePackets_loop].
    unfold bind at 1, gets at 1.
    unfold bind at 1, call_host at 1.
    cbn [host_ upd_calls max_pktlen_]; rewrite Hclock.
    unfold bind at 1, call_host at 1.
    cbn [host_ upd_host]; rewrite Hcall.
    apply Z.leb_le in Hle; rewrite Hle; reflexivity. }
  pose proof pkt_num_exhausted_negative as He.
  assert (Ee : (NGTCP2_ERR_PKT_NUM_EXHAUSTED =? 0) = false)
    by (apply Z.eqb_neq; lia).
  rewrite Hrun; unfold WritePackets_failed.
  split; [|split; [|split]].
  - intros ->; reflexivity.
  - intros ->; rewrite Ee, Z.eqb_refl; unfold bind.
    change (IsFlagSet QUICSESSION_FLAG_CLOSING s)
      with (IsFlagSet QUICSESSION_FLAG_CLOSING s2).
    destruct (IsFlagSet QUICSESSION_FLAG_CLOSING s2) eqn:Hc.
    + rewrite SilentClose_Abort by exact Hc; reflexivity.
    + rewrite SilentClose_Done by exact Hc; reflexivity.
  - intros Hneg Hne.
    apply Z.eqb_neq in Hne.
    assert (E0 : (nwrite r =? 0) = false) by (apply Z.eqb_neq; lia).
    rewrite E0, Hne; reflexivity.
  - intros b s'.
    destruct (nwrite r =? 0); [intros H; inversion H; reflexivity|].
    destruct (nwrite r =? NGTCP2_ERR_PKT_NUM_EXHAUSTED).
    + unfold bind.
      destruct (IsFlagSet QUICSESSION_FLAG_CLOSING s2) eqn:Hc.
      * rewrite SilentClose_Abort by exact Hc; discriminate.
      * rewrite SilentClose_Done by exact Hc.
        intros H; inversion H; reflexivity.
    + intros H; inversion H; reflexivity.
Qed.
End Transmit.
(** ** Processing a packet *)

(** Frames for routines that stay away from the send path: [leaf] closes
    the field updates. *)
Ltac untouched leaf := frame_with ltac:(assumption) leaf.

Ltac flag_leaf :=
  first
    [ reflexivity
    | unfold InNgtcp2CallbackScope, IsFlagSet; simpl;
      match goal with
      | |- context [flags_ ?s] => destruct (flags_ s); reflexivity
      end ].

Section Processing.

Context {W : Type} {host : Host W} {ngtcp2 : Ngtcp2Constants}.

Lemma deref_aside id : preserves (@aside W) (deref id).
Proof.
  intros s a s' H; unfold deref in H.
  destruct (FindStream id s); inversion H; reflexivity.
Qed.

Lemma invoke_aside cb : preserves (@aside W) (invoke cb).
Proof.
  destruct cb; simpl;
    unfold OnReceiveStreamData, OnAckedCryptoOffset, OnStreamOpen,
      OnStreamClose, OnStreamReset, OnStatelessReset, Ngtcp2CallbackScope,
      ReceiveStreamData, CreateStream, QuicStream_New, AddStream,
      AckedCryptoOffset, StreamOpen, StreamClose, StreamReset, SilentClose,
      SetFlag, MakeCallback, increment_stat, set_stat;
    untouched reflexivity.
Qed.

Lemma invoke_all_aside cbs : preserves (@aside W) (invoke_all cbs).
Proof.
  induction cbs; simpl; [apply preserves_ret|].
  apply preserves_bind; [apply invoke_aside|intro; exact IHcbs].
Qed.

Lemma preserves_scope_clear (m : M W unit) :
  preserves InNgtcp2CallbackScope m -> scope_clear m.
Proof. intros Hp s s' Hs H; rewrite (Hp _ _ _ H); exact Hs. Qed.

Lemma Ngtcp2CallbackScope_clear (m : M W unit) :
  scope_clear (Ngtcp2CallbackScope m).
Proof.
  intros s s' _ H; unfold Ngtcp2CallbackScope in H.
  apply bind_Done in H as (? & s1 & _ & H).
  apply bind_Done in H as (? & s2 & _ & H).
  apply bind_Done in H as (? & s3 & H3 & H).
  inversion H; subst; inversion H3; subst.
  unfold InNgtcp2CallbackScope, IsFlagSet; cbn [flags_ upd_flags].
  apply flag_get_set_same.
Qed.

Lemma invoke_scope_clear cb : scope_clear (invoke cb).
Proof.
  destruct cb; simpl;
    unfold OnReceiveStreamData, OnAckedCryptoOffset, OnStreamOpen,
      OnStreamClose, OnStreamReset, OnStatelessReset;
    try apply Ngtcp2CallbackScope_clear;
    apply preserves_scope_clear;
    unfold StreamOpen, SilentClose, SetFlag, MakeCallback;
    untouched flag_leaf.
Qed.

Lemma invoke_all_scope_clear cbs : scope_clear (invoke_all cbs).
Proof.
  induction cbs as [|cb rest IH]; intros s s' Hs H; simpl in H.
  - inversion H; subst; exact Hs.
  - apply bind_Done in H as ([] & s1 & H1 & H).
    eapply IH; [|exact H].
    eapply invoke_scope_clear; eassumption.
Qed.


Lemma ReceivePacket_aside data nread s r s' :
  ReceivePacket data nread s = Done r s' ->
  wire s' = wire s /\ calls_ s' = calls_ s
  /\ if r then last_error_ s' = last_error_ s
     else family (last_error_ s') = QUIC_ERROR_SESSION
          /\ code (last_error_ s') < 0
          /\ code (last_error_ s') <> NGTCP2_ERR_DRAINING
          /\ code (last_error_ s') <> NGTCP2_ERR_RECV_VERSION_NEGOTIATION.
Proof.
  intros H; unfold ReceivePacket in H.
  unfold bind at 1, gets at 1 in H.
  destruct (IsFlagSet QUICSESSION_FLAG_DESTROYED s);
    [inversion H; subst; repeat split|].
  apply bind_Done in H as (now & s1 & H1 & H).
  apply bind_Done in H as ([] & s2 & H2 & H).
  apply bind_Done in H as (err & s3 & H3 & H).
  assert (Hp : aside s3 = aside s).
  { assert (P1 : preserves (@aside W) (call_host uv_hrtime : M W Z))
      by (untouched reflexivity).
    assert (P2 : preserves (@aside W)
                   (set_stat m_session_received_at now : M W unit))
      by (unfold set_stat; untouched reflexivity).
    assert (P3 : preserves (@aside W) (read_pkt data nread now : M W Z)).
    { unfold read_pkt; pose proof invoke_all_aside.
      untouched reflexivity; auto. }
    rewrite (P3 _ _ _ H3), (P2 _ _ _ H2), (P1 _ _ _ H1); reflexivity. }
  pose proof (f_equal (fun p => fst (fst p)) Hp) as Hw.
  pose proof (f_equal (fun p => snd (fst p)) Hp) as Hc.
  pose proof (f_equal snd Hp) as He.
  unfold aside in Hw, Hc, He; cbn [fst snd] in Hw, Hc, He.
  destruct (err <? 0) eqn:Hneg.
  - destruct ((err =? NGTCP2_ERR_DRAINING)
              || (err =? NGTCP2_ERR_RECV_VERSION_NEGOTIATION)) eqn:Hign.
    + inversion H; subst; simpl; repeat split; assumption.
    + apply orb_false_elim in Hign as (Hd & Hv).
      apply Z.eqb_neq in Hd, Hv; apply Z.ltb_lt in Hneg.
      unfold SetLastError, bind, modify, ret in H; inversion H; subst.
      simpl; repeat split; assumption.
  - inversion H; subst; simpl; repeat split; assumption.
Qed.


(** X13.  Processing a packet is separate from sending.  Whenever
    [ReceivePacket] returns, all the transport callbacks that the library
    invoked included, nothing has reached the socket, the send and
    transmit buffers are as they were, and no send routine was entered;
    and a session that was outside a transport callback is outside again,
    so that the [SendPendingData] which follows in [Receive] is not
    turned away by a stale marker. *)
Theorem ReceivePacket_sends_nothing (data : bytes) (nread : Z)
  (s : QuicSession W) (r : bool) (s' : QuicSession W) :
  ReceivePacket data nread s = Done r s' ->
  wire s' = wire s
  /\ calls_ s' = calls_ s
  /\ (InNgtcp2CallbackScope s = false -> InNgtcp2CallbackScope s' = false).
Proof.
  intros H.
  destruct (ReceivePacket_aside data nread s r s' H) as (Hw & Hc & _).
  split; [exact Hw|]. split; [exact Hc|].
  intros Hs; unfold ReceivePacket in H.
  unfold bind at 1, gets at 1 in H.
  destruct (IsFlagSet QUICSESSION_FLAG_DESTROYED s);
    [inversion H; subst; exact Hs|].
  apply bind_Done in H as (now & s1 & H1 & H).
  apply bind_Done in H as ([] & s2 & H2 & H).
  apply bind_Done in H as (err & s3 & H3 & H).
  assert (Hs3 : InNgtcp2CallbackScope s3 = false).
  { unfold read_pkt in H3.
    apply bind_Done in H3 as (remote & s4 & H4 & H3).
    apply bind_Done in H3 as (res & s5 & H5 & H3).
    apply bind_Done in H3 as ([] & s6 & H6 & H3).
    inversion H3; subst; inversion H4; subst.
    eapply invoke_all_scope_clear; [|exact H6].
    unfold call_host in H1, H5.
    destruct (uv_hrtime (host_ s)); inversion H1; subst.
    unfold set_stat, modify in H2; inversion H2; subst.
    match type of H5 with
    | (let (_, _) := ?x in _) = _ => destruct x
    end; inversion H5; subst; exact Hs. }
  destruct (err <? 0); [|inversion H; subst; exact Hs3].
  destruct ((err =? NGTCP2_ERR_DRAINING)
            || (err =? NGTCP2_ERR_RECV_VERSION_NEGOTIATION));
    [inversion H; subst; exact Hs3|].
  unfold SetLastError, bind, modify, ret in H; inversion H; subst.
  exact Hs3.
Qed.

End Processing.
(** ** The timers and the keep-alive *)

Section Timers.

Context {W : Type} {host : Host W} {ngtcp2 : Ngtcp2Constants}.

Lemma UpdateIdleTimer_run (s : QuicSession W) :
  UpdateIdleTimer s
  = Done tt
      (upd_idle
         (fun _ =>
            TimerArmed
              (timer_interval
                 (ngtcp2_conn_get_idle_expiry (snd (uv_hrtime (host_ s))))
                 (fst (uv_hrtime (host_ s)))))
         (upd_host (fun _ => snd (uv_hrtime (host_ s))) s)).
Proof.
  unfold UpdateIdleTimer, bind, call_host, gets, modify.
  destruct (uv_hrtime (host_ s)); reflexivity.
Qed.

Lemma ScheduleRetransmit_run (s : QuicSession W) :
  ScheduleRetransmit s
  = Done tt
      (upd_retransmit
         (fun _ =>
            TimerArmed
              (timer_interval
                 (ngtcp2_conn_get_expiry (snd (uv_hrtime (host_ s))))
                 (fst (uv_hrtime (host_ s)))))
         (upd_host (fun _ => snd (uv_hrtime (host_ s))) s)).
Proof.
  unfold ScheduleRetransmit, UpdateRetransmitTimer, bind, call_host, gets,
    modify.
  destruct (uv_hrtime (host_ s)); reflexivity.
Qed.

(** X14.  [ScheduleRetransmit] always returns, and it arms the
    retransmission timer with max(1, (expiry - now) / 1000000)
    milliseconds when the expiry of the transport library is not before
    the clock reading (both in nanoseconds), and with 1 millisecond when
    it is; the idle timer is left as it is. *)
Theorem ScheduleRetransmit_timeout (s : QuicSession W) (now : Z) (w : W) :
  uv_hrtime (host_ s) = (now, w) ->
  Int.in_uint64 now ->
  Int.in_uint64 (ngtcp2_conn_get_expiry w) ->
  exists s',
    ScheduleRetransmit s = Done tt s'
    /\ retransmit_ s' =
       TimerArmed
         (if ngtcp2_conn_get_expiry w <? now then 1
          else Z.max 1 ((ngtcp2_conn_get_expiry w - now) / 1000000))
    /\ idle_ s' = idle_ s.
Proof.
  intros Hclock Hn He.
  rewrite ScheduleRetransmit_run, Hclock; cbn [fst snd].
  eexists; split; [reflexivity|]; simpl.
  rewrite timer_interval_max by assumption; split; reflexivity.
Qed.

(** X15.  Neither timer is ever armed with zero.  Whatever the clock and
    the library report (an expiry in the past and a difference that wraps
    around included), [UpdateIdleTimer] and [ScheduleRetransmit] return,
    and the timeout they arm their timer with is at least 1 millisecond
    and at most 2^64 / 10^6 milliseconds. *)
Theorem timers_never_armed_with_zero (s : QuicSession W) :
  (exists s' t,
      UpdateIdleTimer s = Done tt s'
      /\ idle_ s' = TimerArmed t /\ 1 <= t <= 18446744073709)
  /\ (exists s' t,
        ScheduleRetransmit s = Done tt s'
        /\ retransmit_ s' = TimerArmed t /\ 1 <= t <= 18446744073709).
Proof.
  split; eexists _, _.
  - split; [apply UpdateIdleTimer_run|].
    split; [reflexivity|apply timer_interval_bounds].
  - split; [apply ScheduleRetransmit_run|].
    split; [reflexivity|apply timer_interval_bounds].
Qed.

(** X16.  [Ping] does nothing inside a transport callback, on a destroyed
    session, with the closing flag set, and in the closing or the
    draining period.  Otherwise it returns whenever [WritePackets]
    returns, whatever the result: a failure of [WritePackets] is not
    handled (no CONNECTION_CLOSE is sent for it, the listener hears
    nothing more, the last error stays), and both timers are armed
    anew, with at least 1 millisecond. *)
Theorem Ping_outcome (fuel : nat) (s : QuicSession W) :
  if InNgtcp2CallbackScope s
     || IsFlagSet QUICSESSION_FLAG_DESTROYED s
     || IsFlagSet QUICSESSION_FLAG_CLOSING s
     || IsInClosingPeriod s
     || IsInDrainingPeriod s
  then Ping fuel s = Done tt s
  else
    (forall r s1,
        WritePackets fuel "ping" s = Done r s1 ->
        exists s' t1 t2,
          Ping fuel s = Done tt s'
          /\ outbox_ s' = outbox_ s1
          /\ events_ s' = events_ s1
          /\ last_error_ s' = last_error_ s1
          /\ calls_ s' = calls_ s1
          /\ idle_ s' = TimerArmed t1 /\ 1 <= t1
          /\ retransmit_ s' = TimerArmed t2 /\ 1 <= t2)
    /\ (forall s',
          Ping fuel s = Done tt s' ->
          exists r s1, WritePackets fuel "ping" s = Done r s1).
Proof.
  assert (E : Ping fuel s
              = if InNgtcp2CallbackScope s
                   || IsFlagSet QUICSESSION_FLAG_DESTROYED s
                   || IsFlagSet QUICSESSION_FLAG_CLOSING s
                   || IsInClosingPeriod s
                   || IsInDrainingPeriod s
                then Done tt s
                else bind (WritePackets fuel "ping")
                       (fun _ => bind UpdateIdleTimer
                                   (fun _ => ScheduleRetransmit)) s).
  { unfold Ping; unfold bind at 1, gets at 1.
    destruct (InNgtcp2CallbackScope s
              || IsFlagSet QUICSESSION_FLAG_DESTROYED s
              || IsFlagSet QUICSESSION_FLAG_CLOSING s
              || IsInClosingPeriod s
              || IsInDrainingPeriod s); reflexivity. }
  rewrite E; clear E.
  destruct (InNgtcp2CallbackScope s
            || IsFlagSet QUICSESSION_FLAG_DESTROYED s
            || IsFlagSet QUICSESSION_FLAG_CLOSING s
            || IsInClosingPeriod s
            || IsInDrainingPeriod s); [reflexivity|].
  split.
  - intros r s1 H; unfold bind at 1; rewrite H.
    unfold bind; rewrite UpdateIdleTimer_run, ScheduleRetransmit_run.
    eexists _, _, _; split; [reflexivity|]; simpl.
    repeat split; apply timer_interval_bounds.
  - intros s' H; apply bind_Done in H as (r & s1 & H1 & _); eauto.
Qed.

End Timers.
(** ** Tearing down *)


Section TearingDown.

Context {W : Type} {host : Host W} {ngtcp2 : Ngtcp2Constants}.







End TearingDown.
(** ** Stream data and crypto acknowledgements *)

Lemma find_stream_update_same id f table :
  find_stream id (update_stream id f table)
  = match find_stream id table with Some st => Some (f st) | None => None end.
Proof.
  induction table as [|[k st] rest IH]; simpl; [reflexivity|].
  destruct (k =? id) eqn:Hk; simpl; rewrite Hk; [reflexivity|exact IH].
Qed.

Lemma find_stream_update_other id id' f table :
  id' <> id ->
  find_stream id' (update_stream id f table) = find_stream id' table.
Proof.
  intros Hne; induction table as [|[k st] rest IH]; simpl; [reflexivity|].
  destruct (Z.eqb_spec k id) as [->|Hk]; simpl.
  - destruct (Z.eqb_spec id id'); [congruence|reflexivity].
  - destruct (k =? id'); [reflexivity|exact IH].
Qed.

Lemma update_stream_keys id f table :
  map fst (update_stream id f table) = map fst table.
Proof.
  induction table as [|[k st] rest IH]; simpl; [reflexivity|].
  destruct (k =? id); simpl; [reflexivity|rewrite IH; reflexivity].
Qed.

Section StreamData.

Context {W : Type} {host : Host W} {ngtcp2 : Ngtcp2Constants}.

(** X18.  Data for a stream that is in the table goes to that stream and
    to nothing else: [ReceiveStreamData] returns, the stream has the
    chunk (fin, length, offset) behind what it had received before, the
    table holds the same ids in the same order, every other stream is as
    it was, the listener hears nothing, and the connection window is
    extended by the length of the data. *)
Theorem ReceiveStreamData_known_stream (s : QuicSession W)
  (stream_id fin : Z) (data : bytes) (datalen offset : Z) (st : QuicStream.t) :
  FindStream stream_id s = Some st ->
  IsFlagSet QUICSESSION_FLAG_DESTROYED s = false ->
  (fin =? 0) && (datalen =? 0) = false ->
  exists s',
    ReceiveStreamData stream_id fin data datalen offset s = Done tt s'
    /\ FindStream stream_id s'
       = Some (QuicStream.ReceiveData st fin datalen offset)
    /\ (forall id, id <> stream_id -> FindStream id s' = FindStream id s)
    /\ map fst (streams_ s') = map fst (streams_ s)
    /\ events_ s' = events_ s
    /\ host_ s' = ngtcp2_conn_extend_max_offset datalen (host_ s).
Proof.
  intros Hst Hd Hne.
  unfold ReceiveStreamData; rewrite Hne.
  unfold bind at 1, gets at 1; rewrite Hd.
  unfold bind at 1 2, gets at 1; rewrite Hst.
  unfold modify, call_host; cbv beta iota.
  eexists; split; [reflexivity|].
  unfold FindStream; cbn [streams_ events_ host_ upd_host upd_streams].
  split; [rewrite find_stream_update_same; unfold FindStream in Hst;
          rewrite Hst; reflexivity|].
  split; [intros id Hid; apply find_stream_update_other; exact Hid|].
  split; [apply update_stream_keys|].
  split; reflexivity.
Qed.

(** X19.  No stream is created for a frame that opens a stream while the
    session closes gracefully, nor for one that carries no data.  For a
    stream id that is not in the table, on a session that is not
    destroyed: under graceful closing the library is told to shut the
    stream down with [NGTCP2_ERR_CLOSING]; an empty frame with fin is
    passed over.  In both cases [ReceiveStreamData] returns, the stream
    table is as it was and the listener hears nothing. *)
Theorem ReceiveStreamData_refuses_stream (s : QuicSession W)
  (stream_id fin : Z) (data : bytes) (datalen offset : Z) :
  FindStream stream_id s = None ->
  IsFlagSet QUICSESSION_FLAG_DESTROYED s = false ->
  (fin =? 0) && (datalen =? 0) = false ->
  IsFlagSet QUICSESSION_FLAG_GRACEFUL_CLOSING s = true \/ datalen = 0 ->
  exists s',
    ReceiveStreamData stream_id fin data datalen offset s = Done tt s'
    /\ streams_ s' = streams_ s
    /\ events_ s' = events_ s
    /\ flags_ s' = flags_ s
    /\ host_ s'
       = ngtcp2_conn_extend_max_offset datalen
           (if IsFlagSet QUICSESSION_FLAG_GRACEFUL_CLOSING s
            then snd (ngtcp2_conn_shutdown_stream stream_id
                        NGTCP2_ERR_CLOSING (host_ s))
            else host_ s).
Proof.
  intros Hst Hd Hne Hcase.
  unfold ReceiveStreamData; rewrite Hne.
  unfold bind at 1, gets at 1; rewrite Hd.
  unfold bind at 1 2, gets at 1; rewrite Hst.
  unfold bind at 1, gets at 1.
  destruct (IsFlagSet QUICSESSION_FLAG_GRACEFUL_CLOSING s).
  - unfold bind, call_host, ret.
    destruct (ngtcp2_conn_shutdown_stream stream_id NGTCP2_ERR_CLOSING
                (host_ s)).
    eexists; split; [reflexivity|]; repeat split.
  - destruct Hcase as [Hg | ->]; [discriminate|].
    cbn [Z.eqb]; unfold ret, call_host.
    eexists; split; [reflexivity|]; repeat split.
Qed.

(** X20.  The first data of a stream creates it.  For a stream id that
    is not in the table and a frame with data, on a session that is not
    destroyed and has neither its graceful-closing nor its closing flag
    set, [ReceiveStreamData] returns; the stream is then in the table,
    behind the streams that were there, with the chunk as all it has
    received; the listener has been told once that the stream is ready;
    and every other stream is as it was. *)
Theorem ReceiveStreamData_creates_stream (s : QuicSession W)
  (stream_id fin : Z) (data : bytes) (datalen offset : Z) :
  FindStream stream_id s = None ->
  IsFlagSet QUICSESSION_FLAG_DESTROYED s = false ->
  IsFlagSet QUICSESSION_FLAG_GRACEFUL_CLOSING s = false ->
  IsFlagSet QUICSESSION_FLAG_CLOSING s = false ->
  datalen <> 0 ->
  exists s' st,
    ReceiveStreamData stream_id fin data datalen offset s = Done tt s'
    /\ FindStream stream_id s' = Some st
    /\ QuicStream.GetID st = stream_id
    /\ QuicStream.received st = [(fin, datalen, offset)]
    /\ map fst (streams_ s') = map fst (streams_ s) ++ [stream_id]
    /\ (forall id, id <> stream_id -> FindStream id s' = FindStream id s)
    /\ events_ s' = events_ s ++ [on_stream_ready stream_id].
Proof.
  intros Hst Hd Hg Hc Hlen.
  assert (Hne : (fin =? 0) && (datalen =? 0) = false).
  { apply Z.eqb_neq in Hlen; rewrite Hlen; apply andb_false_r. }
  unfold ReceiveStreamData; rewrite Hne.
  unfold bind at 1, gets at 1; rewrite Hd.
  unfold bind at 1 2, gets at 1; rewrite Hst.
  unfold bind at 1, gets at 1; rewrite Hg.
  apply Z.eqb_neq in Hlen; rewrite Hlen.
  unfold CreateStream.
  unfold bind at 1 2, CHECK at 1; rewrite Hd; cbn [negb].
  unfold bind at 1, CHECK at 1; rewrite Hg; cbn [negb].
  unfold bind at 1, CHECK at 1; rewrite Hc; cbn [negb].
  unfold QuicStream_New.
  unfold bind at 1 2, gets at 1.
  match goal with
  | |- context [AddStream ?x s] =>
      destruct (AddStream_streams s x) as (s1 & H1 & Hs1 & He1 & Hh1 & Hf1);
      rewrite H1
  end.
  unfold MakeCallback, modify, call_host; cbv beta iota.
  eexists _, _; split; [reflexivity|].
  unfold FindStream in *.
  cbn [streams_ events_ upd_host upd_streams upd_events].
  rewrite Hs1; unfold emplace; cbn [QuicStream.GetID QuicStream.fresh
                                     QuicStream.id].
  rewrite Hst.
  split.
  { rewrite find_stream_update_same, find_stream_app, Hst; simpl.
    rewrite Z.eqb_refl; reflexivity. }
  split; [reflexivity|]. split; [reflexivity|].
  split; [rewrite update_stream_keys, map_app; reflexivity|].
  split; [|rewrite He1; reflexivity].
  intros id Hid.
  rewrite find_stream_update_other, find_stream_app by exact Hid.
  simpl; destruct (Z.eqb_spec stream_id id); [congruence|].
  destruct (find_stream id (streams_ s)); reflexivity.
Qed.

End StreamData.
Section Acknowledgements.

Context {W : Type} {host : Host W} {ngtcp2 : Ngtcp2Constants}.

Lemma AckedCryptoOffset_run (s : QuicSession W) level datalen now w :
  IsFlagSet QUICSESSION_FLAG_DESTROYED s = false ->
  uv_hrtime (host_ s) = (now, w) ->
  exists s',
    AckedCryptoOffset level datalen s = Done tt s'
    /\ host_ s' = w
    /\ flags_ s' = flags_ s
    /\ handshake_acked_at (session_stats_ s') = now
    /\ crypto_rx_ack_ s'
       = crypto_rx_ack_ s
         ++ (if 0 <? handshake_acked_at (session_stats_ s)
             then [Int.wrap64 (now - handshake_acked_at (session_stats_ s))]
             else []).
Proof.
  intros Hd Hclock.
  unfold AckedCryptoOffset.
  unfold bind at 1, gets at 1; rewrite Hd.
  unfold bind at 1, modify at 1.
  unfold bind at 1, call_host at 1; cbn [host_ upd_handshake].
  rewrite Hclock.
  unfold bind at 1, gets at 1.
  cbn [session_stats_ upd_host upd_handshake].
  destruct (0 <? handshake_acked_at (session_stats_ s));
    unfold when, bind, modify, ret, set_stat;
    (eexists; split; [reflexivity|]);
    cbn [host_ flags_ session_stats_ crypto_rx_ack_ upd_session_stats
         upd_crypto_rx_ack upd_host upd_handshake];
    (split; [reflexivity|]); (split; [reflexivity|]);
    (split; [destruct (session_stats_ s); reflexivity|]);
    rewrite ?app_nil_r; reflexivity.
Qed.

(** X21.  The histogram of crypto acknowledgements holds the time between
    one acknowledgement and the next.  Two acknowledgements in a row on a
    session that is not destroyed, the clock reading [t1] at the first and
    [t2] at the second: the first records the time since the
    acknowledgement before it, if there was one (a time stamp of zero
    stands for none); the second records [t2 - t1], unless [t1] is zero;
    and the time stamp is [t2] afterwards. *)
Theorem AckedCryptoOffset_records_delay (s : QuicSession W)
  (l1 l2 : ngtcp2_crypto_level) (n1 n2 t1 t2 : Z) (w1 w2 : W) :
  IsFlagSet QUICSESSION_FLAG_DESTROYED s = false ->
  uv_hrtime (host_ s) = (t1, w1) ->
  uv_hrtime w1 = (t2, w2) ->
  exists s',
    bind (AckedCryptoOffset l1 n1) (fun _ => AckedCryptoOffset l2 n2) s
    = Done tt s'
    /\ handshake_acked_at (session_stats_ s') = t2
    /\ crypto_rx_ack_ s'
       = crypto_rx_ack_ s
         ++ (if 0 <? handshake_acked_at (session_stats_ s)
             then [Int.wrap64 (t1 - handshake_acked_at (session_stats_ s))]
             else [])
         ++ (if 0 <? t1 then [Int.wrap64 (t2 - t1)] else []).
Proof.
  intros Hd H1 H2.
  destruct (AckedCryptoOffset_run s l1 n1 t1 w1 Hd H1)
    as (s1 & E1 & Hh1 & Hf1 & Ha1 & Hr1).
  assert (Hd1 : IsFlagSet QUICSESSION_FLAG_DESTROYED s1 = false)
    by (unfold IsFlagSet in *; rewrite Hf1; exact Hd).
  assert (H2' : uv_hrtime (host_ s1) = (t2, w2)) by (rewrite Hh1; exact H2).
  destruct (AckedCryptoOffset_run s1 l2 n2 t2 w2 Hd1 H2')
    as (s' & E2 & _ & _ & Ha2 & Hr2).
  exists s'; split; [rewrite (bind_eq _ _ _ _ _ E1); exact E2|].
  split; [exact Ha2|].
  rewrite Hr2, Hr1, Ha1, app_assoc; reflexivity.
Qed.

End Acknowledgements.

(** ** When [SendStreamData] leaves a stream alone *)

Section StreamGuards.

Context {W : Type} {host : Host W} {ngtcp2 : Ngtcp2Constants}.

(** X22.  No stream data is serialized when the session is destroyed,
    the stream was never writable, its final frame has been sent, the
    session is in the draining or in the closing period, or flow control
    leaves no room; nor when the stream has nothing queued and is still
    writable.  Outside a transport callback [SendStreamData] then returns
    true, the library is not asked to write, and nothing but the history
    of the send routines has changed. *)
Theorem SendStreamData_leaves_stream (fuel : nat) (stream_id : Z)
  (s : QuicSession W) (st : QuicStream.t) :
  InNgtcp2CallbackScope s = false ->
  FindStream stream_id s = Some st ->
  IsFlagSet QUICSESSION_FLAG_DESTROYED s
  || negb (QuicStream.WasEverWritable st)
  || QuicStream.HasSentFin st
  || IsInDrainingPeriod s
  || IsInClosingPeriod s
  || (ngtcp2_conn_get_max_data_left (host_ s) =? 0)
  || (match QuicStream.queue st with [] => true | _ :: _ => false end
      && QuicStream.IsWritable st) = true ->
  SendStreamData fuel stream_id s
  = Done true (upd_calls (fun l => l ++ [CallSendStreamData stream_id]) s).
Proof.
  intros Hcb Hst Hguard.
  unfold SendStreamData.
  unfold bind at 1, enter at 1, modify at 1.
  unfold bind at 1, CHECK at 1.
  change (InNgtcp2CallbackScope (upd_calls ?f s))
    with (InNgtcp2CallbackScope s); rewrite Hcb; cbn [negb].
  unfold bind at 1, deref at 1.
  change (FindStream stream_id (upd_calls ?f s)) with (FindStream stream_id s).
  rewrite Hst.
  unfold bind at 1, gets at 1.
  change (IsFlagSet ?g (upd_calls ?f s)) with (IsFlagSet g s).
  change (IsInDrainingPeriod (upd_calls ?f s)) with (IsInDrainingPeriod s).
  change (IsInClosingPeriod (upd_calls ?f s)) with (IsInClosingPeriod s).
  change (host_ (upd_calls ?f s)) with (host_ s).
  destruct (IsFlagSet QUICSESSION_FLAG_DESTROYED s
            || negb (QuicStream.WasEverWritable st)
            || QuicStream.HasSentFin st
            || IsInDrainingPeriod s
            || IsInClosingPeriod s
            || (ngtcp2_conn_get_max_data_left (host_ s) =? 0));
    [reflexivity|].
  cbn [orb] in Hguard.
  unfold QuicStream.DrainInto.
  destruct (QuicStream.queue st); [|discriminate].
  cbn [andb] in Hguard; rewrite Hguard; reflexivity.
Qed.

End StreamGuards.
(** ** The idle timer after a packet *)

Section AfterPacket.

Context {W : Type} {host : Host W} {ngtcp2 : Ngtcp2Constants}.

Lemma invoke_standing cb : preserves (@standing W) (invoke cb).
Proof.
  destruct cb; simpl;
    unfold OnReceiveStreamData, OnAckedCryptoOffset, OnStreamOpen,
      OnStreamClose, OnStreamReset, OnStatelessReset, Ngtcp2CallbackScope,
      ReceiveStreamData, CreateStream, QuicStream_New, AddStream,
      AckedCryptoOffset, StreamOpen, StreamClose, StreamReset, SilentClose,
      SetFlag, MakeCallback, increment_stat, set_stat;
    untouched ltac:(unfold standing; flag_leaf).
Qed.

Lemma invoke_all_standing cbs : preserves (@standing W) (invoke_all cbs).
Proof.
  induction cbs; simpl; [apply preserves_ret|].
  apply preserves_bind; [apply invoke_standing|intro; exact IHcbs].
Qed.

Lemma ReceivePacket_standing data nread :
  preserves (@standing W) (ReceivePacket data nread).
Proof.
  pose proof invoke_all_standing.
  unfold ReceivePacket, read_pkt, set_stat, SetLastError.
  untouched ltac:(unfold standing; flag_leaf); auto.
Qed.


End AfterPacket.
(** ** The error handed to [destroy] *)

Section DestroyBinding.

Context {W : Type} {host : Host W} {ngtcp2 : Ngtcp2Constants}.

(** X24.  The error that the JavaScript side hands to [QuicSessionDestroy]
    does not reach the peer.  On a session that is not destroyed, outside
    a transport callback and outside the closing and the draining period,
    [Destroy] resets the last error before it sends the CONNECTION_CLOSE,
    so that [QuicSessionDestroy] with any error ends exactly as a plain
    [Destroy].  On a destroyed session all that [QuicSessionDestroy] does
    is to store the error. *)
Theorem QuicSessionDestroy_drops_error (fuel : nat) (fam : QuicErrorFamily)
  (c : Z) (s : QuicSession W) :
  (IsFlagSet QUICSESSION_FLAG_DESTROYED s = true ->
   QuicSessionDestroy fuel fam c s
   = Done tt (upd_last_error (fun _ => InitQuicError fam c) s))
  /\ (IsFlagSet QUICSESSION_FLAG_DESTROYED s = false ->
      InNgtcp2CallbackScope s = false ->
      IsInClosingPeriod s = false ->
      IsInDrainingPeriod s = false ->
      QuicSessionDestroy fuel fam c s = Destroy fuel s).
Proof.
  split.
  - intros Hd; unfold QuicSessionDestroy, SetLastError.
    unfold bind at 1, modify at 1.
    apply Destroy_destroyed; exact Hd.
  - intros Hd Hcb Hcl Hdr.
    unfold QuicSessionDestroy, SetLastError.
    unfold bind at 1, modify at 1.
    unfold Destroy, SetLastError_default, SetLastError, bind, gets, modify.
    cbv beta.
    change (IsFlagSet ?f (upd_last_error ?g s)) with (IsFlagSet f s).
    rewrite Hd; cbv beta iota.
    change (InNgtcp2CallbackScope (upd_last_error ?g s))
      with (InNgtcp2CallbackScope s).
    change (IsInClosingPeriod (upd_last_error ?g s))
      with (IsInClosingPeriod s).
    change (IsInDrainingPeriod (upd_last_error ?g s))
      with (IsInDrainingPeriod s).
    rewrite Hcb, Hcl, Hdr; cbn [negb andb]; cbv beta iota.
    reflexivity.
Qed.

End DestroyBinding.
(** ** When the retransmission timer fires *)

Section Retransmission.

Context {W : Type} {host : Host W} {ngtcp2 : Ngtcp2Constants}.
Context {timers : LossTimers W}.

(** X25.  A firing of the retransmission timer counts at most one
    retransmission.  On a destroyed session [MaybeTimeout] does nothing.
    Otherwise, with [now] the clock reading: if the loss-detection timer
    of the library has expired, a [MaybeTimeout] that returns has counted
    one loss retransmission and nothing else, the ack-delay timer is not
    looked at; if only the ack-delay timer has expired, it has counted
    one ack-delay retransmission; if neither has expired, it returns with
    both counters as they were, and nothing is sent nor queued. *)
Theorem MaybeTimeout_counts_once (fuel : nat) (counts : retransmit_stats)
  (s : QuicSession W) (now : Z) (w : W) :
  uv_hrtime (host_ s) = (now, w) ->
  if IsFlagSet QUICSESSION_FLAG_DESTROYED s
  then MaybeTimeout fuel counts s = Done counts s
  else if ngtcp2_conn_loss_detection_expiry w <=? now
  then forall counts' s',
         MaybeTimeout fuel counts s = Done counts' s' ->
         loss_retransmit_count counts'
         = Int.wrap64 (loss_retransmit_count counts + 1)
         /\ ack_delay_retransmit_count counts'
            = ack_delay_retransmit_count counts
  else if ngtcp2_conn_ack_delay_expiry w <=? now
  then forall counts' s',
         MaybeTimeout fuel counts s = Done counts' s' ->
         loss_retransmit_count counts' = loss_retransmit_count counts
         /\ ack_delay_retransmit_count counts'
            = Int.wrap64 (ack_delay_retransmit_count counts + 1)
  else MaybeTimeout fuel counts s = Done counts (upd_host (fun _ => w) s).
Proof.
  intros Hclock.
  assert (Hstart : forall k : Z -> M W retransmit_stats,
             bind (call_host uv_hrtime) k s
             = k now (upd_host (fun _ => w) s)).
  { intros k; unfold bind, call_host; rewrite Hclock; reflexivity. }
  destruct (IsFlagSet QUICSESSION_FLAG_DESTROYED s) eqn:Hd.
  { unfold MaybeTimeout, bind, gets; rewrite Hd; reflexivity. }
  destruct (ngtcp2_conn_loss_detection_expiry w <=? now) eqn:Hloss.
  { intros counts' s' H; unfold MaybeTimeout in H.
    unfold bind at 1, gets at 1 in H; rewrite Hd, Hstart in H.
    unfold bind at 1, gets at 1 in H; cbn [host_ upd_host] in H.
    rewrite Hloss in H.
    apply bind_Done in H as (rv & s1 & _ & H).
    apply bind_Done in H as ([] & s2 & _ & H).
    apply bind_Done in H as ([] & s3 & _ & H).
    inversion H; subst; split; reflexivity. }
  destruct (ngtcp2_conn_ack_delay_expiry w <=? now) eqn:Hack.
  { intros counts' s' H; unfold MaybeTimeout in H.
    unfold bind at 1, gets at 1 in H; rewrite Hd, Hstart in H.
    unfold bind at 1, gets at 1 in H; cbn [host_ upd_host] in H.
    rewrite Hloss in H.
    unfold bind at 1, gets at 1 in H; cbn [host_ upd_host] in H.
    rewrite Hack in H.
    apply bind_Done in H as ([] & s1 & _ & H).
    apply bind_Done in H as ([] & s2 & _ & H).
    inversion H; subst; split; reflexivity. }
  unfold MaybeTimeout.
  unfold bind at 1, gets at 1; rewrite Hd, Hstart.
  unfold bind at 1, gets at 1; cbn [host_ upd_host]; rewrite Hloss.
  unfold bind at 1, gets at 1; cbn [host_ upd_host]; rewrite Hack.
  reflexivity.
Qed.

End Retransmission.

(** ** Handshake data until it is acknowledged *)

Section HandshakeData.

Context {W : Type} {host : Host W} {ngtcp2 : Ngtcp2Constants}.
Context {submit : CryptoSubmit W}.

Lemma AckedCryptoOffset_handshake (s : QuicSession W) level datalen s' :
  IsFlagSet QUICSESSION_FLAG_DESTROYED s = false ->
  AckedCryptoOffset level datalen s = Done tt s' ->
  handshake_ s'
  = crypto_put level
      (QuicBuffer.Consume (crypto_get level (handshake_ s)) datalen)
      (handshake_ s).
Proof.
  intros Hd H; unfold AckedCryptoOffset in H.
  unfold bind at 1, gets at 1 in H; rewrite Hd in H.
  unfold bind at 1, modify at 1 in H.
  apply bind_Done in H as (now & s1 & H1 & H).
  apply bind_Done in H as (at0 & s2 & H2 & H).
  apply bind_Done in H as ([] & s3 & H3 & H).
  unfold call_host in H1.
  match type of H1 with
  | (let (_, _) := ?x in _) = _ => destruct x
  end.
  inversion H1; subst; inversion H2; subst.
  unfold set_stat, modify in H; inversion H; subst.
  destruct (0 <? handshake_acked_at _); unfold when, modify, ret in H3;
    inversion H3; subst; reflexivity.
Qed.

(** X26.  Handshake bytes stay in the crypto buffer of their level until
    they are acknowledged.  When [WriteHandshake] returns on a session
    that is not destroyed, the library has taken the bytes (it aborts
    otherwise), the buffer of the level holds them behind what it held
    before, and the buffers of the other levels are as they were.  An
    acknowledgement of as many bytes as the buffer held before then
    leaves exactly the new bytes, and an acknowledgement of all of them
    leaves the buffer empty. *)
Theorem WriteHandshake_kept_until_acked (level : ngtcp2_crypto_level)
  (data : bytes) (sent_at : Z) (s : QuicSession W) (t : Z)
  (s1 : QuicSession W) :
  IsFlagSet QUICSESSION_FLAG_DESTROYED s = false ->
  WriteHandshake level data sent_at s = Done t s1 ->
  let old := crypto_get level (handshake_ s) in
  crypto_get level (handshake_ s1) = old ++ data
  /\ (forall l, l <> level ->
        crypto_get l (handshake_ s1) = crypto_get l (handshake_ s))
  /\ t = fst (uv_hrtime (host_ s))
  /\ (forall s2,
        AckedCryptoOffset level (blen old) s1 = Done tt s2 ->
        crypto_get level (handshake_ s2) = data)
  /\ (forall s2,
        AckedCryptoOffset level (blen (old ++ data)) s1 = Done tt s2 ->
        crypto_get level (handshake_ s2) = []).
Proof.
  intros Hd H old; unfold WriteHandshake in H.
  unfold bind at 1, gets at 1 in H; rewrite Hd in H.
  unfold bind at 1, call_host at 1 in H.
  destruct (uv_hrtime (host_ s)) as [now w] eqn:Hclock.
  unfold bind at 1, call_host at 1 in H; cbn [host_ upd_host] in H.
  destruct (ngtcp2_conn_submit_crypto_data level data (blen data) w)
    as [rv w'].
  unfold bind at 1, CHECK at 1 in H.
  destruct (rv =? 0); [|discriminate].
  unfold bind, modify, ret in H; inversion H; subst t s1; clear H.
  cbn [handshake_ upd_handshake upd_host fst].
  assert (Hsame : crypto_get level
                    (crypto_put level
                       (QuicBuffer.Push (crypto_get level (handshake_ s)) data)
                       (handshake_ s)) = old ++ data)
    by (rewrite crypto_get_put_same; reflexivity).
  assert (Hd1 : forall s0 : QuicSession W,
             flags_ s0 = flags_ s ->
             IsFlagSet QUICSESSION_FLAG_DESTROYED s0 = false)
    by (intros s0 E; unfold IsFlagSet in *; rewrite E; exact Hd).
  split; [exact Hsame|].
  split; [intros l Hl; apply crypto_get_put_other; exact Hl|].
  split; [reflexivity|].
  split; intros s2 H2;
    apply AckedCryptoOffset_handshake in H2; try (apply Hd1; reflexivity);
    rewrite H2; cbn [handshake_ upd_handshake upd_host];
    rewrite crypto_get_put_same, Hsame;
    unfold QuicBuffer.Consume, blen; rewrite Nat2Z.id.
  - rewrite skipn_app, skipn_all, Nat.sub_diag; reflexivity.
  - apply skipn_all.
Qed.

End HandshakeData.

(** ** A packet for a session that is there to refuse *)

Section Refusing.

Context {W : Type} {host : Host W} {ngtcp2 : Ngtcp2Constants}.

(** X27.  A session that was created with a close code, to refuse the
    connection, reports every packet as processed: on such a session,
    not destroyed and outside the closing and the draining period,
    [Receive] does not return false, whether the library could process
    the packet or not. *)
Theorem Receive_with_initial_close (fuel : nat) (nread : Z) (data : bytes)
  (addr : SocketAddress) (s : QuicSession W) (r : bool)
  (s' : QuicSession W) :
  IsFlagSet QUICSESSION_FLAG_DESTROYED s = false ->
  IsInClosingPeriod s = false ->
  IsInDrainingPeriod s = false ->
  initial_connection_close_ s <> NGTCP2_NO_ERROR ->
  Receive fuel nread data addr s = Done r s' ->
  r = true.
Proof.
  intros Hd Hcl Hdr Hinit H.
  unfold Receive in H.
  unfold bind at 1, gets at 1 in H; rewrite Hd in H.
  unfold bind at 1, increment_stat at 1, modify at 1 in H.
  unfold bind at 1, gets at 1 in H.
  change (IsInClosingPeriod (upd_session_stats ?f s))
    with (IsInClosingPeriod s) in H; rewrite Hcl in H.
  unfold bind at 1, gets at 1 in H.
  change (IsInDrainingPeriod (upd_session_stats ?f s))
    with (IsInDrainingPeriod s) in H; rewrite Hdr in H.
  unfold bind at 1, modify at 1 in H.
  apply bind_Done in H as (received & s3 & H3 & H).
  apply ReceivePacket_standing in H3.
  pose proof (f_equal snd H3) as Hi3.
  unfold standing in Hi3; cbn [snd] in Hi3.
  change (initial_connection_close_ s3 = initial_connection_close_ s) in Hi3.
  destruct received; cbn [negb] in H.
  - repeat first
      [ apply bind_Done in H as (? & ? & _ & H)
      | match type of H with
        | (if ?b then _ else _) _ = _ => destruct b
        end ];
      inversion H; reflexivity.
  - unfold bind at 1, gets at 1 in H; rewrite Hi3 in H.
    apply Z.eqb_neq in Hinit; rewrite Hinit in H.
    apply bind_Done in H as ([] & s4 & _ & H).
    apply bind_Done in H as (r0 & s5 & _ & H); inversion H; reflexivity.
Qed.

End Refusing.

(** ** Datagrams without a session *)

Section FirstPacket.

Context {constants : InitialPacketConstants}.

(** X28.  [Accept] lets a datagram start a session only when it is not
    shorter than the least initial packet, the library takes it for an
    initial packet, and it asks for the one version the code speaks.  A
    datagram shorter than the least initial packet is ignored, whatever
    it holds: it is not parsed, and it does not draw a version
    negotiation.  The length is compared as a [size_t]. *)
Theorem Accept_outcome (ngtcp2_accept : bytes -> Z -> Z) (version : Z)
  (data : bytes) (nread : Z) :
  (Accept ngtcp2_accept version data nread = PACKET_OK <->
   MIN_INITIAL_QUIC_PKT_SIZE <= Int.wrap64 nread
   /\ ngtcp2_accept data nread <> -1
   /\ ngtcp2_accept data nread <> 1
   /\ version = NGTCP2_PROTO_VER)
  /\ (Int.wrap64 nread < MIN_INITIAL_QUIC_PKT_SIZE ->
      forall accept', Accept accept' version data nread = PACKET_IGNORE)
  /\ (Accept ngtcp2_accept version data nread = PACKET_VERSION ->
      MIN_INITIAL_QUIC_PKT_SIZE <= Int.wrap64 nread
      /\ (ngtcp2_accept data nread = 1 \/ version <> NGTCP2_PROTO_VER)).
Proof.
  unfold Accept.
  destruct (Z.ltb_spec (Int.wrap64 nread) MIN_INITIAL_QUIC_PKT_SIZE)
    as [Hlt | Hge].
  - split; [split; [discriminate|lia]|].
    split; [intros _ accept'; reflexivity|discriminate].
  - cbv zeta.
    destruct (Z.eqb_spec (ngtcp2_accept data nread) (-1)) as [E1 | E1].
    + split; [split; [discriminate|tauto]|].
      split; [lia|discriminate].
    + destruct (Z.eqb_spec (ngtcp2_accept data nread) 1) as [E2 | E2].
      * split; [split; [discriminate|tauto]|].
        split; [lia|auto].
      * destruct (Z.eqb_spec version NGTCP2_PROTO_VER) as [Ev | Ev];
          cbn [negb].
        -- split; [split; auto|]. split; [lia|discriminate].
        -- split; [split; [discriminate|tauto]|].
           split; [lia|auto].
Qed.

End FirstPacket.

(** * The properties at work *)

(** Runs a routine on a concrete session. *)
Ltac evaluate f E :=
  let o := eval vm_compute in f in
  assert (E : f = o) by (vm_compute; reflexivity).

Ltac run :=
  match goal with
  | |- exists s', ?f = Done ?r s' /\ _ =>
      let o := eval vm_compute in f in
      match o with
      | Done _ ?s => exists s; split; [vm_compute; reflexivity|]
      end
  end.

(** C7.  The code at a server that adds stream 0, a bidirectional stream
    opened by the client: [streams_in_count] goes from 0 to 1, and
    [streams_out_count] goes from 0 to 1 as well, through the increment
    that follows the [switch] on the origin. *)
Theorem AddStream_counts_peer_stream_out :
  exists s',
    AddStream (QuicStream.fresh 0 true) Examples.server = Done tt s'
    /\ QuicStream.GetOrigin (QuicStream.fresh 0 true) = QUIC_STREAM_CLIENT
    /\ streams_in_count (session_stats_ Examples.server) = 0
    /\ streams_out_count (session_stats_ Examples.server) = 0
    /\ streams_in_count (session_stats_ s') = 1
    /\ streams_out_count (session_stats_ s') = 1.
Proof. eexists; repeat split. Qed.

(** A stream the server opens itself (stream 1) is counted twice. *)
Lemma AddStream_counts_local_stream_twice :
  exists s',
    AddStream (QuicStream.fresh 1 true) Examples.server = Done tt s'
    /\ QuicStream.GetOrigin (QuicStream.fresh 1 true) = QUIC_STREAM_SERVER
    /\ streams_in_count (session_stats_ s') = 0
    /\ streams_out_count (session_stats_ s') = 2.
Proof. eexists; repeat split. Qed.

(** C6, as stated, fails: with the idle expiry one second after the clock
    reading, [UpdateIdleTimer] arms the timer with 1000 ms, where
    min(1 ms, expiry - now) is 1 ms.  So does the [UpdateIdleTimer] at the
    end of a [Receive] that went through (the clock has moved on by
    then): 999 ms. *)
Lemma UpdateIdleTimer_not_min :
  (exists s',
      UpdateIdleTimer Examples.server = Done tt s'
      /\ idle_ s' = TimerArmed 1000
      /\ spec_idle_timeout 2000000000 1000000000 = 1
      /\ idle_ s' <> TimerArmed (spec_idle_timeout 2000000000 1000000000))
  /\ (exists s',
        Receive 5 100 [] 7 Examples.server = Done true s'
        /\ idle_ s' = TimerArmed 999).
Proof.
  split.
  - eexists; split; [reflexivity|].
    split; [reflexivity|].
    split; [reflexivity|].
    vm_compute; discriminate.
  - run; reflexivity.
Qed.

Lemma UpdateIdleTimer_timeout_witness :
  exists s',
    UpdateIdleTimer Examples.server = Done tt s'
    /\ idle_ s' = TimerArmed 1000.
Proof.
  destruct (UpdateIdleTimer_timeout Examples.server 1000000000
              (snd (Scripted.hrtime Scripted.idle_host)))
    as (s' & H & Ht).
  - reflexivity.
  - unfold Int.in_uint64; lia.
  - unfold Int.in_uint64; simpl; lia.
  - exists s'; split; [exact H|exact Ht].
Defined.

Lemma AckedCryptoOffset_consumes_head_witness :
  exists s',
    AckedCryptoOffset NGTCP2_CRYPTO_LEVEL_HANDSHAKE 2
      Examples.handshaking_server = Done tt s'
    /\ crypto_get NGTCP2_CRYPTO_LEVEL_HANDSHAKE (handshake_ s') = [Byte.x03].
Proof.
  pose proof (AckedCryptoOffset_consumes_head Examples.handshaking_server
                NGTCP2_CRYPTO_LEVEL_HANDSHAKE 2) as H.
  simpl in H.
  destruct H as (s' & H & Hhead & _); [unfold QuicBuffer.Length, blen; simpl; lia|].
  exists s'; split; [exact H|].
  injection Hhead; trivial.
Defined.

Lemma ReceiveStreamData_empty_frame_dropped_witness :
  FindStream 4 Examples.server = None
  /\ ReceiveStreamData 4 0 [] 0 0 Examples.server = Done tt Examples.server.
Proof.
  split; [reflexivity|].
  apply (ReceiveStreamData_empty_frame_dropped Examples.server 4 [] 0).
  reflexivity.
Defined.

Lemma Destroy_idempotent_witness :
  exists s',
    Destroy 5 Examples.client = Done tt s'
    /\ IsFlagSet QUICSESSION_FLAG_DESTROYED s' = true
    /\ Destroy 0 s' = Done tt s'.
Proof.
  run.
  destruct (Destroy_idempotent 5 0 Examples.client) as (_ & H & _).
  apply H; vm_compute; reflexivity.
Defined.

Lemma Receive_counts_bytes_witness :
  exists s',
    Receive 5 100 [] 7 Examples.draining_server = Done true s'
    /\ received s' = 100.
Proof.
  destruct (Receive_counts_bytes 5 100 [] 7 Examples.draining_server)
    as (_ & _ & H).
  - unfold Int.in_uint64; simpl; lia.
  - apply H; reflexivity.
Defined.

Lemma Receive_closing_period_witness :
  (exists s',
      Receive 5 100 [] 7 Examples.closing_server = Done true s'
      /\ attempts s' = 1
      /\ map payload (outbox_ s') = [[Byte.x1c; Byte.x00]])
  /\ Receive 5 100 [] 7 Examples.closing_server_at_limit
     = Done false (attempted 100 Examples.closing_server_at_limit).
Proof.
  split.
  - assert (Hd : IsFlagSet QUICSESSION_FLAG_DESTROYED Examples.closing_server
                 = false) by reflexivity.
    assert (Hc : IsInClosingPeriod Examples.closing_server = true)
      by reflexivity.
    destruct (Receive_closing_period 5 100 [] 7 Examples.closing_server Hc)
      as (H & _ & _).
    evaluate (Receive 5 100 [] 7 Examples.closing_server) E.
    pose proof (H Hd _ _ E) as Ha.
    eexists; split; [exact E|].
    split; [exact Ha|reflexivity].
  - assert (Hd : IsFlagSet QUICSESSION_FLAG_DESTROYED
                   Examples.closing_server_at_limit = false) by reflexivity.
    assert (Hc : IsInClosingPeriod Examples.closing_server_at_limit = true)
      by reflexivity.
    destruct (Receive_closing_period 5 100 [] 7
                Examples.closing_server_at_limit Hc) as (_ & _ & H & _).
    apply H; [exact Hd|simpl; lia].
Defined.

Lemma draining_period_sends_nothing_witness :
  Receive 5 100 [] 7 Examples.draining_server
  = Done true (counted 100 Examples.draining_server)
  /\ SendConnectionClose 5 Examples.draining_server
     = Done true Examples.draining_server
  /\ SendPendingData 5 Examples.draining_server
     = Done tt Examples.draining_server.
Proof.
  assert (Hdr : IsInDrainingPeriod Examples.draining_server = true)
    by reflexivity.
  destruct (draining_period_sends_nothing 5 Examples.draining_server Hdr)
    as (_ & Hr & _ & Hc & Hp & _).
  split; [apply Hr; reflexivity|].
  split; [exact Hc|exact Hp].
Defined.

Lemma SendPendingData_order_witness :
  exists s',
    SendPendingData 10 Examples.busy_server = Done tt s'
    /\ phases s' = send_plan [4; 1]
    /\ map diagnostic_label (outbox_ s')
       = ["stream data"; "stream data";
          "pending session data - write packets"]%string.
Proof.
  destruct (SendPendingData_order 10 Examples.busy_server) as (_ & H).
  assert (Hcb : InNgtcp2CallbackScope Examples.busy_server = false)
    by reflexivity.
  assert (Hd : IsFlagSet QUICSESSION_FLAG_DESTROYED Examples.busy_server
               = false) by reflexivity.
  assert (Hdr : IsInDrainingPeriod Examples.busy_server = false)
    by reflexivity.
  assert (Hc : Side Examples.busy_server = NGTCP2_CRYPTO_SIDE_SERVER ->
               IsInClosingPeriod Examples.busy_server = false)
    by reflexivity.
  destruct (H Hcb Hd Hdr Hc) as (_ & _ & Hcomplete & _).
  evaluate (SendPacket "pending session data" Examples.busy_server) Ef.
  match type of Ef with _ = Done _ ?s0 =>
    evaluate (SendStreamData 10 4 s0) E4
  end.
  match type of E4 with _ = Done _ ?s1 =>
    assert (C4 : state_changed s1 = false) by (vm_compute; reflexivity);
    evaluate (SendStreamData 10 1 s1) E1
  end.
  match type of E1 with _ = Done _ ?s2 =>
    assert (C1 : state_changed s2 = false) by (vm_compute; reflexivity);
    evaluate (WritePackets 10 "pending session data - write packets" s2) Ew
  end.
  pose proof (fun pass => Hcomplete _ _ _ _ Ef pass Ew) as Hrun.
  destruct Hrun as (Hp & Hrun).
  { eapply pass_next; [exact E4|exact C4|].
    eapply pass_next; [exact E1|exact C1|apply pass_done]. }
  eexists; split; [exact Hrun|].
  split; [exact Hp|vm_compute; reflexivity].
Defined.

Lemma SendStreamData_writev_results_witness :
  exists s',
    SendStreamData_loop 1 4 [[Byte.x01]] Examples.exhausted_server
    = Done false s'
    /\ IsFlagSet QUICSESSION_FLAG_SILENT_CLOSE s' = true
    /\ IsFlagSet QUICSESSION_FLAG_CLOSING s' = true.
Proof.
  edestruct (SendStreamData_writev_results 0 4 [[Byte.x01]]
               Examples.exhausted_server) as (_ & H & _);
    [reflexivity|reflexivity|reflexivity|simpl; lia|].
  destruct (H ltac:(reflexivity)) as (_ & Hrun).
  eexists; split; [apply Hrun; reflexivity|].
  split; reflexivity.
Defined.

(** ** The further properties at work *)

Lemma Consume_drops_prefix_witness :
  List.concat (Consume [[Byte.x01; Byte.x02]; [Byte.x03]] 1)
  = [Byte.x02; Byte.x03].
Proof.
  rewrite (Consume_drops_prefix [[Byte.x01; Byte.x02]; [Byte.x03]] 1) by lia.
  reflexivity.
Defined.

Lemma IsEmpty_after_Consume_witness :
  IsEmpty (Consume [[Byte.x01; Byte.x02]; [Byte.x03]] 3) = true
  /\ IsEmpty (Consume [[Byte.x01; Byte.x02]; [Byte.x03]] 2) = false.
Proof.
  split.
  - rewrite (IsEmpty_after_Consume [[Byte.x01; Byte.x02]; [Byte.x03]] 3)
      by lia.
    reflexivity.
  - reflexivity.
Defined.

Lemma AddStream_then_RemoveStream_witness :
  exists s',
    bind (AddStream (QuicStream.fresh 8 true)) (fun _ => RemoveStream 8)
      Examples.busy_server = Done tt s'
    /\ map fst (streams_ s') = [4; 1].
Proof.
  destruct (AddStream_then_RemoveStream Examples.busy_server
              (QuicStream.fresh 8 true)) as (s' & H & Hs);
    [reflexivity|].
  exists s'; split; [exact H|rewrite Hs; reflexivity].
Defined.


Lemma silent_close_sends_nothing_witness :
  SendConnectionClose 5 Examples.silent_server
  = Done true Examples.silent_server
  /\ exists s',
       Destroy 5 Examples.silent_server = Done tt s' /\ outbox_ s' = [].
Proof.
  assert (Hs : IsFlagSet QUICSESSION_FLAG_SILENT_CLOSE Examples.silent_server
               = true) by reflexivity.
  assert (Hcb : InNgtcp2CallbackScope Examples.silent_server = false)
    by reflexivity.
  destruct (silent_close_sends_nothing 5 Examples.silent_server Hs Hcb)
    as (H & _ & _ & Hd).
  split; [exact H|].
  evaluate (Destroy 5 Examples.silent_server) E.
  eexists; split; [exact E|].
  destruct (Hd _ E) as (Hw & _).
  exact (f_equal (fun p => fst (fst p)) Hw).
Defined.


Lemma closing_server_sends_stored_close_witness :
  exists s',
    SendConnectionClose 5 Examples.closing_server = Done true s'
    /\ map payload (outbox_ s') = [[Byte.x1c; Byte.x00]]
    /\ conn_closebuf_ s' = [Byte.x1c; Byte.x00].
Proof.
  assert (H1 : Side Examples.closing_server = NGTCP2_CRYPTO_SIDE_SERVER)
    by reflexivity.
  assert (H2 : IsInClosingPeriod Examples.closing_server = true)
    by reflexivity.
  assert (H3 : IsInDrainingPeriod Examples.closing_server = false)
    by reflexivity.
  assert (H4 : IsFlagSet QUICSESSION_FLAG_SILENT_CLOSE Examples.closing_server
               = false) by reflexivity.
  assert (H5 : socket_ Examples.closing_server = true) by reflexivity.
  destruct (closing_server_sends_stored_close 5 Examples.closing_server
              H1 H2 H3 H4 H5) as (H & _).
  evaluate (SendConnectionClose 5 Examples.closing_server) E.
  eexists; split; [exact E|].
  destruct (H _ _ E) as (Hk & _ & Ho).
  split; [exact (f_equal (map payload) Ho)|exact Hk].
Defined.

Lemma WritePackets_write_pkt_results_witness :
  exists s',
    WritePackets 1 "ping" Examples.spent_server = Done false s'
    /\ IsFlagSet QUICSESSION_FLAG_SILENT_CLOSE s' = true
    /\ outbox_ s' = [].
Proof.
  edestruct (WritePackets_write_pkt_results 0 "ping" Examples.spent_server)
    as (_ & H & _);
    [reflexivity|reflexivity|reflexivity|reflexivity|reflexivity
    |reflexivity|simpl; lia|].
  eexists; split; [apply H; reflexivity|].
  split; reflexivity.
Defined.


Lemma ReceivePacket_sends_nothing_witness :
  exists s',
    ReceivePacket [] 100 Examples.receiving_server = Done true s'
    /\ map fst (streams_ s') = [4]
    /\ outbox_ s' = []
    /\ InNgtcp2CallbackScope s' = false.
Proof.
  evaluate (ReceivePacket [] 100 Examples.receiving_server) E.
  eexists; split; [exact E|].
  destruct (ReceivePacket_sends_nothing _ _ _ _ _ E) as (Hw & _ & Hs).
  split; [reflexivity|].
  split; [exact (f_equal (fun p => fst (fst p)) Hw)|apply Hs; reflexivity].
Defined.

Lemma ScheduleRetransmit_timeout_witness :
  exists s',
    ScheduleRetransmit Examples.server = Done tt s'
    /\ retransmit_ s' = TimerArmed 1000.
Proof.
  destruct (ScheduleRetransmit_timeout Examples.server 1000000000
              (snd (Scripted.hrtime Scripted.idle_host)))
    as (s' & H & Ht & _).
  - reflexivity.
  - unfold Int.in_uint64; lia.
  - unfold Int.in_uint64; simpl; lia.
  - exists s'; split; [exact H|exact Ht].
Defined.

Lemma Ping_outcome_witness :
  Ping 5 Examples.closing_server = Done tt Examples.closing_server
  /\ exists s',
       Ping 5 Examples.server = Done tt s'
       /\ idle_ s' = TimerArmed 999 /\ retransmit_ s' = TimerArmed 999.
Proof.
  split.
  - exact (Ping_outcome 5 Examples.closing_server).
  - run; split; reflexivity.
Defined.


Lemma ReceiveStreamData_known_stream_witness :
  exists s' st,
    ReceiveStreamData 4 1 [Byte.x01] 1 0 Examples.streaming_server
    = Done tt s'
    /\ FindStream 4 s' = Some st
    /\ QuicStream.received st = [(1, 1, 0)].
Proof.
  destruct (ReceiveStreamData_known_stream Examples.streaming_server
              4 1 [Byte.x01] 1 0 (QuicStream.fresh 4 true))
    as (s' & H & Hf & _); [reflexivity|reflexivity|reflexivity|].
  eexists s', _; split; [exact H|]. split; [exact Hf|reflexivity].
Defined.

Lemma ReceiveStreamData_refuses_stream_witness :
  exists s',
    ReceiveStreamData 4 1 [] 0 0 Examples.server = Done tt s'
    /\ streams_ s' = [] /\ events_ s' = [].
Proof.
  destruct (ReceiveStreamData_refuses_stream Examples.server 4 1 [] 0 0)
    as (s' & H & Hs & He & _);
    [reflexivity|reflexivity|reflexivity|right; reflexivity|].
  exists s'; split; [exact H|]. split; [exact Hs|exact He].
Defined.

Lemma ReceiveStreamData_creates_stream_witness :
  exists s',
    ReceiveStreamData 4 0 [Byte.x01; Byte.x02] 2 0 Examples.server
    = Done tt s'
    /\ map fst (streams_ s') = [4]
    /\ events_ s' = [on_stream_ready 4].
Proof.
  destruct (ReceiveStreamData_creates_stream Examples.server
              4 0 [Byte.x01; Byte.x02] 2 0)
    as (s' & st & H & _ & _ & _ & Hk & _ & He);
    [reflexivity|reflexivity|reflexivity|reflexivity|lia|].
  exists s'; split; [exact H|]. split; [exact Hk|exact He].
Defined.

Lemma AckedCryptoOffset_records_delay_witness :
  exists s',
    bind (AckedCryptoOffset NGTCP2_CRYPTO_LEVEL_HANDSHAKE 1)
      (fun _ => AckedCryptoOffset NGTCP2_CRYPTO_LEVEL_HANDSHAKE 2)
      Examples.handshaking_server = Done tt s'
    /\ crypto_rx_ack_ s' = [1]
    /\ handshake_acked_at (session_stats_ s') = 1000000001.
Proof.
  edestruct (AckedCryptoOffset_records_delay Examples.handshaking_server
               NGTCP2_CRYPTO_LEVEL_HANDSHAKE NGTCP2_CRYPTO_LEVEL_HANDSHAKE
               1 2)
    as (s' & H & Ha & Hr); [reflexivity|reflexivity|reflexivity|].
  exists s'; split; [exact H|]. split; [exact Hr|exact Ha].
Defined.

Lemma SendStreamData_leaves_stream_witness :
  SendStreamData 5 4 Examples.streaming_server
  = Done true
      (upd_calls (fun l => l ++ [CallSendStreamData 4])
         Examples.streaming_server).
Proof.
  apply (SendStreamData_leaves_stream 5 4 Examples.streaming_server
           (QuicStream.fresh 4 true)); reflexivity.
Defined.


Lemma QuicSessionDestroy_drops_error_witness :
  QuicSessionDestroy 5 QUIC_ERROR_APPLICATION 77 Examples.client
  = Destroy 5 Examples.client.
Proof.
  apply (QuicSessionDestroy_drops_error 5 QUIC_ERROR_APPLICATION 77
           Examples.client); reflexivity.
Defined.

Lemma MaybeTimeout_counts_once_witness :
  exists counts' s',
    MaybeTimeout 5
      {| loss_retransmit_count := 0; ack_delay_retransmit_count := 0 |}
      Examples.late_server = Done counts' s'
    /\ loss_retransmit_count counts' = 1
    /\ ack_delay_retransmit_count counts' = 0.
Proof.
  evaluate (MaybeTimeout 5
              {| loss_retransmit_count := 0;
                 ack_delay_retransmit_count := 0 |}
              Examples.late_server) E.
  eexists _, _; split; [exact E|].
  pose proof (MaybeTimeout_counts_once 5
                {| loss_retransmit_count := 0;
                   ack_delay_retransmit_count := 0 |}
                Examples.late_server 3000000000
                (snd (Scripted.hrtime (host_ Examples.late_server)))
                eq_refl) as H.
  cbn in H; exact (H _ _ E).
Defined.

Lemma WriteHandshake_kept_until_acked_witness :
  exists t s1 s2,
    WriteHandshake NGTCP2_CRYPTO_LEVEL_HANDSHAKE [Byte.x04; Byte.x05] 0
      Examples.handshaking_server = Done t s1
    /\ crypto_get NGTCP2_CRYPTO_LEVEL_HANDSHAKE (handshake_ s1)
       = [Byte.x01; Byte.x02; Byte.x03; Byte.x04; Byte.x05]
    /\ AckedCryptoOffset NGTCP2_CRYPTO_LEVEL_HANDSHAKE 3 s1 = Done tt s2
    /\ crypto_get NGTCP2_CRYPTO_LEVEL_HANDSHAKE (handshake_ s2)
       = [Byte.x04; Byte.x05].
Proof.
  evaluate (WriteHandshake NGTCP2_CRYPTO_LEVEL_HANDSHAKE [Byte.x04; Byte.x05]
              0 Examples.handshaking_server) E.
  assert (Hd : IsFlagSet QUICSESSION_FLAG_DESTROYED
                 Examples.handshaking_server = false) by reflexivity.
  destruct (WriteHandshake_kept_until_acked _ _ _ _ _ _ Hd E)
    as (H1 & _ & _ & H2 & _).
  match type of E with
  | _ = Done _ ?s1 =>
      evaluate (AckedCryptoOffset NGTCP2_CRYPTO_LEVEL_HANDSHAKE 3 s1) E2
  end.
  eexists _, _, _; split; [exact E|]. split; [exact H1|].
  split; [exact E2|exact (H2 _ E2)].
Defined.

Lemma Receive_with_initial_close_witness :
  exists s',
    Receive 5 100 [] 7 Examples.refusing_server = Done true s'
    /\ last_error_ s' = InitQuicError QUIC_ERROR_SESSION 2
    /\ List.length (outbox_ s') = 1%nat.
Proof.
  evaluate (Receive 5 100 [] 7 Examples.refusing_server) E.
  assert (H1 : IsFlagSet QUICSESSION_FLAG_DESTROYED Examples.refusing_server
               = false) by reflexivity.
  assert (H2 : IsInClosingPeriod Examples.refusing_server = false)
    by reflexivity.
  assert (H3 : IsInDrainingPeriod Examples.refusing_server = false)
    by reflexivity.
  assert (H4 : initial_connection_close_ Examples.refusing_server
               <> NGTCP2_NO_ERROR) by (simpl; lia).
  pose proof (Receive_with_initial_close 5 100 [] 7 _ _ _ H1 H2 H3 H4 E)
    as Hr.
  eexists; split; [exact E|].
  split; reflexivity.
Defined.

Lemma Accept_outcome_witness :
  Accept (fun _ _ => 0) 4278190103 [] 1200 = PACKET_OK
  /\ Accept (fun _ _ => 1) 4278190103 [] 100 = PACKET_IGNORE.
Proof.
  destruct (Accept_outcome (fun _ _ => 0) 4278190103 [] 1200)
    as ((_ & Hok) & _).
  destruct (Accept_outcome (fun _ _ => 0) 4278190103 [] 100)
    as (_ & Hshort & _).
  split.
  - apply Hok; repeat split; try reflexivity; vm_compute; discriminate.
  - apply Hshort; vm_compute; reflexivity.
Defined.
